(** * libgracht: server core and client socket link

    A shallow embedding of [server.c] (the server core: client registry,
    subscriptions, broadcast, response path, event classification and
    initialisation) and of [link/socket/client.c] (the client side socket
    link), followed by the properties established about them.

    Conventions.
    - C integers are [Z]; a [uint8_t] lives in [0, 256) and a [uint32_t] in
      [0, 2^32); wrap-around is written out where the code can overflow.
    - Memory reached through a char pointer is a [list Z] of bytes; a load or a
      store outside the list is a fault, as is following a NULL pointer.
    - Calls that leave the translation unit (the link operations, the
      readiness facility, the arena, the worker pool, the callbacks, the
      protocol actions, the system calls) are recorded in a trace, oldest
      first, and take their results from a table of replies that may depend
      on everything recorded so far.
    - [mtx_lock]/[mtx_unlock] and [smp_mb] have no effect on a single thread
      of control and are left out. *)

From Stdlib Require Import ZArith List Lia Bool.
From stdpp Require Import base option list gmap.

Local Open Scope Z_scope.

(** ** Outcomes of running a piece of C *)

Inductive fault : Type :=
| NullPointer      (* a NULL pointer was followed *)
| OutOfBounds      (* a load or store outside the buffer *)
| AssertionFailed  (* assert(0) *)
| DanglingPointer  (* a pointer to an element that was removed was followed *).

Inductive outcome (A : Type) : Type :=
| Ok (a : A)
| Crash (f : fault)
| OutOfFuel.

Arguments Ok {A} a.
Arguments Crash {A} f.
Arguments OutOfFuel {A}.

(** ** errno values (<errno.h>, Linux) *)

Module Errno.
Definition ENOENT   : Z := 2.
Definition E2BIG    : Z := 7.
Definition EINVAL   : Z := 22.
Definition EPIPE    : Z := 32.
Definition ENODATA  : Z := 61.
Definition ENOTSUP  : Z := 95.
Definition EALREADY : Z := 114.
End Errno.
Import Errno.

(** ** Bytes and words in a buffer *)

Module Mem.
(** [(uint8_t)data[off]] *)
Definition load8 (data : list Z) (off : Z) : option Z :=
  if off <? 0 then None
  else match data !! Z.to_nat off with
       | Some b => Some (b mod 256)
       | None => None
       end.

(** The 32-bit load at [&data[off]], little-endian as on the wire. *)
Definition load32 (data : list Z) (off : Z) : option Z :=
  match load8 data off, load8 data (off + 1),
        load8 data (off + 2), load8 data (off + 3) with
  | Some b0, Some b1, Some b2, Some b3 =>
      Some (b0 + 256 * b1 + 65536 * b2 + 16777216 * b3)
  | _, _, _, _ => None
  end.

Definition store8 (data : list Z) (off : Z) (v : Z) : option (list Z) :=
  if off <? 0 then None
  else match data !! Z.to_nat off with
       | Some _ => Some (<[Z.to_nat off := v mod 256]> data)
       | None => None
       end.

(** The 32-bit store of [v] at [&data[off]]. *)
Definition store32 (data : list Z) (off : Z) (v : Z) : option (list Z) :=
  match store8 data off v with
  | Some d0 =>
      match store8 d0 (off + 1) (v / 256) with
      | Some d1 =>
          match store8 d1 (off + 2) (v / 65536) with
          | Some d2 => store8 d2 (off + 3) (v / 16777216)
          | None => None
          end
      | None => None
      end
  | None => None
  end.
End Mem.

(** ** Client records and the subscription bitmap *)

(** Modelled from the spec: [struct gracht_server_client] is declared in a
    header outside this translation unit.  The fields the server touches are
    the connection handle and the bitmap [subscriptions], 256 bits held as 8
    words of 32 bits. *)
Record gracht_server_client : Type := mk_client {
  handle : Z;
  subscriptions : list Z
}.

(** [memset(&words[0], byte, sizeof(words))] over an array of [uint32_t]. *)
Definition memset32 (words : list Z) (byte : Z) : list Z :=
  map (fun _ => (byte mod 256) * 16843009) words.

(** [words[block]] with the array read as zero outside its bounds (the index
    is [id / 32] with [id < 256], so it stays inside an 8-word array). *)
Definition word_at (words : list Z) (block : Z) : Z :=
  default 0 (words !! Z.to_nat block).

Definition client_subscribe (client : gracht_server_client) (id : Z)
  : gracht_server_client :=
  let block := id / 32 in
  let offset := id mod 32 in
  if id =? 255 then
    mk_client (handle client) (memset32 (subscriptions client) 255)
  else
    mk_client (handle client)
      (<[Z.to_nat block :=
           Z.lor (word_at (subscriptions client) block) (Z.shiftl 1 offset)]>
         (subscriptions client)).

Definition client_unsubscribe (client : gracht_server_client) (id : Z)
  : gracht_server_client :=
  let block := id / 32 in
  let offset := id mod 32 in
  if id =? 255 then
    mk_client (handle client) (memset32 (subscriptions client) 0)
  else
    mk_client (handle client)
      (<[Z.to_nat block :=
           Z.land (word_at (subscriptions client) block)
                  (Z.lnot (Z.shiftl 1 offset))]>
         (subscriptions client)).

Definition client_is_subscribed (client : gracht_server_client) (id : Z)
  : bool :=
  let block := id / 32 in
  let offset := id mod 32 in
  negb (Z.land (word_at (subscriptions client) block) (Z.shiftl 1 offset) =? 0).

(** ** Messages, protocols and the server singleton *)

(** Modelled from the spec: [gracht_buffer_t] is a data pointer with a
    cursor ([data], [index]); the declaration is in a header outside this
    translation unit. *)
Record gracht_buffer : Type := mk_buffer {
  buf_data : list Z;
  buf_index : Z
}.

(** Modelled from the spec: [struct gracht_recv_message], the receive context
    with the originating handle ([client]), the parse cursor ([index]) and the
    received bytes ([payload]). *)
Record gracht_recv_message : Type := mk_recv_message {
  client : Z;
  index : Z;
  payload : list Z
}.

(** Modelled from the spec: an action descriptor (action id and the opaque
    function pointer [address]) and a protocol record (protocol id and its
    ordered table of action descriptors). *)
Record gracht_protocol_function : Type := mk_function {
  function_id : Z;
  address : Z
}.

Record gracht_protocol : Type := mk_protocol {
  protocol_id : Z;
  functions : list gracht_protocol_function
}.

(** [struct client_wrapper].  The [client] pointer is held as the record it
    points to: the link hands out one object per accepted or created client
    and no two wrappers share one. *)
Record client_wrapper : Type := mk_wrapper {
  wrapper_handle : Z;
  wrapper_client : gracht_server_client
}.

(** [struct server_operations]: the two tables the code defines. *)
Inductive server_operations : Type :=
| g_stOperations
| g_mtOperations.

(** [struct gracht_server_callbacks]: a field is [true] when the function
    pointer is not NULL. *)
Record gracht_server_callbacks : Type := mk_callbacks {
  clientConnected : bool;
  clientDisconnected : bool
}.

(** [struct gracht_server].  Pointers to objects of other translation units
    are addresses with [0] for NULL; [ops] is [None] for NULL.  The [link]
    pointer is required by the configuration and stands for the table of link
    operations the functions below are parameterised by; [sync_object] has no
    content on one thread. *)
Record gracht_server : Type := mk_server {
  ops : option server_operations;
  callbacks : gracht_server_callbacks;
  arena : Z;
  worker_pool : Z;
  allocationSize : Z;
  sendBuffer : Z;
  recvBuffer : Z;
  initialized : Z;
  set_handle : Z;
  set_handle_provided : Z;
  listen_handle : Z;
  dgram_handle : Z;
  protocols : gmap Z gracht_protocol;
  clients : gmap Z client_wrapper
}.

(** [gracht_server_configuration_t] without its [link] field (see above). *)
Record gracht_server_configuration : Type := mk_configuration {
  cfg_callbacks : gracht_server_callbacks;
  set_descriptor_provided : Z;
  set_descriptor : Z;
  server_workers : Z;
  max_message_size : Z
}.

(** ** Calls that leave the translation unit *)

Inductive event : Type :=
| EvLinkListen (kind : Z)
| EvLinkAccept
| EvLinkRecvPacket (message : Z) (flags : Z)
| EvLinkRecvClient (c : gracht_server_client) (message : Z) (flags : Z)
| EvLinkSendClient (c : gracht_server_client) (message : gracht_buffer) (flags : Z)
| EvLinkRespond (context : gracht_recv_message) (message : gracht_buffer)
| EvLinkCreateClient (context : gracht_recv_message)
| EvLinkDestroyClient (c : gracht_server_client)
| EvAioCreate
| EvAioAdd (set : Z) (h : Z)
| EvAioRemove (set : Z) (h : Z)
| EvWorkerPoolCreate (workers : Z) (size : Z)
| EvWorkerPoolDispatch (pool : Z) (message : gracht_recv_message)
| EvArenaCreate (size : Z)
| EvArenaAllocate (arena : Z) (size : Z)
| EvArenaFree (arena : Z) (message : Z) (size : Z)
| EvMalloc (size : Z)
| EvClientConnected (h : Z)
| EvClientDisconnected (h : Z)
| EvControlError (h : Z) (id : Z) (code : Z)
| EvInvoke (fn : Z) (context : gracht_recv_message) (buffer : gracht_buffer).

(** What a callee hands back: its return value, the value it leaves in
    [errno] if it writes one, and what it stores through its out-parameter. *)
Record reply (A : Type) : Type := mk_reply {
  r_ret : Z;
  r_errno : option Z;
  r_out : A
}.

Arguments mk_reply {A} r_ret r_errno r_out.
Arguments r_ret {A} r.
Arguments r_errno {A} r.
Arguments r_out {A} r.

(** The process as the server sees it: the singleton, [errno] and the calls
    made so far. *)
Record world : Type := mk_world {
  g_grachtServer : gracht_server;
  errno : Z;
  trace : list event
}.

(** [struct server_link_ops]: the link's capability set.  Each entry gives
    the callee's reply from the calls made before it and its arguments. *)
Record server_link_ops : Type := mk_link {
  listen : list event -> Z -> reply unit;
  accept : list event -> reply gracht_server_client;
  recv_packet : list event -> Z -> Z -> reply gracht_recv_message;
  recv_client : list event -> gracht_server_client -> Z -> Z -> reply gracht_recv_message;
  send_client : list event -> gracht_server_client -> gracht_buffer -> Z -> reply unit;
  respond : list event -> gracht_recv_message -> gracht_buffer -> reply unit;
  create_client : list event -> gracht_recv_message -> reply gracht_server_client
}.

(** The other collaborators: readiness facility, worker pool, arena, the C
    allocator, and the protocol actions reached through [function->address],
    which are free to change the process in any way. *)
Record runtime : Type := mk_runtime {
  gracht_aio_create : list event -> reply unit;
  gracht_aio_add : list event -> Z -> Z -> reply unit;
  gracht_aio_remove : list event -> Z -> Z -> reply unit;
  gracht_worker_pool_create : list event -> Z -> Z -> reply Z;
  gracht_worker_pool_get_worker_scratchpad : list event -> Z -> Z;
  gracht_arena_create : list event -> Z -> reply Z;
  gracht_arena_allocate : list event -> Z -> Z -> reply unit;
  malloc : list event -> Z -> reply unit;
  action : Z -> gracht_recv_message -> gracht_buffer -> world -> outcome world
}.

(** ** The state monad the functions run in *)

Definition St (S A : Type) : Type := S -> outcome (A * S).

Definition ret {S A : Type} (a : A) : St S A := fun w => Ok (a, w).

Definition bind {S A B : Type} (m : St S A) (k : A -> St S B) : St S B :=
  fun w =>
    match m w with
    | Ok (a, w') => k a w'
    | Crash f => Crash f
    | OutOfFuel => OutOfFuel
    end.

Notation "'let*' x ':=' m 'in' k" := (bind m (fun x => k))
  (at level 10, x name, m at level 100, k at level 200).
Notation "m ';;' k" := (bind m (fun _ => k))
  (at level 100, k at level 200, right associativity).

Definition crash {S A : Type} (f : fault) : St S A := fun _ => Crash f.

Definition out_of_fuel {S A : Type} : St S A := fun _ => OutOfFuel.

(** Loading through a pointer into a buffer. *)
Definition load {S A : Type} (o : option A) : St S A :=
  match o with
  | Some a => ret a
  | None => crash OutOfBounds
  end.

(** The server functions run on [world]. *)
Definition M (A : Type) : Type := St world A.

Definition get_server : M gracht_server :=
  fun w => Ok (g_grachtServer w, w).

Definition put_server (s : gracht_server) : M unit :=
  fun w => Ok (tt, mk_world s (errno w) (trace w)).

Definition get_errno : M Z := fun w => Ok (errno w, w).

Definition set_errno (e : Z) : M unit :=
  fun w => Ok (tt, mk_world (g_grachtServer w) e (trace w)).

(** A call to a collaborator: the reply is taken from the calls made so far,
    the call is recorded, and [errno] takes the callee's value if any. *)
Definition call {A : Type} (e : event) (f : list event -> reply A) : M (reply A) :=
  fun w =>
    let r := f (trace w) in
    Ok (r, mk_world (g_grachtServer w)
                    (default (errno w) (r_errno r))
                    (trace w ++ [e])).

(** A call whose callee returns nothing the caller reads. *)
Definition notify (e : event) : M unit :=
  fun w => Ok (tt, mk_world (g_grachtServer w) (errno w) (trace w ++ [e])).

(** Field updates of the singleton. *)
Definition with_ops (s : gracht_server) (v : option server_operations) : gracht_server :=
  mk_server v (callbacks s) (arena s) (worker_pool s) (allocationSize s)
    (sendBuffer s) (recvBuffer s) (initialized s) (set_handle s)
    (set_handle_provided s) (listen_handle s) (dgram_handle s) (protocols s)
    (clients s).

Definition with_callbacks (s : gracht_server) (v : gracht_server_callbacks) : gracht_server :=
  mk_server (ops s) v (arena s) (worker_pool s) (allocationSize s)
    (sendBuffer s) (recvBuffer s) (initialized s) (set_handle s)
    (set_handle_provided s) (listen_handle s) (dgram_handle s) (protocols s)
    (clients s).

Definition with_arena (s : gracht_server) (v : Z) : gracht_server :=
  mk_server (ops s) (callbacks s) v (worker_pool s) (allocationSize s)
    (sendBuffer s) (recvBuffer s) (initialized s) (set_handle s)
    (set_handle_provided s) (listen_handle s) (dgram_handle s) (protocols s)
    (clients s).

Definition with_worker_pool (s : gracht_server) (v : Z) : gracht_server :=
  mk_server (ops s) (callbacks s) (arena s) v (allocationSize s)
    (sendBuffer s) (recvBuffer s) (initialized s) (set_handle s)
    (set_handle_provided s) (listen_handle s) (dgram_handle s) (protocols s)
    (clients s).

Definition with_allocationSize (s : gracht_server) (v : Z) : gracht_server :=
  mk_server (ops s) (callbacks s) (arena s) (worker_pool s) v (sendBuffer s)
    (recvBuffer s) (initialized s) (set_handle s) (set_handle_provided s)
    (listen_handle s) (dgram_handle s) (protocols s) (clients s).

Definition with_sendBuffer (s : gracht_server) (v : Z) : gracht_server :=
  mk_server (ops s) (callbacks s) (arena s) (worker_pool s) (allocationSize s)
    v (recvBuffer s) (initialized s) (set_handle s) (set_handle_provided s)
    (listen_handle s) (dgram_handle s) (protocols s) (clients s).

Definition with_recvBuffer (s : gracht_server) (v : Z) : gracht_server :=
  mk_server (ops s) (callbacks s) (arena s) (worker_pool s) (allocationSize s)
    (sendBuffer s) v (initialized s) (set_handle s) (set_handle_provided s)
    (listen_handle s) (dgram_handle s) (protocols s) (clients s).

Definition with_initialized (s : gracht_server) (v : Z) : gracht_server :=
  mk_server (ops s) (callbacks s) (arena s) (worker_pool s) (allocationSize s)
    (sendBuffer s) (recvBuffer s) v (set_handle s) (set_handle_provided s)
    (listen_handle s) (dgram_handle s) (protocols s) (clients s).

Definition with_set_handle (s : gracht_server) (v : Z) : gracht_server :=
  mk_server (ops s) (callbacks s) (arena s) (worker_pool s) (allocationSize s)
    (sendBuffer s) (recvBuffer s) (initialized s) v (set_handle_provided s)
    (listen_handle s) (dgram_handle s) (protocols s) (clients s).

Definition with_set_handle_provided (s : gracht_server) (v : Z) : gracht_server :=
  mk_server (ops s) (callbacks s) (arena s) (worker_pool s) (allocationSize s)
    (sendBuffer s) (recvBuffer s) (initialized s) (set_handle s) v
    (listen_handle s) (dgram_handle s) (protocols s) (clients s).

Definition with_listen_handle (s : gracht_server) (v : Z) : gracht_server :=
  mk_server (ops s) (callbacks s) (arena s) (worker_pool s) (allocationSize s)
    (sendBuffer s) (recvBuffer s) (initialized s) (set_handle s)
    (set_handle_provided s) v (dgram_handle s) (protocols s) (clients s).

Definition with_dgram_handle (s : gracht_server) (v : Z) : gracht_server :=
  mk_server (ops s) (callbacks s) (arena s) (worker_pool s) (allocationSize s)
    (sendBuffer s) (recvBuffer s) (initialized s) (set_handle s)
    (set_handle_provided s) (listen_handle s) v (protocols s) (clients s).

Definition with_protocols (s : gracht_server) (v : gmap Z gracht_protocol) : gracht_server :=
  mk_server (ops s) (callbacks s) (arena s) (worker_pool s) (allocationSize s)
    (sendBuffer s) (recvBuffer s) (initialized s) (set_handle s)
    (set_handle_provided s) (listen_handle s) (dgram_handle s) v (clients s).

Definition with_clients (s : gracht_server) (v : gmap Z client_wrapper) : gracht_server :=
  mk_server (ops s) (callbacks s) (arena s) (worker_pool s) (allocationSize s)
    (sendBuffer s) (recvBuffer s) (initialized s) (set_handle s)
    (set_handle_provided s) (listen_handle s) (dgram_handle s) (protocols s)
    v.

(** ** server.c *)

Section Server.

(** Constants of headers outside this translation unit. *)
Variable GRACHT_CONN_INVALID : Z.
Variable GRACHT_HANDLE_INVALID : Z.
Variable LINK_LISTEN_SOCKET : Z.
Variable LINK_LISTEN_DGRAM : Z.
Variable GRACHT_AIO_EVENT_IN : Z.
Variable GRACHT_AIO_EVENT_DISCONNECT : Z.
Variable GRACHT_MESSAGE_HEADER_SIZE : Z.
Variable GRACHT_MESSAGE_BLOCK : Z.

(** The generated table of the control protocol. *)
Variable gracht_control_server_protocol : gracht_protocol.

(** What [server->link] points to, and the rest of the runtime. *)
Variable link : server_link_ops.
Variable rt : runtime.

(** The static initialiser of [g_grachtServer]. *)
Definition g_grachtServer_initial : gracht_server :=
  mk_server None (mk_callbacks false false) 0 0 0 0 0 0
    GRACHT_HANDLE_INVALID 0 GRACHT_CONN_INVALID GRACHT_CONN_INVALID ∅ ∅.

(** Modelled from the spec: the hash table is a keyed set ([set], [get],
    [remove], [enumerate]); the client registry is keyed by the connection
    handle ([client_hash], [client_cmp]) and the protocol registry by the
    protocol id.  [enumerate] visits every element once. *)
Definition hashtable_set_client (e : client_wrapper) : M unit :=
  let* s := get_server in
  put_server (with_clients s (<[wrapper_handle e := e]> (clients s))).

Definition hashtable_get_client (h : Z) : M (option client_wrapper) :=
  let* s := get_server in
  ret (clients s !! h).

Definition hashtable_remove_client (h : Z) : M (option client_wrapper) :=
  let* s := get_server in
  put_server (with_clients s (delete h (clients s))) ;;
  ret (clients s !! h).

Definition hashtable_elements (t : gmap Z client_wrapper) : list client_wrapper :=
  (map_to_list t).*2.

Fixpoint enumerate (f : client_wrapper -> M unit) (l : list client_wrapper) : M unit :=
  match l with
  | [] => ret tt
  | e :: l' => f e ;; enumerate f l'
  end.

Definition hashtable_enumerate_clients (f : client_wrapper -> M unit) : M unit :=
  let* s := get_server in
  enumerate f (hashtable_elements (clients s)).

(** Modelled from the spec: [get_protocol_action] resolves a protocol id and
    an action id to the action descriptor, NULL on a miss. *)
Definition get_protocol_action (t : gmap Z gracht_protocol) (protocol action_id : Z)
  : option gracht_protocol_function :=
  match t !! protocol with
  | Some p => List.find (fun f => function_id f =? action_id) (functions p)
  | None => None
  end.

(** [entry->client] written through: the element of the registry found
    under [h] now holds [c]. *)
Definition store_client (h : Z) (e : client_wrapper) (c : gracht_server_client) : M unit :=
  let* s := get_server in
  put_server (with_clients s (<[h := mk_wrapper (wrapper_handle e) c]> (clients s))).

(** *** Client helpers *)

(** [client_destroy], with what the function behind the pointer
    [callbacks.clientDisconnected] does as a parameter: [callback] is run
    where the code calls through the pointer, on the process as it is then. *)
Definition client_destroy_calling (callback : Z -> M unit) (h : Z) : M unit :=
  let* s := get_server in
  (if clientDisconnected (callbacks s)
   then callback h
   else ret tt) ;;
  let* entry := hashtable_remove_client h in
  match entry with
  | None => ret tt
  | Some e => notify (EvLinkDestroyClient (wrapper_client e))
  end.

(** [client_destroy] with a callback that is recorded and returns. *)
Definition client_destroy (h : Z) : M unit :=
  client_destroy_calling (fun client => notify (EvClientDisconnected client)) h.

(** *** Control protocol *)

Definition gracht_control_subscribe_invocation
    (message : gracht_recv_message) (protocol : Z) : M unit :=
  let* entry := hashtable_get_client (client message) in
  let* returned :=
    match entry with
    | None =>
        let* r := call (EvLinkCreateClient message) (fun t => create_client link t message) in
        if negb (r_ret r =? 0) then ret true
        else
          hashtable_set_client (mk_wrapper (client message) (r_out r)) ;;
          let* s := get_server in
          (if clientConnected (callbacks s)
           then notify (EvClientConnected (client message))
           else ret tt) ;;
          ret false
    | Some _ => ret false
    end in
  if returned : bool then ret tt
  else
    (* client_subscribe(entry->client, protocol) with [entry] as looked up
       at the top *)
    match entry with
    | None => crash NullPointer
    | Some e =>
        store_client (client message) e (client_subscribe (wrapper_client e) protocol)
    end.

Definition gracht_control_unsubscribe_invocation
    (message : gracht_recv_message) (protocol : Z) : M unit :=
  let* entry := hashtable_get_client (client message) in
  match entry with
  | None => ret tt
  | Some e =>
      store_client (client message) e (client_unsubscribe (wrapper_client e) protocol) ;;
      if protocol =? 255 then client_destroy (client message) else ret tt
  end.

(** *** Events to clients *)

Definition client_enum_broadcast (message : gracht_buffer) (flags : Z)
    (entry : client_wrapper) : M unit :=
  let* protocol := load (Mem.load8 (buf_data message) 8) in
  if client_is_subscribed (wrapper_client entry) protocol then
    call (EvLinkSendClient (wrapper_client entry) message flags)
         (fun t => send_client link t (wrapper_client entry) message flags) ;;
    ret tt
  else ret tt.

Definition gracht_server_broadcast_event (message : gracht_buffer) (flags : Z) : M Z :=
  let* d := load (Mem.store32 (buf_data message) 4 (buf_index message)) in
  let message' := mk_buffer d (buf_index message) in
  hashtable_enumerate_clients (client_enum_broadcast message' flags) ;;
  ret 0.

Definition gracht_server_send_event (h : Z) (message : gracht_buffer) (flags : Z) : M Z :=
  let* d := load (Mem.store32 (buf_data message) 4 (buf_index message)) in
  let message' := mk_buffer d (buf_index message) in
  let* clientEntry := hashtable_get_client h in
  match clientEntry with
  | None => set_errno ENOENT ;; ret (-1)
  | Some e =>
      let* r := call (EvLinkSendClient (wrapper_client e) message' flags)
                     (fun t => send_client link t (wrapper_client e) message' flags) in
      ret (r_ret r)
  end.

Definition gracht_server_respond
    (messageContext : option gracht_recv_message) (message : option gracht_buffer) : M Z :=
  match messageContext, message with
  | Some ctx, Some msg =>
      let* id := load (Mem.load32 (payload ctx) 0) in
      let* d0 := load (Mem.store32 (buf_data msg) 0 id) in
      let* d1 := load (Mem.store32 d0 4 (buf_index msg)) in
      let msg' := mk_buffer d1 (buf_index msg) in
      let* entry := hashtable_get_client (client ctx) in
      match entry with
      | None =>
          let* r := call (EvLinkRespond ctx msg') (fun t => respond link t ctx msg') in
          ret (r_ret r)
      | Some e =>
          let* r := call (EvLinkSendClient (wrapper_client e) msg' GRACHT_MESSAGE_BLOCK)
                         (fun t => send_client link t (wrapper_client e) msg'
                                     GRACHT_MESSAGE_BLOCK) in
          ret (r_ret r)
      end
  | _, _ => set_errno EINVAL ;; ret (-1)
  end.

(** *** Buffer providers *)

Definition get_out_buffer_st : M Z :=
  let* s := get_server in ret (sendBuffer s).

Definition get_in_buffer_st : M Z :=
  let* s := get_server in ret (recvBuffer s).

Definition put_message_st (message : Z) : M unit := ret tt.

Definition get_out_buffer_mt : M Z :=
  fun w =>
    Ok (gracht_worker_pool_get_worker_scratchpad rt (trace w)
          (worker_pool (g_grachtServer w)), w).

Definition get_in_buffer_mt : M Z :=
  let* s := get_server in
  let* r := call (EvArenaAllocate (arena s) (allocationSize s))
                 (fun t => gracht_arena_allocate rt t (arena s) (allocationSize s)) in
  ret (r_ret r).

Definition put_message_mt (message : Z) : M unit :=
  let* s := get_server in
  notify (EvArenaFree (arena s) message (allocationSize s)).

Definition server_cleanup_message (server_is_null : bool) (recvMessage : Z) : M unit :=
  if server_is_null || (recvMessage =? 0) then ret tt
  else
    let* s := get_server in
    notify (EvArenaFree (arena s) recvMessage 0).

(** *** Action invocation and dispatch *)

Definition run (f : world -> outcome world) : M unit :=
  fun w =>
    match f w with
    | Ok w' => Ok (tt, w')
    | Crash e => Crash e
    | OutOfFuel => OutOfFuel
    end.

Definition server_invoke_action (recvMessage : gracht_recv_message) : M unit :=
  let buffer := mk_buffer (payload recvMessage) (index recvMessage) in
  let* messageId := load (Mem.load32 (buf_data buffer) (buf_index buffer + 0)) in
  let* protocol := load (Mem.load8 (buf_data buffer) (buf_index buffer + 8)) in
  let* action_id := load (Mem.load8 (buf_data buffer) (buf_index buffer + 9)) in
  let* s := get_server in
  match get_protocol_action (protocols s) protocol action_id with
  | None =>
      (* gracht_control_event_error_single(client, messageId, ENOENT) *)
      notify (EvControlError (client recvMessage) messageId ENOENT)
  | Some function =>
      let buffer' :=
        mk_buffer (buf_data buffer) (buf_index buffer + GRACHT_MESSAGE_HEADER_SIZE) in
      notify (EvInvoke (address function) recvMessage buffer') ;;
      run (action rt (address function) recvMessage buffer')
  end.

(** The message is passed as the address of its buffer together with what
    the link has stored there. *)
Definition dispatch_st (p : Z) (message : gracht_recv_message) : M unit :=
  if p =? 0 then crash NullPointer
  else server_invoke_action message.

Definition dispatch_mt (p : Z) (message : gracht_recv_message) : M unit :=
  if p =? 0 then crash NullPointer
  else
    let* messageLength := load (Mem.load32 (payload message) (index message + 4)) in
    let* s := get_server in
    notify (EvWorkerPoolDispatch (worker_pool s) message).

Definition dispatch (o : server_operations) : Z -> gracht_recv_message -> M unit :=
  match o with
  | g_stOperations => dispatch_st
  | g_mtOperations => dispatch_mt
  end.

Definition get_outgoing_buffer (o : server_operations) : M Z :=
  match o with
  | g_stOperations => get_out_buffer_st
  | g_mtOperations => get_out_buffer_mt
  end.

Definition get_incoming_buffer (o : server_operations) : M Z :=
  match o with
  | g_stOperations => get_in_buffer_st
  | g_mtOperations => get_in_buffer_mt
  end.

Definition put_message (o : server_operations) : Z -> M unit :=
  match o with
  | g_stOperations => put_message_st
  | g_mtOperations => put_message_mt
  end.

(** [server->ops] followed. *)
Definition server_ops : M server_operations :=
  let* s := get_server in
  match ops s with
  | Some o => ret o
  | None => crash NullPointer
  end.

(** *** Event handling *)

Definition handle_client_socket : M Z :=
  let* r := call EvLinkAccept (fun t => accept link t) in
  if negb (r_ret r =? 0) then ret (r_ret r)
  else
    let c := r_out r in
    hashtable_set_client (mk_wrapper (handle c) c) ;;
    let* s := get_server in
    call (EvAioAdd (set_handle s) (handle c))
         (fun t => gracht_aio_add rt t (set_handle s) (handle c)) ;;
    (if clientConnected (callbacks s)
     then notify (EvClientConnected (handle c))
     else ret tt) ;;
    ret 0.

(** [while (1)] of [handle_sync_event]; [fuel] bounds the number of
    iterations. *)
Fixpoint handle_sync_event (fuel : nat) : M Z :=
  match fuel with
  | O => out_of_fuel
  | S n =>
      let* o := server_ops in
      let* message := get_incoming_buffer o in
      let* r := call (EvLinkRecvPacket message 0)
                     (fun t => recv_packet link t message 0) in
      if negb (r_ret r =? 0) then
        put_message o message ;;
        ret (r_ret r)
      else
        dispatch o message (r_out r) ;;
        handle_sync_event n
  end.

(** One turn of [while (entry)] in [handle_async_event]; the result tells
    whether the loop goes on.  [entry] points at the element the registry
    holds under [h], and [entry->client] is read in every turn: the loop
    sees the record as the actions of the turns before have left it.  Once
    the element has been removed, [entry] dangles. *)
Definition drain_turn (h : Z) : M bool :=
  let* o := server_ops in
  let* message := get_incoming_buffer o in
  let* entry := hashtable_get_client h in
  match entry with
  | None => crash DanglingPointer
  | Some e =>
      let* r := call (EvLinkRecvClient (wrapper_client e) message 0)
                     (fun t => recv_client link t (wrapper_client e) message 0) in
      if negb (r_ret r =? 0) then
        put_message o message ;;
        ret false
      else
        dispatch o message (r_out r) ;;
        ret true
  end.

(** [while (entry)] of [handle_async_event], entered with [entry] not
    NULL. *)
Fixpoint drain_client (fuel : nat) (h : Z) : M unit :=
  match fuel with
  | O => out_of_fuel
  | S n =>
      let* again := drain_turn h in
      if again : bool then drain_client n h else ret tt
  end.

(** The first [k] turns of the loop; the result tells whether all of them
    went on. *)
Fixpoint drain_turns (k : nat) (h : Z) : M bool :=
  match k with
  | O => ret true
  | S k' =>
      let* again := drain_turn h in
      if again : bool then drain_turns k' h else ret false
  end.

Definition handle_async_event (fuel : nat) (h : Z) (events : Z) : M Z :=
  (if negb (Z.land events GRACHT_AIO_EVENT_DISCONNECT =? 0) then
     let* s := get_server in
     call (EvAioRemove (set_handle s) h)
          (fun t => gracht_aio_remove rt t (set_handle s) h) ;;
     client_destroy h
   else if negb (Z.land events GRACHT_AIO_EVENT_IN =? 0) || (events =? 0) then
     let* entry := hashtable_get_client h in
     match entry with
     | Some _ => drain_client fuel h
     | None => ret tt
     end
   else ret tt) ;;
  ret 0.

Definition gracht_server_handle_event (fuel : nat) (h : Z) (events : Z) : M Z :=
  let* s := get_server in
  if h =? listen_handle s then handle_client_socket
  else if h =? dgram_handle s then handle_sync_event fuel
  else handle_async_event fuel h events.

(** *** Protocol registry *)

Definition gracht_server_register_protocol (protocol : option gracht_protocol) : M Z :=
  match protocol with
  | None => set_errno EINVAL ;; ret (-1)
  | Some p =>
      let* s := get_server in
      put_server (with_protocols s (<[protocol_id p := p]> (protocols s))) ;;
      ret 0
  end.

Definition gracht_server_unregister_protocol (protocol : option gracht_protocol) : M unit :=
  match protocol with
  | None => ret tt
  | Some p =>
      let* s := get_server in
      put_server (with_protocols s (delete (protocol_id p) (protocols s)))
  end.

(** *** Initialisation *)

Definition modify_server (f : gracht_server -> gracht_server) : M unit :=
  let* s := get_server in put_server (f s).

Definition configure_server (configuration : gracht_server_configuration) : M Z :=
  (* server->link = configuration->link; the callbacks are copied *)
  modify_server (fun s => with_callbacks s (cfg_callbacks configuration)) ;;
  let* failed :=
    if negb (set_descriptor_provided configuration =? 0) then
      modify_server (fun s =>
        with_set_handle_provided
          (with_set_handle s (set_descriptor configuration)) 1) ;;
      ret false
    else
      let* r := call EvAioCreate (fun t => gracht_aio_create rt t) in
      modify_server (fun s => with_set_handle s (r_ret r)) ;;
      ret (r_ret r =? GRACHT_HANDLE_INVALID) in
  if failed : bool then ret (-1)
  else
    modify_server (fun s =>
      with_allocationSize s (max_message_size configuration + 512)) ;;
    let* s := get_server in
    let* failed :=
      if 1 <? server_workers configuration then
        let* r := call (EvWorkerPoolCreate (server_workers configuration) (allocationSize s))
                       (fun t => gracht_worker_pool_create rt t
                                   (server_workers configuration) (allocationSize s)) in
        modify_server (fun s => with_worker_pool s (r_out r)) ;;
        if negb (r_ret r =? 0) then ret true
        else
          modify_server (fun s => with_ops s (Some g_mtOperations)) ;;
          ret false
      else
        modify_server (fun s => with_ops s (Some g_stOperations)) ;;
        ret false in
    if failed : bool then ret (-1)
    else if 1 <? server_workers configuration then
      let arenaSize := server_workers configuration * allocationSize s * 32 in
      let* r := call (EvArenaCreate arenaSize)
                     (fun t => gracht_arena_create rt t arenaSize) in
      modify_server (fun s => with_arena s (r_out r)) ;;
      if negb (r_ret r =? 0) then ret (-1) else ret 0
    else
      let* r := call (EvMalloc (allocationSize s))
                     (fun t => malloc rt t (allocationSize s)) in
      modify_server (fun s => with_sendBuffer s (r_ret r)) ;;
      if r_ret r =? 0 then ret (-1)
      else
        let* r := call (EvMalloc (allocationSize s))
                       (fun t => malloc rt t (allocationSize s)) in
        modify_server (fun s => with_recvBuffer s (r_ret r)) ;;
        if r_ret r =? 0 then ret (-1) else ret 0.

Definition create_links : M Z :=
  let* r := call (EvLinkListen LINK_LISTEN_SOCKET)
                 (fun t => listen link t LINK_LISTEN_SOCKET) in
  modify_server (fun s => with_listen_handle s (r_ret r)) ;;
  let* s := get_server in
  let* returned :=
    if listen_handle s =? GRACHT_CONN_INVALID then
      let* e := get_errno in
      ret (negb (e =? ENOTSUP))
    else
      call (EvAioAdd (set_handle s) (listen_handle s))
           (fun t => gracht_aio_add rt t (set_handle s) (listen_handle s)) ;;
      ret false in
  if returned : bool then ret (-1)
  else
    let* r := call (EvLinkListen LINK_LISTEN_DGRAM)
                   (fun t => listen link t LINK_LISTEN_DGRAM) in
    modify_server (fun s => with_dgram_handle s (r_ret r)) ;;
    let* s := get_server in
    let* returned :=
      if dgram_handle s =? GRACHT_CONN_INVALID then
        let* e := get_errno in
        ret (negb (e =? ENOTSUP))
      else
        call (EvAioAdd (set_handle s) (dgram_handle s))
             (fun t => gracht_aio_add rt t (set_handle s) (dgram_handle s)) ;;
        ret false in
    if returned : bool then ret (-1)
    else if (listen_handle s =? GRACHT_CONN_INVALID)
            && (dgram_handle s =? GRACHT_CONN_INVALID)
    then ret (-1)
    else ret 0.

Definition gracht_server_initialize
    (configuration : option gracht_server_configuration) : M Z :=
  let* s := get_server in
  if negb (initialized s =? 0) then
    set_errno EALREADY ;; ret (-1)
  else
    match configuration with
    | None => set_errno EINVAL ;; ret (-1)
    | Some cfg =>
        let* status := configure_server cfg in
        if negb (status =? 0) then ret (-1)
        else
          let* status := create_links in
          if negb (status =? 0) then ret (-1)
          else
            (* hashtable_construct for both registries *)
            modify_server (fun s => with_clients (with_protocols s ∅) ∅) ;;
            gracht_server_register_protocol (Some gracht_control_server_protocol) ;;
            modify_server (fun s => with_initialized s 1) ;;
            ret 0
    end.

End Server.

(** ** link/socket/client.c *)

Module SocketClient.

(** Flag bits of <sys/socket.h> on Linux. *)
Definition MSG_DONTWAIT : Z := 64.
Definition MSG_WAITALL : Z := 256.

(** [size_t] as on an LP64 platform. *)
Definition size_t (v : Z) : Z := v mod 2 ^ 64.

(** Modelled from the spec: the link kinds of the socket link
    configuration; [gracht_link_other] is any other value of the field. *)
Inductive gracht_link_type : Type :=
| gracht_link_stream_based
| gracht_link_packet_based
| gracht_link_other.

Record socket_client_configuration : Type := mk_config {
  type : gracht_link_type;
  address_length : Z
}.

Record socket_link_manager : Type := mk_manager {
  config : socket_client_configuration;
  iod : Z
}.

(** Modelled from the spec: the message header ([id], [length],
    [protocol], [action], [param_in], [param_out]) and the parameter
    descriptors ([type], [length], [data]) of [struct gracht_message]. *)
Inductive param_type : Type :=
| GRACHT_PARAM_VALUE
| GRACHT_PARAM_BUFFER
| GRACHT_PARAM_SHM.

Record gracht_param : Type := mk_param {
  p_type : param_type;
  p_length : Z;
  p_data : Z
}.

Record gracht_message_header : Type := mk_header {
  h_id : Z;
  h_length : Z;
  h_param_in : Z;
  h_param_out : Z;
  h_protocol : Z;
  h_action : Z
}.

Record gracht_message : Type := mk_message {
  header : gracht_message_header;
  params : list gracht_param
}.

(** The two results a send reports. *)
Inductive send_result : Type :=
| GRACHT_MESSAGE_ERROR
| GRACHT_MESSAGE_INPROGRESS.

(** One entry of a scatter-gather vector: where it points and its length. *)
Inductive iobuf : Type :=
| IoMessage (len : Z)
| IoBuffer (buffer : Z) (len : Z).

Inductive syscall : Type :=
| SysRecv (fd : Z) (len : Z) (flags : Z)
| SysRecvmsg (fd : Z) (namelen : Z) (iov : list iobuf) (flags : Z)
| SysSendmsg (fd : Z) (iov : list iobuf) (flags : Z).

(** The client process: [errno] and the system calls made so far. *)
Record process : Type := mk_process {
  p_errno : Z;
  p_calls : list syscall
}.

(** The kernel's side of the socket: the return value of each call, the
    [errno] it leaves, and the message the receive buffer then holds. *)
Record kernel : Type := mk_kernel {
  recv : list syscall -> Z -> Z -> Z -> reply gracht_message;
  recvmsg : list syscall -> Z -> list iobuf -> Z -> reply gracht_message;
  sendmsg : list syscall -> Z -> list iobuf -> Z -> reply unit
}.

Definition Proc (A : Type) : Type := St process A.

Definition set_errno (e : Z) : Proc unit :=
  fun p => Ok (tt, mk_process e (p_calls p)).

Definition sys {A : Type} (c : syscall) (f : list syscall -> reply A) : Proc (reply A) :=
  fun p =>
    let r := f (p_calls p) in
    Ok (r, mk_process (default (p_errno p) (r_errno r)) (p_calls p ++ [c])).

Section Link.

(** Constants of headers outside this translation unit. *)
Variable GRACHT_MAX_MESSAGE_SIZE : Z.
Variable GRACHT_WAIT_BLOCK : Z.
Variable sizeof_gracht_message : Z.
Variable sizeof_gracht_param : Z.

Variable k : kernel.

(** The [for] loop over the in-parameters of [socket_link_send_packet];
    [n] counts the parameters left, [i] is the loop index. *)
Fixpoint prepare_params (message : gracht_message) (n : nat) (i : nat)
    (iov : list iobuf) : Proc (list iobuf) :=
  match n with
  | O => ret iov
  | S n' =>
      match params message !! i with
      | None => crash OutOfBounds
      | Some p =>
          match p_type p with
          | GRACHT_PARAM_BUFFER =>
              prepare_params message n' (S i) (iov ++ [IoBuffer (p_data p) (p_length p)])
          | GRACHT_PARAM_SHM => crash AssertionFailed
          | GRACHT_PARAM_VALUE => prepare_params message n' (S i) iov
          end
      end
  end.

(** The [for] loop of [socket_link_send_stream].  Its two macro calls are
    written as assignments, [i_iobuf_set_buf(...) = length] and
    [i_iobuf_set_len(...) = buffer]: the length of the parameter goes where
    the macro stores the address, and the address where it stores the
    length. *)
Fixpoint prepare_params_stream (message : gracht_message) (n : nat) (i : nat)
    (iov : list iobuf) : Proc (list iobuf) :=
  match n with
  | O => ret iov
  | S n' =>
      match params message !! i with
      | None => crash OutOfBounds
      | Some p =>
          match p_type p with
          | GRACHT_PARAM_BUFFER =>
              prepare_params_stream message n' (S i)
                (iov ++ [IoBuffer (p_length p) (p_data p)])
          | GRACHT_PARAM_SHM => crash AssertionFailed
          | GRACHT_PARAM_VALUE => prepare_params_stream message n' (S i) iov
          end
      end
  end.

Definition socket_link_send_stream (linkManager : socket_link_manager)
    (message : gracht_message) : Proc send_result :=
  let iov0 :=
    IoMessage (sizeof_gracht_message
               + (h_param_in (header message) + h_param_out (header message))
                 * sizeof_gracht_param) in
  let* iov := prepare_params_stream message (Z.to_nat (h_param_in (header message)))
                0%nat [iov0] in
  let* r := sys (SysSendmsg (iod linkManager) iov 0)
                (fun t => sendmsg k t (iod linkManager) iov 0) in
  let byteCount := r_ret r in
  if negb (byteCount =? h_length (header message)) then
    set_errno EPIPE ;; ret GRACHT_MESSAGE_ERROR
  else ret GRACHT_MESSAGE_INPROGRESS.

Definition socket_link_recv_stream (linkManager : socket_link_manager)
    (flags : Z) : Proc (Z * option gracht_message) :=
  let* r := sys (SysRecv (iod linkManager) sizeof_gracht_message flags)
                (fun t => recv k t (iod linkManager) sizeof_gracht_message flags) in
  let bytes_read := size_t (r_ret r) in
  if negb (bytes_read =? size_t sizeof_gracht_message) then
    (if bytes_read =? 0 then set_errno ENODATA else set_errno EPIPE) ;;
    ret (-1, None)
  else
    let message := r_out r in
    let* failed :=
      if negb (h_param_in (header message) =? 0) then
        let rest := size_t (h_length (header message) - sizeof_gracht_message) in
        let* r := sys (SysRecv (iod linkManager) rest MSG_WAITALL)
                      (fun t => recv k t (iod linkManager) rest MSG_WAITALL) in
        let bytes_read := size_t (r_ret r) in
        if negb (bytes_read =? rest) then set_errno EPIPE ;; ret true
        else ret false
      else ret false in
    if failed : bool then ret (-1, None)
    else ret (0, Some message).

Definition socket_link_send_packet (linkManager : socket_link_manager)
    (message : gracht_message) : Proc send_result :=
  let iov0 :=
    IoMessage (sizeof_gracht_message
               + (h_param_in (header message) + h_param_out (header message))
                 * sizeof_gracht_param) in
  let* iov := prepare_params message (Z.to_nat (h_param_in (header message))) 0%nat [iov0] in
  let* r := sys (SysSendmsg (iod linkManager) iov 0)
                (fun t => sendmsg k t (iod linkManager) iov 0) in
  let byteCount := r_ret r in
  if negb (byteCount =? h_length (header message)) then
    set_errno EPIPE ;; ret GRACHT_MESSAGE_ERROR
  else ret GRACHT_MESSAGE_INPROGRESS.

Definition socket_link_recv_packet (linkManager : socket_link_manager)
    (flags : Z) : Proc (Z * option gracht_message) :=
  let iov := [IoMessage GRACHT_MAX_MESSAGE_SIZE] in
  let namelen := address_length (config linkManager) in
  let* r := sys (SysRecvmsg (iod linkManager) namelen iov flags)
                (fun t => recvmsg k t (iod linkManager) iov flags) in
  let bytes_read := r_ret r in
  (* intmax_t against size_t: the comparison is unsigned *)
  if size_t bytes_read <? size_t sizeof_gracht_message then
    (if bytes_read =? 0 then set_errno ENODATA else set_errno EPIPE) ;;
    ret (-1, None)
  else ret (0, Some (r_out r)).

Definition socket_link_recv (linkManager : socket_link_manager)
    (flags : Z) : Proc (Z * option gracht_message) :=
  let convertedFlags := MSG_WAITALL in
  let convertedFlags :=
    if Z.land flags GRACHT_WAIT_BLOCK =? 0
    then Z.lor convertedFlags MSG_DONTWAIT
    else convertedFlags in
  match type (config linkManager) with
  | gracht_link_stream_based => socket_link_recv_stream linkManager convertedFlags
  | gracht_link_packet_based => socket_link_recv_packet linkManager convertedFlags
  | gracht_link_other => set_errno ENOTSUP ;; ret (-1, None)
  end.

Definition socket_link_send (linkManager : socket_link_manager)
    (message : gracht_message) : Proc send_result :=
  if GRACHT_MAX_MESSAGE_SIZE <? h_length (header message) then
    set_errno E2BIG ;; ret GRACHT_MESSAGE_ERROR
  else
    match type (config linkManager) with
    | gracht_link_stream_based => socket_link_send_stream linkManager message
    | gracht_link_packet_based => socket_link_send_packet linkManager message
    | gracht_link_other => set_errno ENOTSUP ;; ret GRACHT_MESSAGE_ERROR
    end.

End Link.

End SocketClient.

(** ** Vocabulary of the statements *)

(** What [client_destroy] adds to the trace. *)
Definition disconnected_events (s : gracht_server) (h : Z) : list event :=
  if clientDisconnected (callbacks s) then [EvClientDisconnected h] else [].

Definition destroyed_events (s : gracht_server) (h : Z) : list event :=
  match clients s !! h with
  | Some e => [EvLinkDestroyClient (wrapper_client e)]
  | None => []
  end.


(** What a broadcast of [message] with [protocol] in its header adds to the
    trace when the registry is enumerated as [l]. *)
Definition broadcast_sends (message : gracht_buffer) (flags : Z) (protocol : Z)
    (l : list client_wrapper) : list event :=
  map (fun e => EvLinkSendClient (wrapper_client e) message flags)
      (List.filter (fun e => client_is_subscribed (wrapper_client e) protocol) l).

(** What the buffer provider [o] adds to the trace when the drain loop asks
    for a receive buffer, the buffer it yields, and what is added when the
    buffer is returned. *)
Definition incoming_buffer_events (s : gracht_server) (o : server_operations)
  : list event :=
  match o with
  | g_stOperations => []
  | g_mtOperations => [EvArenaAllocate (arena s) (allocationSize s)]
  end.

Definition incoming_buffer (rt : runtime) (s : gracht_server) (o : server_operations)
    (t : list event) : Z :=
  match o with
  | g_stOperations => recvBuffer s
  | g_mtOperations => r_ret (gracht_arena_allocate rt t (arena s) (allocationSize s))
  end.

Definition returned_buffer_events (s : gracht_server) (o : server_operations)
    (message : Z) : list event :=
  match o with
  | g_stOperations => []
  | g_mtOperations => [EvArenaFree (arena s) message (allocationSize s)]
  end.

(** How a link answers [listen] for an endpoint kind, whatever happened
    before: with the invalid handle and ENOTSUP, with the invalid handle, or
    with a handle. *)
Definition endpoint_unsupported (link : server_link_ops) (invalid kind : Z) : Prop :=
  forall t, r_ret (listen link t kind) = invalid /\
            r_errno (listen link t kind) = Some ENOTSUP.

Definition endpoint_absent (link : server_link_ops) (invalid kind : Z) : Prop :=
  forall t, r_ret (listen link t kind) = invalid.

Definition endpoint_present (link : server_link_ops) (invalid kind : Z) : Prop :=
  forall t, r_ret (listen link t kind) <> invalid.

(** ** A concrete platform *)

(** Values for the constants of the missing headers, a link and a runtime
    with fixed replies, and a running single-threaded server; used to
    evaluate the functions above on concrete inputs. *)
Module Scenario.

Definition GRACHT_CONN_INVALID : Z := -1.
Definition GRACHT_HANDLE_INVALID : Z := -1.
Definition LINK_LISTEN_SOCKET : Z := 0.
Definition LINK_LISTEN_DGRAM : Z := 1.
Definition GRACHT_AIO_EVENT_IN : Z := 1.
Definition GRACHT_AIO_EVENT_DISCONNECT : Z := 8192.
Definition GRACHT_MESSAGE_HEADER_SIZE : Z := 12.
Definition GRACHT_MESSAGE_BLOCK : Z := 1.

Definition no_subscriptions : list Z := [0; 0; 0; 0; 0; 0; 0; 0].

Definition empty_message : gracht_recv_message := mk_recv_message 0 0 [].

(** A link that listens on handle 10 (stream) and 11 (datagram), accepts
    and creates clients, sends without error, and whose receives fail with
    [err]. *)
Definition link_failing_receive (err : Z) : server_link_ops :=
  mk_link
    (fun _ kind => mk_reply (if kind =? LINK_LISTEN_SOCKET then 10 else 11) None tt)
    (fun _ => mk_reply 0 None (mk_client 20 no_subscriptions))
    (fun _ _ _ => mk_reply (-1) (Some err) empty_message)
    (fun _ _ _ _ => mk_reply (-1) (Some err) empty_message)
    (fun _ _ _ _ => mk_reply 0 None tt)
    (fun _ _ _ => mk_reply 0 None tt)
    (fun _ ctx => mk_reply 0 None (mk_client (client ctx) no_subscriptions)).

Definition quiet_link : server_link_ops := link_failing_receive ENODATA.

(** A link on which every send fails with EPIPE. *)
Definition link_failing_send : server_link_ops :=
  mk_link
    (listen quiet_link) (accept quiet_link) (recv_packet quiet_link)
    (recv_client quiet_link)
    (fun _ _ _ _ => mk_reply (-1) (Some EPIPE) tt)
    (fun _ _ _ => mk_reply (-1) (Some EPIPE) tt)
    (create_client quiet_link).

(** A link on which neither endpoint kind is supported. *)
Definition link_without_endpoints : server_link_ops :=
  mk_link
    (fun _ _ => mk_reply GRACHT_CONN_INVALID (Some ENOTSUP) tt)
    (accept quiet_link) (recv_packet quiet_link) (recv_client quiet_link)
    (send_client quiet_link) (respond quiet_link) (create_client quiet_link).

(** A link with a datagram endpoint only. *)
Definition link_datagram_only : server_link_ops :=
  mk_link
    (fun _ kind =>
       if kind =? LINK_LISTEN_SOCKET
       then mk_reply GRACHT_CONN_INVALID (Some ENOTSUP) tt
       else mk_reply 11 None tt)
    (accept quiet_link) (recv_packet quiet_link) (recv_client quiet_link)
    (send_client quiet_link) (respond quiet_link) (create_client quiet_link).

(** A runtime whose services succeed and whose protocol actions are given
    by [act]. *)
Definition runtime_with
    (act : Z -> gracht_recv_message -> gracht_buffer -> world -> outcome world)
  : runtime :=
  mk_runtime
    (fun _ => mk_reply 4 None tt)
    (fun _ _ _ => mk_reply 0 None tt)
    (fun _ _ _ => mk_reply 0 None tt)
    (fun _ _ _ => mk_reply 0 None 4096)
    (fun _ _ => 8192)
    (fun _ _ => mk_reply 0 None 12288)
    (fun _ _ _ => mk_reply 16384 None tt)
    (fun _ _ => mk_reply 20480 None tt)
    act.

Definition quiet_runtime : runtime := runtime_with (fun _ _ _ w => Ok w).

Definition control_protocol : gracht_protocol :=
  mk_protocol 0 [mk_function 0 100; mk_function 1 101].

Definition configuration : gracht_server_configuration :=
  mk_configuration (mk_callbacks true true) 0 0 0 1024.

(** A running single-threaded server with both endpoints, both callbacks,
    the control protocol and protocol 5 (one action, number 1, at address
    500), and the clients of [registry]. *)
Definition running_server (registry : gmap Z client_wrapper) : gracht_server :=
  mk_server (Some g_stOperations) (mk_callbacks true true) 0 0 1536
    20480 20480 1 4 0 10 11
    (<[5 := mk_protocol 5 [mk_function 1 500]]> {[0 := control_protocol]})
    registry.

Definition running (registry : gmap Z client_wrapper) : world :=
  mk_world (running_server registry) 0 [].

(** A stream client on handle 20, subscribed to protocol 3. *)
Definition client_20 : client_wrapper :=
  mk_wrapper 20 (mk_client 20 [8; 0; 0; 0; 0; 0; 0; 0]).

(** A datagram request as the server holds it: four bytes of peer address
    at the front, the parse cursor behind them, then the header with id 7,
    length 12, protocol 5, action 1 and no parameters.  It comes from the
    datagram handle 11, which has no client record. *)
Definition datagram_request : gracht_recv_message :=
  mk_recv_message 11 4
    [170; 187; 204; 221;  7; 0; 0; 0;  12; 0; 0; 0;  5; 1; 0; 0].

(** The response the action of protocol 5 builds: header of protocol 5,
    action 1, with id and length still zero, cursor behind the header. *)
Definition response : gracht_buffer :=
  mk_buffer [0; 0; 0; 0;  0; 0; 0; 0;  5; 1; 0; 0] 12.

(** A runtime whose protocol actions answer with [response]. *)
Definition responding_runtime : runtime :=
  runtime_with (fun _ ctx _ w =>
    match gracht_server_respond GRACHT_MESSAGE_BLOCK quiet_link
            (Some ctx) (Some response) w with
    | Ok (_, w') => Ok w'
    | Crash f => Crash f
    | OutOfFuel => OutOfFuel
    end).

(** The process before [gracht_server_initialize]. *)
Definition fresh : world :=
  mk_world (g_grachtServer_initial GRACHT_CONN_INVALID GRACHT_HANDLE_INVALID) 0 [].

(** Clients on handles 21 and 22, subscribed to protocol 4 and to every
    protocol. *)
Definition client_21 : client_wrapper :=
  mk_wrapper 21 (mk_client 21 [16; 0; 0; 0; 0; 0; 0; 0]).

Definition client_22 : client_wrapper :=
  mk_wrapper 22 (client_subscribe (mk_client 22 no_subscriptions) 255).

Definition three_clients : gmap Z client_wrapper :=
  <[20 := client_20]> (<[21 := client_21]> {[22 := client_22]}).

(** An event of protocol 3, cursor behind the header. *)
Definition event_message : gracht_buffer :=
  mk_buffer [0; 0; 0; 0;  0; 0; 0; 0;  3; 1; 0; 0] 12.

(** A control message from handle 20 and one from the datagram handle. *)
Definition message_from_20 : gracht_recv_message :=
  mk_recv_message 20 0 [1; 0; 0; 0;  13; 0; 0; 0;  0; 1; 0; 0;  255].

Definition message_from_datagram : gracht_recv_message :=
  mk_recv_message 11 4
    [170; 187; 204; 221;  1; 0; 0; 0;  13; 0; 0; 0;  0; 0; 0; 0;  2].

(** The client side: a kernel whose socket is at end of input and accepts
    every send in full ([sent] bytes), a stream link and a packet link. *)
Definition kernel_at_eof (sent : Z) : SocketClient.kernel :=
  SocketClient.mk_kernel
    (fun _ _ _ _ => mk_reply 0 None
       (SocketClient.mk_message (SocketClient.mk_header 0 0 0 0 0 0) []))
    (fun _ _ _ _ => mk_reply 0 None
       (SocketClient.mk_message (SocketClient.mk_header 0 0 0 0 0 0) []))
    (fun _ _ _ _ => mk_reply sent None tt).

Definition stream_link : SocketClient.socket_link_manager :=
  SocketClient.mk_manager
    (SocketClient.mk_config SocketClient.gracht_link_stream_based 0) 3.

Definition packet_link : SocketClient.socket_link_manager :=
  SocketClient.mk_manager
    (SocketClient.mk_config SocketClient.gracht_link_packet_based 16) 3.

Definition idle_process : SocketClient.process := SocketClient.mk_process 0 [].

(** A message without parameters whose length field is [len]. *)
Definition message_of_length (len : Z) : SocketClient.gracht_message :=
  SocketClient.mk_message (SocketClient.mk_header 7 len 0 0 5 1) [].

End Scenario.

(** ** Well-formed client records *)

(** The bitmap as the struct declares it: 8 words, each a [uint32_t]. *)
Definition wf_client (c : gracht_server_client) : Prop :=
  length (subscriptions c) = 8%nat /\
  Forall (fun w => 0 <= w < 2 ^ 32) (subscriptions c).

(** ** server.c: shutdown and the main loop *)

(** The calls of [gracht_server_shutdown] that release what the server
    owns, in program order.  The [destroy_client] calls of the enumeration
    that precedes them are recorded in the trace like every other call to
    the link. *)
Inductive teardown : Type :=
| TdAioDestroy (set : Z)
| TdWorkerPoolDestroy (pool : Z)
| TdArenaDestroy (arena : Z)
| TdFree (p : Z)
| TdLinkDestroy.

Section Shutdown.

Variable GRACHT_HANDLE_INVALID : Z.
Variable GRACHT_AIO_EVENT_IN : Z.
Variable GRACHT_AIO_EVENT_DISCONNECT : Z.
Variable GRACHT_MESSAGE_HEADER_SIZE : Z.
Variable link : server_link_ops.
Variable rt : runtime.

(** What [gracht_io_wait] stores in the event array, as (handle, mask)
    pairs, from the calls made so far and the readiness handle; an error
    return stores nothing. *)
Variable gracht_io_wait : list event -> Z -> list (Z * Z).

Definition client_enum_destroy (entry : client_wrapper) : M unit :=
  notify (EvLinkDestroyClient (wrapper_client entry)).

Definition gracht_server_shutdown : M (Z * list teardown) :=
  let* s := get_server in
  if initialized s =? 0 then
    set_errno ENOTSUP ;; ret (-1, [])
  else
    hashtable_enumerate_clients client_enum_destroy ;;
    let aio :=
      if negb (set_handle s =? GRACHT_HANDLE_INVALID) && (set_handle_provided s =? 0)
      then [TdAioDestroy (set_handle s)] else [] in
    let pool :=
      if negb (worker_pool s =? 0) then [TdWorkerPoolDestroy (worker_pool s)] else [] in
    (* hashtable_destroy for both registries *)
    modify_server (fun s => with_clients (with_protocols s ∅) ∅) ;;
    let arena_calls :=
      if negb (arena s =? 0) then [TdArenaDestroy (arena s)] else [] in
    let send :=
      if negb (sendBuffer s =? 0) then [TdFree (sendBuffer s)] else [] in
    let recv :=
      if negb (recvBuffer s =? 0) then [TdFree (recvBuffer s)] else [] in
    (* the link is installed: g_grachtServer.link->destroy *)
    modify_server (fun s => with_initialized s 0) ;;
    ret (0, aio ++ pool ++ arena_calls ++ send ++ recv ++ [TdLinkDestroy]).

(** The [for] loop of [gracht_server_main_loop] over the events of one
    wait; the result of each [gracht_server_handle_event] is dropped. *)
Fixpoint handle_events (fuel : nat) (events : list (Z * Z)) : M unit :=
  match events with
  | [] => ret tt
  | (h, flags) :: rest =>
      gracht_server_handle_event GRACHT_AIO_EVENT_IN GRACHT_AIO_EVENT_DISCONNECT
        GRACHT_MESSAGE_HEADER_SIZE link rt fuel h flags ;;
      handle_events fuel rest
  end.

(** [while (g_grachtServer.initialized)]; [rounds] bounds the number of
    waits and [fuel] every drain loop entered from it. *)
Fixpoint gracht_server_main_loop (rounds fuel : nat) : M (Z * list teardown) :=
  match rounds with
  | O => out_of_fuel
  | S n =>
      let* s := get_server in
      if negb (initialized s =? 0) then
        let* events := (fun w => Ok (gracht_io_wait (trace w) (set_handle s), w)) in
        handle_events fuel (take 32 events) ;;
        gracht_server_main_loop n fuel
      else gracht_server_shutdown
  end.

End Shutdown.

(** ** What event handling leaves alone *)

(** The server without its client registry. *)
Definition frame (s : gracht_server) : gracht_server := with_clients s ∅.

(** [m] changes nothing of the server but the client registry. *)
Definition keeps_frame {A : Type} (m : M A) : Prop :=
  forall w a w', m w = Ok (a, w') ->
    frame (g_grachtServer w') = frame (g_grachtServer w).

(** The protocol actions change nothing of the server but the client
    registry. *)
Definition actions_keep_frame (rt : runtime) : Prop :=
  forall fn context buffer w w',
    action rt fn context buffer w = Ok w' ->
    frame (g_grachtServer w') = frame (g_grachtServer w).

(** ** The lifetime of the client socket link (client.c)

    [gracht_link_socket_client_create], [socket_link_connect] and
    [socket_link_destroy].  A link manager lives on the heap; the functions
    take its address.  The table of the four link functions that opens the
    structure is left out: its address is the address of the manager. *)

Module SocketClientLifetime.

(** Values of <errno.h> and <sys/socket.h> on Linux. *)
Definition ENOMEM : Z := 12.
Definition AF_LOCAL : Z := 1.
Definition SOCK_STREAM : Z := 1.
Definition SOCK_DGRAM : Z := 2.

Inductive oscall : Type :=
| OsMalloc (size : Z)
| OsFree (pointer : Z)
| OsSocket (domain : Z) (type : Z) (protocol : Z)
| OsConnect (fd : Z) (address_length : Z)
| OsClose (fd : Z).

(** The client process: [errno], the link managers on the heap by address,
    and the library calls made so far. *)
Record host : Type := mk_host {
  h_errno : Z;
  h_managers : gmap Z SocketClient.socket_link_manager;
  h_calls : list oscall
}.

(** The other side of the calls: the value each one returns and the [errno]
    it leaves. *)
Record os : Type := mk_os {
  os_malloc : list oscall -> Z -> reply unit;
  os_socket : list oscall -> Z -> Z -> Z -> reply unit;
  os_connect : list oscall -> Z -> Z -> reply unit;
  os_close : list oscall -> Z -> reply unit
}.

Definition Host (A : Type) : Type := St host A.

Definition set_errno (e : Z) : Host unit :=
  fun h => Ok (tt, mk_host e (h_managers h) (h_calls h)).

Definition os_call (c : oscall) (f : list oscall -> reply unit) : Host Z :=
  fun h =>
    let r := f (h_calls h) in
    Ok (r_ret r,
        mk_host (default (h_errno h) (r_errno r)) (h_managers h) (h_calls h ++ [c])).

Definition load_manager (linkManager : Z) : Host SocketClient.socket_link_manager :=
  fun h =>
    match h_managers h !! linkManager with
    | Some m => Ok (m, h)
    | None => Crash NullPointer
    end.

Definition store_manager (linkManager : Z) (m : SocketClient.socket_link_manager)
    : Host unit :=
  fun h => Ok (tt, mk_host (h_errno h) (<[linkManager := m]> (h_managers h)) (h_calls h)).

(** [free]: the call, and the manager is gone from the heap. *)
Definition free (linkManager : Z) : Host unit :=
  fun h =>
    Ok (tt, mk_host (h_errno h) (delete linkManager (h_managers h))
              (h_calls h ++ [OsFree linkManager])).

Section Lifetime.

Variable sizeof_socket_link_manager : Z.
Variable o : os.

Definition socket_link_connect (linkManager : Z) : Host Z :=
  let* m := load_manager linkManager in
  let type :=
    match SocketClient.type (SocketClient.config m) with
    | SocketClient.gracht_link_stream_based => SOCK_STREAM
    | _ => SOCK_DGRAM
    end in
  let* iod := os_call (OsSocket AF_LOCAL type 0)
                      (fun t => os_socket o t AF_LOCAL type 0) in
  store_manager linkManager (SocketClient.mk_manager (SocketClient.config m) iod) ;;
  if iod <? 0 then ret (-1)
  else
    let namelen := SocketClient.address_length (SocketClient.config m) in
    let* status := os_call (OsConnect iod namelen)
                           (fun t => os_connect o t iod namelen) in
    if negb (status =? 0) then
      os_call (OsClose iod) (fun t => os_close o t iod) ;;
      ret status
    else ret iod.

Definition socket_link_destroy (linkManager : Z) : Host unit :=
  if linkManager =? 0 then ret tt
  else
    let* m := load_manager linkManager in
    (if 0 <? SocketClient.iod m then
       os_call (OsClose (SocketClient.iod m))
               (fun t => os_close o t (SocketClient.iod m)) ;;
       ret tt
     else ret tt) ;;
    free linkManager.

(** Returns the status and what is stored through [linkOut]. *)
Definition gracht_link_socket_client_create
    (configuration : SocketClient.socket_client_configuration)
    : Host (Z * option Z) :=
  let* linkManager := os_call (OsMalloc sizeof_socket_link_manager)
                              (fun t => os_malloc o t sizeof_socket_link_manager) in
  if linkManager =? 0 then
    set_errno ENOMEM ;; ret (-1, None)
  else
    (* memset to 0, then the configuration is copied in *)
    store_manager linkManager (SocketClient.mk_manager configuration 0) ;;
    ret (0, Some linkManager).

End Lifetime.

End SocketClientLifetime.

(** ** The readiness set of the socket link on Windows (socket_os.h)

    [socket_aio_add] and [socket_aio_remove] keep the sockets of a
    completion port in a singly linked list.  The entries live on the heap;
    [link] holds the address of the next entry, 0 for NULL.  A connection
    handle is taken to lie in the range of SOCKET, so that the cast to
    SOCKET keeps its value. *)

Module SocketOsWin32.

Record iocp_socket : Type := mk_iocp_socket {
  socket : Z;
  events : Z;
  link : Z
}.

(** The two fields of [struct iocp_handle], declared in aio.h, that this
    header reads and writes. *)
Record iocp_handle : Type := mk_iocp_handle {
  iocp : Z;
  head : Z
}.

Inductive wincall : Type :=
| WinMalloc (size : Z)
| WinFree (pointer : Z)
| WSACreateEvent
| WSACloseEvent (event : Z)
| WSAEventSelect (s : Z) (event : Z) (mask : Z)
| CreateIoCompletionPort (file : Z) (port : Z) (key : Z) (threads : Z).

Record windows : Type := mk_windows {
  w_handles : gmap Z iocp_handle;
  w_entries : gmap Z iocp_socket;
  w_calls : list wincall
}.

(** What the calls return, given the calls made before. *)
Record winapi : Type := mk_winapi {
  api_malloc : list wincall -> Z -> Z;
  api_WSACreateEvent : list wincall -> Z;
  api_WSAEventSelect : list wincall -> Z -> Z -> Z -> Z;
  api_CreateIoCompletionPort : list wincall -> Z -> Z -> Z -> Z -> Z
}.

Definition Win (A : Type) : Type := St windows A.

Definition win_call (c : wincall) (f : list wincall -> Z) : Win Z :=
  fun w => Ok (f (w_calls w), mk_windows (w_handles w) (w_entries w) (w_calls w ++ [c])).

(** A call whose result the code does not look at. *)
Definition win_do (c : wincall) : Win unit :=
  fun w => Ok (tt, mk_windows (w_handles w) (w_entries w) (w_calls w ++ [c])).

Definition load_handle (aio : Z) : Win iocp_handle :=
  fun w =>
    match w_handles w !! aio with
    | Some h => Ok (h, w)
    | None => Crash NullPointer
    end.

Definition store_handle (aio : Z) (h : iocp_handle) : Win unit :=
  fun w => Ok (tt, mk_windows (<[aio := h]> (w_handles w)) (w_entries w) (w_calls w)).

Definition load_entry (p : Z) : Win iocp_socket :=
  fun w =>
    match w_entries w !! p with
    | Some e => Ok (e, w)
    | None => Crash NullPointer
    end.

Definition store_entry (p : Z) (e : iocp_socket) : Win unit :=
  fun w => Ok (tt, mk_windows (w_handles w) (<[p := e]> (w_entries w)) (w_calls w)).

(** [free]: the call, and the entry is gone from the heap. *)
Definition free (p : Z) : Win unit :=
  fun w =>
    Ok (tt, mk_windows (w_handles w) (delete p (w_entries w)) (w_calls w ++ [WinFree p])).

(** The cast to DWORD keeps the low 32 bits. *)
Definition DWORD (v : Z) : Z := v mod 2 ^ 32.

Section Iocp.

(** Constants of <winsock2.h>. *)
Variable WSA_INVALID_EVENT : Z.
Variable SOCKET_ERROR : Z.
Variable FD_ACCEPT : Z.
Variable FD_READ : Z.
Variable FD_CLOSE : Z.

Variable sizeof_iocp_socket : Z.
Variable api : winapi.

(** [while (itr->link) itr = itr->link;] *)
Fixpoint last_entry (fuel : nat) (itr : Z) : Win Z :=
  match fuel with
  | O => out_of_fuel
  | S fuel' =>
      let* e := load_entry itr in
      if negb (link e =? 0) then last_entry fuel' (link e)
      else ret itr
  end.

Definition socket_aio_add (fuel : nat) (aio : Z) (iod : Z) : Win Z :=
  let* iocpEntry := win_call (WinMalloc sizeof_iocp_socket)
                             (fun t => api_malloc api t sizeof_iocp_socket) in
  if iocpEntry =? 0 then ret (-1)
  else
    let* event := win_call WSACreateEvent (api_WSACreateEvent api) in
    store_entry iocpEntry (mk_iocp_socket iod event 0) ;;
    if event =? WSA_INVALID_EVENT then
      free iocpEntry ;; ret (-2)
    else
      let mask := Z.lor (Z.lor FD_ACCEPT FD_READ) FD_CLOSE in
      let* selected := win_call (WSAEventSelect iod event mask)
                                (fun t => api_WSAEventSelect api t iod event mask) in
      if selected =? SOCKET_ERROR then
        win_do (WSACloseEvent event) ;;
        free iocpEntry ;; ret (-3)
      else
        let* h := load_handle aio in
        let* handle :=
          win_call (CreateIoCompletionPort iod (iocp h) (DWORD iod) 0)
                   (fun t => api_CreateIoCompletionPort api t iod (iocp h) (DWORD iod) 0) in
        if handle =? 0 then
          win_do (WSACloseEvent event) ;;
          free iocpEntry ;; ret (-4)
        else
          (* add it to the iocp list *)
          let itr := head h in
          if itr =? 0 then
            store_handle aio (mk_iocp_handle (iocp h) iocpEntry) ;; ret 0
          else
            let* itr := last_entry fuel itr in
            let* e := load_entry itr in
            store_entry itr (mk_iocp_socket (socket e) (events e) iocpEntry) ;;
            ret 0.

(** The [while (itr)] loop of [socket_aio_remove]; the result is [itr] when
    the loop is left. *)
Fixpoint find_entry (fuel : nat) (aio : Z) (iod : Z) (itr : Z) (prev : Z) : Win Z :=
  match fuel with
  | O => out_of_fuel
  | S fuel' =>
      if itr =? 0 then ret itr
      else
        let* e := load_entry itr in
        if socket e =? iod then
          (if negb (prev =? 0) then
             let* pe := load_entry prev in
             store_entry prev (mk_iocp_socket (socket pe) (events pe) (link e))
           else
             let* h := load_handle aio in
             store_handle aio (mk_iocp_handle (iocp h) (link e))) ;;
          ret itr
        else find_entry fuel' aio iod (link e) itr
  end.

Definition socket_aio_remove (fuel : nat) (aio : Z) (iod : Z) : Win Z :=
  let* h := load_handle aio in
  let* itr := find_entry fuel aio iod (head h) 0 in
  if negb (itr =? 0) then
    let* e := load_entry itr in
    win_do (WSACloseEvent (events e)) ;;
    free itr ;;
    ret 0
  else ret (-1).

(** What the calls of a [socket_aio_add] that starts in [w] return, and the
    calls of one that succeeds. *)
Definition add_mask : Z := Z.lor (Z.lor FD_ACCEPT FD_READ) FD_CLOSE.

Definition add_allocated (w : windows) : Z :=
  api_malloc api (w_calls w) sizeof_iocp_socket.

Definition add_event (w : windows) : Z :=
  api_WSACreateEvent api (w_calls w ++ [WinMalloc sizeof_iocp_socket]).

Definition add_selected (w : windows) (iod : Z) : Z :=
  api_WSAEventSelect api
    (w_calls w ++ [WinMalloc sizeof_iocp_socket; WSACreateEvent])
    iod (add_event w) add_mask.

Definition add_port (w : windows) (iod : Z) (port : Z) : Z :=
  api_CreateIoCompletionPort api
    (w_calls w ++ [WinMalloc sizeof_iocp_socket; WSACreateEvent;
                   WSAEventSelect iod (add_event w) add_mask])
    iod port (DWORD iod) 0.

Definition add_calls (w : windows) (iod : Z) (port : Z) : list wincall :=
  [WinMalloc sizeof_iocp_socket; WSACreateEvent;
   WSAEventSelect iod (add_event w) add_mask;
   CreateIoCompletionPort iod port (DWORD iod) 0].

End Iocp.

(** One socket of the readiness set: the address of its entry, the socket
    and its event object. *)
Record registration : Type := mk_registration {
  reg_entry : Z;
  reg_socket : Z;
  reg_events : Z
}.

(** The entries reached from [p] over [link] are those of [l], in this
    order, and the last one ends the list. *)
Fixpoint iocp_chain (entries : gmap Z iocp_socket) (p : Z) (l : list registration)
    : bool :=
  match l with
  | [] => p =? 0
  | x :: l' =>
      (p =? reg_entry x) && negb (p =? 0) &&
      match entries !! p with
      | Some e =>
          (socket e =? reg_socket x) && (events e =? reg_events x) &&
          iocp_chain entries (link e) l'
      | None => false
      end
  end.

(** The address of the first entry of [l], NULL for none. *)
Definition first_entry (l : list registration) : Z :=
  match l with
  | [] => 0
  | x :: _ => reg_entry x
  end.

End SocketOsWin32.

(** ** Vocabulary of the client link statements *)

(** The flags [socket_link_recv] hands to the receive of the link type:
    MSG_WAITALL, and MSG_DONTWAIT unless the caller set GRACHT_WAIT_BLOCK. *)
Definition converted_flags (GRACHT_WAIT_BLOCK flags : Z) : Z :=
  if Z.land flags GRACHT_WAIT_BLOCK =? 0
  then Z.lor SocketClient.MSG_WAITALL SocketClient.MSG_DONTWAIT
  else SocketClient.MSG_WAITALL.

Definition is_buffer_param (prm : SocketClient.gracht_param) : bool :=
  match SocketClient.p_type prm with
  | SocketClient.GRACHT_PARAM_BUFFER => true
  | _ => false
  end.

Definition is_shm_param (prm : SocketClient.gracht_param) : bool :=
  match SocketClient.p_type prm with
  | SocketClient.GRACHT_PARAM_SHM => true
  | _ => false
  end.

(** The scatter-gather entries of the buffer parameters among [prms]. *)
Definition buffer_entries (prms : list SocketClient.gracht_param)
    : list SocketClient.iobuf :=
  map (fun prm => SocketClient.IoBuffer (SocketClient.p_data prm)
                    (SocketClient.p_length prm))
      (filter (fun prm => is_buffer_param prm = true) prms).

(** ** Further concrete inputs *)

Module Cases.

(** A running multi-threaded server: worker pool at 4096, arena at 12288. *)
Definition running_mt_server (registry : gmap Z client_wrapper) : gracht_server :=
  mk_server (Some g_mtOperations) (mk_callbacks true true) 12288 4096 1536
    0 0 1 4 0 10 11 {[0 := Scenario.control_protocol]} registry.

Definition running_mt (registry : gmap Z client_wrapper) : world :=
  mk_world (running_mt_server registry) 0 [].

(** A datagram of protocol 5 as the link stores it for the server. *)
Definition datagram : gracht_recv_message := Scenario.datagram_request.

(** A link whose datagram socket holds one datagram: the first receive
    yields it, every later one fails with ENODATA. *)
Definition link_with_one_datagram : server_link_ops :=
  mk_link
    (listen Scenario.quiet_link) (accept Scenario.quiet_link)
    (fun t _ _ =>
       if (length t <=? 1)%nat then mk_reply 0 None datagram
       else mk_reply (-1) (Some ENODATA) Scenario.empty_message)
    (recv_client Scenario.quiet_link)
    (send_client Scenario.quiet_link) (respond Scenario.quiet_link)
    (create_client Scenario.quiet_link).

(** A link on which client 20 has sent one message: the first receive
    yields it, every later one fails with ENODATA. *)
Definition link_with_one_message : server_link_ops :=
  mk_link
    (listen Scenario.quiet_link) (accept Scenario.quiet_link)
    (recv_packet Scenario.quiet_link)
    (fun t _ _ _ =>
       match t with
       | [] => mk_reply 0 None Scenario.message_from_20
       | _ => mk_reply (-1) (Some ENODATA) Scenario.empty_message
       end)
    (send_client Scenario.quiet_link) (respond Scenario.quiet_link)
    (create_client Scenario.quiet_link).

(** A [clientDisconnected] callback that sends a last event to the client
    that goes away. *)
Definition farewell_callback (client : Z) : M unit :=
  gracht_server_send_event Scenario.quiet_link client Scenario.event_message 0 ;;
  ret tt.

(** A link that cannot accept. *)
Definition link_refusing_accept : server_link_ops :=
  mk_link
    (listen Scenario.quiet_link)
    (fun _ => mk_reply (-1) (Some EPIPE) (mk_client 0 []))
    (recv_packet Scenario.quiet_link) (recv_client Scenario.quiet_link)
    (send_client Scenario.quiet_link) (respond Scenario.quiet_link)
    (create_client Scenario.quiet_link).

(** A message of 44 bytes with two in-parameters: a value and a buffer of
    8 bytes at address 4096. *)
Definition message_with_buffer : SocketClient.gracht_message :=
  SocketClient.mk_message (SocketClient.mk_header 7 44 2 0 5 1)
    [SocketClient.mk_param SocketClient.GRACHT_PARAM_VALUE 4 17;
     SocketClient.mk_param SocketClient.GRACHT_PARAM_BUFFER 8 4096].

(** A kernel whose stream socket holds the header of [message] and
    [payload_bytes] bytes after it, whose datagram socket would block
    (EAGAIN), and which sends [sent] bytes. *)
Definition kernel_holding (message : SocketClient.gracht_message)
    (payload_bytes sent : Z) : SocketClient.kernel :=
  SocketClient.mk_kernel
    (fun t _ len _ =>
       match t with
       | [] => mk_reply len None message
       | _ => mk_reply payload_bytes None message
       end)
    (fun _ _ _ _ => mk_reply (-1) (Some 11) message)
    (fun _ _ _ _ => mk_reply sent None tt).

(** A C library and kernel whose [malloc] returns [pointer], whose
    [socket] returns [fd] and whose [connect] returns [connected], with
    ECONNREFUSED when that is not 0. *)
Definition os_giving (pointer fd connected : Z) : SocketClientLifetime.os :=
  SocketClientLifetime.mk_os
    (fun _ _ => mk_reply pointer None tt)
    (fun _ _ _ _ => mk_reply fd None tt)
    (fun _ _ _ => mk_reply connected (if connected =? 0 then None else Some 111) tt)
    (fun _ _ => mk_reply 0 None tt).

Definition unconnected_manager : SocketClient.socket_link_manager :=
  SocketClient.mk_manager
    (SocketClient.mk_config SocketClient.gracht_link_stream_based 16) 0.

Definition idle_host : SocketClientLifetime.host :=
  SocketClientLifetime.mk_host 0 ∅ [].

(** A process with one link that was created at address 4096. *)
Definition host_with_link : SocketClientLifetime.host :=
  SocketClientLifetime.mk_host 0 {[4096 := unconnected_manager]} [].

(** Windows calls that return [pointer], [event], [selected] and [port]. *)
Definition winapi_giving (pointer event selected port : Z) : SocketOsWin32.winapi :=
  SocketOsWin32.mk_winapi
    (fun _ _ => pointer) (fun _ => event)
    (fun _ _ _ _ => selected) (fun _ _ _ _ _ => port).

Definition registered_5 : SocketOsWin32.registration :=
  SocketOsWin32.mk_registration 4096 5 50.

Definition registered_6 : SocketOsWin32.registration :=
  SocketOsWin32.mk_registration 4112 6 60.

(** The handle at address 1 is a completion port whose list holds the
    sockets 5 and 6. *)
Definition two_sockets : SocketOsWin32.windows :=
  SocketOsWin32.mk_windows
    {[1 := SocketOsWin32.mk_iocp_handle 77 4096]}
    {[4096 := SocketOsWin32.mk_iocp_socket 5 50 4112;
      4112 := SocketOsWin32.mk_iocp_socket 6 60 0]}
    [].

End Cases.
(** * Properties *)

(** Unfolding of the monad's plumbing. *)
Ltac run_monad :=
  unfold bind, ret, crash, out_of_fuel, load, notify, call,
    get_server, put_server, get_errno, set_errno, modify_server,
    hashtable_get_client, hashtable_set_client, hashtable_remove_client,
    store_client; cbn.

(** ** The registry as a keyed set *)

Lemma hashtable_elements_spec (t : gmap Z client_wrapper) (e : client_wrapper) :
  e ∈ hashtable_elements t <-> exists h, t !! h = Some e.
Proof.
  unfold hashtable_elements. rewrite list_elem_of_fmap. split.
  - intros [[h e'] [-> Hin]]. exists h. by apply elem_of_map_to_list in Hin.
  - intros [h Hh]. exists (h, e). split; [done |]. by apply elem_of_map_to_list.
Qed.

(** ** Loads and stores *)

Lemma load8_Some (d : list Z) (off : Z) :
  0 <= off -> (Z.to_nat off < length d)%nat ->
  exists b, Mem.load8 d off = Some b /\ 0 <= b < 256.
Proof.
  intros H0 Hlt. unfold Mem.load8.
  destruct (Z.ltb_spec off 0) as [? | _]; [lia |].
  destruct (lookup_lt_is_Some_2 d (Z.to_nat off) Hlt) as [b ->].
  exists (b mod 256). split; [done | apply Z.mod_pos_bound; lia].
Qed.

Lemma store8_Some (d : list Z) (off v : Z) :
  0 <= off -> (Z.to_nat off < length d)%nat ->
  Mem.store8 d off v = Some (<[Z.to_nat off := v mod 256]> d).
Proof.
  intros H0 Hlt. unfold Mem.store8.
  destruct (Z.ltb_spec off 0) as [? | _]; [lia |].
  by destruct (lookup_lt_is_Some_2 d (Z.to_nat off) Hlt) as [b ->].
Qed.

Lemma store8_inv (d d' : list Z) (off v : Z) :
  Mem.store8 d off v = Some d' ->
  0 <= off /\ (Z.to_nat off < length d)%nat /\ d' = <[Z.to_nat off := v mod 256]> d.
Proof.
  unfold Mem.store8. destruct (Z.ltb_spec off 0) as [? | H0]; [done |].
  destruct (d !! Z.to_nat off) eqn:E; [| done].
  intros [= <-]. split; [done |]. split; [| done].
  by apply lookup_lt_Some in E.
Qed.

Lemma store8_length (d d' : list Z) (off v : Z) :
  Mem.store8 d off v = Some d' -> length d' = length d.
Proof.
  intros H. apply store8_inv in H as (_ & _ & ->). apply length_insert.
Qed.

Lemma load8_store8_ne (d d' : list Z) (off off' v : Z) :
  Mem.store8 d off v = Some d' -> off' <> off ->
  Mem.load8 d' off' = Mem.load8 d off'.
Proof.
  intros H Hne. apply store8_inv in H as (H0 & _ & ->).
  unfold Mem.load8. destruct (Z.ltb_spec off' 0) as [? | H0']; [done |].
  rewrite list_lookup_insert_ne; [done | lia].
Qed.

Lemma load8_store8_eq (d d' : list Z) (off v : Z) :
  Mem.store8 d off v = Some d' -> Mem.load8 d' off = Some (v mod 256).
Proof.
  intros H. apply store8_inv in H as (H0 & Hlt & ->).
  unfold Mem.load8. destruct (Z.ltb_spec off 0) as [? | _]; [lia |].
  rewrite list_lookup_insert_eq; [| done].
  by rewrite Z.mod_mod.
Qed.

Lemma store32_Some (d : list Z) (off v : Z) :
  0 <= off -> (Z.to_nat off + 3 < length d)%nat ->
  exists d', Mem.store32 d off v = Some d' /\ length d' = length d.
Proof.
  intros H0 Hlt. unfold Mem.store32.
  rewrite store8_Some by lia.
  rewrite store8_Some by (rewrite ?length_insert; lia).
  rewrite store8_Some by (rewrite ?length_insert; lia).
  rewrite store8_Some by (rewrite ?length_insert; lia).
  eexists. split; [done |]. by rewrite !length_insert.
Qed.

Lemma load8_store32_ne (d d' : list Z) (off off' v : Z) :
  Mem.store32 d off v = Some d' -> off' < off \/ off + 3 < off' ->
  Mem.load8 d' off' = Mem.load8 d off'.
Proof.
  unfold Mem.store32. intros H Hne.
  destruct (Mem.store8 d off v) as [d0 |] eqn:E0; [| done].
  destruct (Mem.store8 d0 (off + 1) _) as [d1 |] eqn:E1; [| done].
  destruct (Mem.store8 d1 (off + 2) _) as [d2 |] eqn:E2; [| done].
  rewrite (load8_store8_ne _ _ _ _ _ H) by lia.
  rewrite (load8_store8_ne _ _ _ _ _ E2) by lia.
  rewrite (load8_store8_ne _ _ _ _ _ E1) by lia.
  by rewrite (load8_store8_ne _ _ _ _ _ E0) by lia.
Qed.

Lemma load32_store32_eq (d d' : list Z) (off v : Z) :
  Mem.store32 d off v = Some d' -> Mem.load32 d' off = Some (v mod 2 ^ 32).
Proof.
  unfold Mem.store32. intros H.
  destruct (Mem.store8 d off v) as [d0 |] eqn:E0; [| done].
  destruct (Mem.store8 d0 (off + 1) _) as [d1 |] eqn:E1; [| done].
  destruct (Mem.store8 d1 (off + 2) _) as [d2 |] eqn:E2; [| done].
  unfold Mem.load32.
  assert (Mem.load8 d' off = Some (v mod 256)) as ->.
  { rewrite (load8_store8_ne _ _ _ off _ H) by lia.
    rewrite (load8_store8_ne _ _ _ off _ E2) by lia.
    rewrite (load8_store8_ne _ _ _ off _ E1) by lia.
    apply (load8_store8_eq _ _ _ _ E0). }
  assert (Mem.load8 d' (off + 1) = Some (v / 256 mod 256)) as ->.
  { rewrite (load8_store8_ne _ _ _ (off + 1) _ H) by lia.
    rewrite (load8_store8_ne _ _ _ (off + 1) _ E2) by lia.
    apply (load8_store8_eq _ _ _ _ E1). }
  assert (Mem.load8 d' (off + 2) = Some (v / 65536 mod 256)) as ->.
  { rewrite (load8_store8_ne _ _ _ (off + 2) _ H) by lia.
    apply (load8_store8_eq _ _ _ _ E2). }
  assert (Mem.load8 d' (off + 3) = Some (v / 16777216 mod 256)) as ->.
  { apply (load8_store8_eq _ _ _ _ H). }
  f_equal.
  change (2 ^ 32) with (256 * (256 * (256 * 256))).
  rewrite (Z.rem_mul_r v 256 (256 * (256 * 256))) by lia.
  rewrite (Z.rem_mul_r (v / 256) 256 (256 * 256)) by lia.
  rewrite (Z.rem_mul_r (v / 256 / 256) 256 256) by lia.
  rewrite !Z.div_div by lia.
  change (256 * 256) with 65536. change (65536 * 256) with 16777216. ring.
Qed.

(** ** client_destroy *)

Lemma client_destroy_eq (h : Z) (w : world) :
  client_destroy h w =
    Ok (tt, mk_world
              (with_clients (g_grachtServer w) (delete h (clients (g_grachtServer w))))
              (errno w)
              (trace w ++ disconnected_events (g_grachtServer w) h
                       ++ destroyed_events (g_grachtServer w) h)).
Proof.
  destruct w as [s e t].
  unfold client_destroy, client_destroy_calling, disconnected_events, destroyed_events.
  run_monad.
  destruct (clientDisconnected (callbacks s)); cbn;
    destruct (clients s !! h); cbn; rewrite ?app_nil_r, <- ?app_assoc; reflexivity.
Qed.

(** ** Event classification *)

Section EventProperties.

Variable GRACHT_AIO_EVENT_IN : Z.
Variable GRACHT_AIO_EVENT_DISCONNECT : Z.
Variable GRACHT_MESSAGE_HEADER_SIZE : Z.
Variable link : server_link_ops.
Variable rt : runtime.

Local Abbreviation async_event :=
  (handle_async_event GRACHT_AIO_EVENT_IN GRACHT_AIO_EVENT_DISCONNECT
     GRACHT_MESSAGE_HEADER_SIZE link rt).
Local Abbreviation handle_event :=
  (gracht_server_handle_event GRACHT_AIO_EVENT_IN GRACHT_AIO_EVENT_DISCONNECT
     GRACHT_MESSAGE_HEADER_SIZE link rt).

(** A mask with the disconnect bit unregisters the handle from the readiness
    set and destroys the client. *)
Lemma handle_async_event_disconnect (fuel : nat) (h events : Z) (w : world) :
  Z.land events GRACHT_AIO_EVENT_DISCONNECT <> 0 ->
  async_event fuel h events w =
    let s := g_grachtServer w in
    Ok (0, mk_world
             (with_clients s (delete h (clients s)))
             (default (errno w) (r_errno (gracht_aio_remove rt (trace w) (set_handle s) h)))
             (trace w ++ [EvAioRemove (set_handle s) h]
                      ++ disconnected_events s h ++ destroyed_events s h)).
Proof.
  intros Hd. unfold handle_async_event.
  apply Z.eqb_neq in Hd. rewrite Hd. cbn [negb].
  unfold bind, get_server, call, ret. cbn -[client_destroy].
  rewrite client_destroy_eq. cbn. rewrite <- app_assoc. reflexivity.
Qed.

(** A mask without the disconnect bit, on a handle the registry does not
    know: nothing happens. *)
Lemma handle_async_event_unknown (fuel : nat) (h events : Z) (w : world) :
  Z.land events GRACHT_AIO_EVENT_DISCONNECT = 0 ->
  clients (g_grachtServer w) !! h = None ->
  async_event fuel h events w = Ok (0, w).
Proof.
  intros Hd Hc. unfold handle_async_event.
  apply Z.eqb_eq in Hd. rewrite Hd. cbn [negb].
  destruct (negb (Z.land events GRACHT_AIO_EVENT_IN =? 0) || (events =? 0)).
  - run_monad. rewrite Hc. by destruct w.
  - run_monad. by destruct w.
Qed.

(** C9: [client_destroy] calls the [clientDisconnected] callback, when one
    is installed, before it looks the handle up: whatever the callback does,
    it runs on the process as [client_destroy] found it, with the registry
    untouched, and the lookup and the removal are made in the process the
    callback has left.  So the callback fires whatever the registry holds
    for the handle, and the link's [destroy_client] is called exactly when
    an entry was found, after the callback.  The same holds when the call
    comes from a readiness event with the disconnect bit. *)
Theorem client_destroy_callback_precedes_lookup
    (callback : Z -> M unit)
    (fuel : nat) (h events : Z) (w : world)
    (Hmask : Z.land events GRACHT_AIO_EVENT_DISCONNECT <> 0) :
  let s := g_grachtServer w in
  let fired := if clientDisconnected (callbacks s) then [EvClientDisconnected h] else [] in
  let destroyed :=
    match clients s !! h with
    | Some e => [EvLinkDestroyClient (wrapper_client e)]
    | None => []
    end in
  let lookup (w1 : world) : outcome (unit * world) :=
    let s1 := g_grachtServer w1 in
    Ok (tt, mk_world (with_clients s1 (delete h (clients s1))) (errno w1)
              (trace w1 ++ match clients s1 !! h with
                           | Some e => [EvLinkDestroyClient (wrapper_client e)]
                           | None => []
                           end)) in
  client_destroy_calling callback h w =
    (if clientDisconnected (callbacks s) then
       match callback h w with
       | Ok (_, w1) => lookup w1
       | Crash f => Crash f
       | OutOfFuel => OutOfFuel
       end
     else lookup w) /\
  client_destroy h w =
    client_destroy_calling (fun client => notify (EvClientDisconnected client)) h w /\
  (exists w',
     client_destroy h w = Ok (tt, w') /\
     trace w' = trace w ++ fired ++ destroyed /\
     clients (g_grachtServer w') = delete h (clients s)) /\
  (exists w',
     async_event fuel h events w = Ok (0, w') /\
     trace w' = trace w ++ [EvAioRemove (set_handle s) h] ++ fired ++ destroyed /\
     clients (g_grachtServer w') = delete h (clients s)) /\
  (clients s !! h = None -> clientDisconnected (callbacks s) = true ->
     fired ++ destroyed = [EvClientDisconnected h]).
Proof.
  cbn zeta. split; [| split; [reflexivity |]; split; [| split]].
  - unfold client_destroy_calling, hashtable_remove_client.
    unfold bind at 1. unfold get_server at 1. unfold ret at 1.
    destruct (clientDisconnected (callbacks (g_grachtServer w))).
    + unfold bind at 1. destruct (callback h w) as [[[] w1] | |]; [| done | done].
      destruct w1 as [s1 e1 t1]. run_monad.
      destruct (clients s1 !! h); cbn; by rewrite ?app_nil_r.
    + destruct w as [s0 e0 t0]. run_monad.
      destruct (clients s0 !! h); cbn; by rewrite ?app_nil_r.
  - eexists. split; [apply client_destroy_eq |]. by split.
  - eexists. split; [by apply handle_async_event_disconnect |]. by split.
  - intros -> ->. reflexivity.
Qed.

(** C10: an event with the IN mask or the empty mask on a handle that is
    neither the listening handle, nor the datagram handle, nor a key of the
    client registry returns 0 and leaves the whole process as it was, for
    any bound on the drain loop: the loop is not entered. *)
Theorem handle_event_unknown_handle_is_noop
    (fuel : nat) (h events : Z) (w : world)
    (Hbits : Z.land GRACHT_AIO_EVENT_IN GRACHT_AIO_EVENT_DISCONNECT = 0)
    (Hmask : events = GRACHT_AIO_EVENT_IN \/ events = 0)
    (Hlisten : h <> listen_handle (g_grachtServer w))
    (Hdgram : h <> dgram_handle (g_grachtServer w))
    (Hclient : clients (g_grachtServer w) !! h = None) :
  handle_event fuel h events w = Ok (0, w).
Proof.
  unfold gracht_server_handle_event.
  unfold bind at 1. unfold get_server at 1.
  apply Z.eqb_neq in Hlisten, Hdgram. rewrite Hlisten, Hdgram.
  apply handle_async_event_unknown; [| done].
  destruct Hmask as [-> | ->]; [done | apply Z.land_0_l].
Qed.

End EventProperties.

(** ** Subscriptions *)

Lemma word_at_memset32 (words : list Z) (byte block : Z) :
  word_at (memset32 words byte) block = 0 \/
  word_at (memset32 words byte) block = (byte mod 256) * 16843009.
Proof.
  unfold word_at, memset32. rewrite list_lookup_fmap.
  destruct (words !! Z.to_nat block); cbn; auto.
Qed.

Lemma client_unsubscribe_all (c : gracht_server_client) (id : Z) :
  client_is_subscribed (client_unsubscribe c 255) id = false.
Proof.
  unfold client_is_subscribed, client_unsubscribe. cbn.
  destruct (word_at_memset32 (subscriptions c) 0 (id / 32)) as [-> | ->];
    by rewrite Z.land_0_l.
Qed.

(** ** Broadcast *)

Section BroadcastProperties.

Variable link : server_link_ops.

Lemma enumerate_broadcast (message : gracht_buffer) (flags protocol : Z)
    (l : list client_wrapper) :
  Mem.load8 (buf_data message) 8 = Some protocol ->
  forall w, exists e',
    enumerate (client_enum_broadcast link message flags) l w =
      Ok (tt, mk_world (g_grachtServer w) e'
                (trace w ++ broadcast_sends message flags protocol l)).
Proof.
  intros Hp. induction l as [| e l IH]; intros w.
  - exists (errno w). cbn. unfold ret, broadcast_sends. cbn.
    rewrite app_nil_r. by destruct w.
  - cbn [enumerate]. unfold bind at 1. unfold client_enum_broadcast at 1.
    rewrite Hp. unfold broadcast_sends. cbn [List.filter].
    unfold load, bind, ret, call. cbn -[enumerate].
    destruct (client_is_subscribed (wrapper_client e) protocol).
    + match goal with |- context [enumerate _ l ?w1] => destruct (IH w1) as [e' ->] end.
      exists e'. cbn. by rewrite <- app_assoc.
    + destruct (IH w) as [e' ->]. by exists e'.
Qed.

Lemma broadcast_sends_spec (message : gracht_buffer) (flags protocol : Z)
    (t : gmap Z client_wrapper) (c : gracht_server_client)
    (m : gracht_buffer) (f : Z) :
  EvLinkSendClient c m f ∈ broadcast_sends message flags protocol (hashtable_elements t) <->
  m = message /\ f = flags /\
  exists h e, t !! h = Some e /\ wrapper_client e = c /\
              client_is_subscribed c protocol = true.
Proof.
  unfold broadcast_sends. rewrite list_elem_of_fmap. split.
  - intros [e [[= -> -> ->] Hin]].
    apply list_elem_of_In, filter_In in Hin as [Hin Hsub].
    apply list_elem_of_In, hashtable_elements_spec in Hin as [h Hh].
    do 2 (split; [done |]). by exists h, e.
  - intros (-> & -> & h & e & Hh & <- & Hsub). exists e. split; [done |].
    apply list_elem_of_In, filter_In. split; [| done].
    apply list_elem_of_In, hashtable_elements_spec. by exists h.
Qed.

Lemma broadcast_event_eq (message : gracht_buffer) (flags : Z) (w : world) :
  (12 <= length (buf_data message))%nat ->
  exists d protocol e',
    Mem.store32 (buf_data message) 4 (buf_index message) = Some d /\
    Mem.load8 (buf_data message) 8 = Some protocol /\
    gracht_server_broadcast_event link message flags w =
      Ok (0, mk_world (g_grachtServer w) e'
               (trace w ++ broadcast_sends (mk_buffer d (buf_index message)) flags protocol
                             (hashtable_elements (clients (g_grachtServer w))))).
Proof.
  intros Hlen.
  destruct (store32_Some (buf_data message) 4 (buf_index message)) as (d & Hd & Hdl);
    [lia | lia |].
  destruct (load8_Some (buf_data message) 8) as (p & Hp & _); [lia | lia |].
  exists d, p.
  assert (Mem.load8 d 8 = Some p) as Hp'.
  { rewrite <- Hp. apply (load8_store32_ne _ _ _ _ _ Hd). lia. }
  destruct (enumerate_broadcast (mk_buffer d (buf_index message)) flags p
              (hashtable_elements (clients (g_grachtServer w))) Hp' w) as [e' He'].
  exists e'. do 2 (split; [done |]).
  unfold gracht_server_broadcast_event, hashtable_enumerate_clients.
  rewrite Hd. unfold load, bind, ret, get_server. cbn -[enumerate].
  by rewrite He'.
Qed.

(** C3: [gracht_server_broadcast_event] returns 0 and hands the message,
    with its length field set to the cursor, to [send_client] for exactly
    the registry entries whose subscription bit for the protocol byte at
    offset 8 is set, once each in enumeration order, whatever the link
    replies to the individual sends. *)
Theorem broadcast_event_reaches_exactly_subscribers
    (message : gracht_buffer) (flags : Z) (w : world)
    (Hheader : (12 <= length (buf_data message))%nat) :
  exists d protocol w',
    Mem.store32 (buf_data message) 4 (buf_index message) = Some d /\
    Mem.load8 (buf_data message) 8 = Some protocol /\
    gracht_server_broadcast_event link message flags w = Ok (0, w') /\
    g_grachtServer w' = g_grachtServer w /\
    trace w' =
      trace w ++
      map (fun e => EvLinkSendClient (wrapper_client e) (mk_buffer d (buf_index message)) flags)
          (List.filter (fun e => client_is_subscribed (wrapper_client e) protocol)
             (hashtable_elements (clients (g_grachtServer w)))) /\
    (forall c m f,
       EvLinkSendClient c m f ∈ drop (length (trace w)) (trace w') <->
       m = mk_buffer d (buf_index message) /\ f = flags /\
       exists h e, clients (g_grachtServer w) !! h = Some e /\
                   wrapper_client e = c /\
                   client_is_subscribed c protocol = true).
Proof.
  destruct (broadcast_event_eq message flags w Hheader) as (d & p & e' & Hd & Hp & Hrun).
  exists d, p. eexists. do 2 (split; [done |]). split; [exact Hrun |].
  cbn. do 2 (split; [done |]).
  intros c m f. rewrite drop_app_length. apply broadcast_sends_spec.
Qed.

End BroadcastProperties.

(** ** The control protocol *)

Section ControlProperties.

Variable link : server_link_ops.

Lemma unsubscribe_invocation_all_eq (message : gracht_recv_message) (w : world)
    (e : client_wrapper) :
  clients (g_grachtServer w) !! client message = Some e ->
  gracht_control_unsubscribe_invocation message 255 w =
    let s := g_grachtServer w in
    Ok (tt, mk_world
              (with_clients s (delete (client message) (clients s)))
              (errno w)
              (trace w ++ disconnected_events s (client message)
                       ++ [EvLinkDestroyClient (client_unsubscribe (wrapper_client e) 255)])).
Proof.
  intros He. unfold gracht_control_unsubscribe_invocation.
  unfold bind, hashtable_get_client, store_client, get_server, put_server, ret.
  cbn -[client_destroy client_unsubscribe]. rewrite He.
  cbn -[client_destroy client_unsubscribe].
  rewrite client_destroy_eq. unfold destroyed_events, disconnected_events.
  cbn -[client_unsubscribe]. rewrite lookup_insert_eq, delete_insert_eq.
  reflexivity.
Qed.

(** A broadcast does not reach a handle the registry does not hold. *)
Lemma broadcast_skips_unregistered (h : Z) (message : gracht_buffer) (flags : Z)
    (w : world) :
  (12 <= length (buf_data message))%nat ->
  clients (g_grachtServer w) !! h = None ->
  exists w',
    gracht_server_broadcast_event link message flags w = Ok (0, w') /\
    forall c m f,
      EvLinkSendClient c m f ∈ drop (length (trace w)) (trace w') ->
      exists h' e', h' <> h /\ clients (g_grachtServer w) !! h' = Some e' /\
                    wrapper_client e' = c.
Proof.
  intros Hlen Hh.
  destruct (broadcast_event_eq link message flags w Hlen) as (d & p & e' & _ & _ & ->).
  eexists. split; [done |]. cbn. intros c m f. rewrite drop_app_length.
  intros (_ & _ & h' & e0 & He0 & Hc & _)%broadcast_sends_spec.
  exists h', e0. split; [| done]. intros ->. congruence.
Qed.

(** C2: on a handle with a client record, [unsubscribe(0xFF)] clears every
    subscription bit of the record and runs [client_destroy]: the
    disconnect callback fires if installed, the link's [destroy_client]
    receives the cleared record, the registry no longer holds the handle,
    and a broadcast issued afterwards is sent to entries under other handles
    only. *)
Theorem unsubscribe_all_destroys_client
    (message : gracht_recv_message) (w : world) (e : client_wrapper)
    (Hentry : clients (g_grachtServer w) !! client message = Some e) :
  let h := client message in
  let s := g_grachtServer w in
  let cleared := client_unsubscribe (wrapper_client e) 255 in
  (forall id, client_is_subscribed cleared id = false) /\
  exists w',
    gracht_control_unsubscribe_invocation message 255 w = Ok (tt, w') /\
    trace w' =
      trace w ++ (if clientDisconnected (callbacks s) then [EvClientDisconnected h] else [])
              ++ [EvLinkDestroyClient cleared] /\
    clients (g_grachtServer w') = delete h (clients s) /\
    clients (g_grachtServer w') !! h = None /\
    (forall msg flags, (12 <= length (buf_data msg))%nat ->
       exists w'',
         gracht_server_broadcast_event link msg flags w' = Ok (0, w'') /\
         forall c m f,
           EvLinkSendClient c m f ∈ drop (length (trace w')) (trace w'') ->
           exists h' e', h' <> h /\ clients s !! h' = Some e' /\ wrapper_client e' = c).
Proof.
  cbn zeta. split; [apply client_unsubscribe_all |].
  eexists. split; [by apply unsubscribe_invocation_all_eq |].
  cbn -[client_unsubscribe]. split; [done |]. split; [done |].
  split; [apply lookup_delete_eq |].
  intros msg flags Hlen.
  match goal with |- context [gracht_server_broadcast_event _ _ _ ?w1] =>
    destruct (broadcast_skips_unregistered (client message) msg flags w1 Hlen)
      as (w'' & Hrun & Hsends); [apply lookup_delete_eq |] end.
  exists w''. split; [exact Hrun |].
  intros c m f Hin. destruct (Hsends c m f Hin) as (h' & e' & Hne & He' & Hc).
  exists h', e'. split; [done |]. split; [| done].
  cbn in He'. by rewrite lookup_delete_ne in He'.
Qed.

(** C1: a subscribe from a handle without a client record, when the link's
    [create_client] succeeds, follows the NULL [entry] after the new record
    was inserted: the call faults and no subscription bit is set.  When
    [create_client] fails the call returns with the registry as it was. *)
Theorem subscribe_unregistered_follows_null
    (message : gracht_recv_message) (protocol : Z) (w : world)
    (Hentry : clients (g_grachtServer w) !! client message = None) :
  (r_ret (create_client link (trace w) message) = 0 ->
     gracht_control_subscribe_invocation link message protocol w = Crash NullPointer) /\
  (r_ret (create_client link (trace w) message) <> 0 ->
     exists w',
       gracht_control_subscribe_invocation link message protocol w = Ok (tt, w') /\
       g_grachtServer w' = g_grachtServer w).
Proof.
  unfold gracht_control_subscribe_invocation.
  unfold bind, hashtable_get_client, get_server, ret. cbn. rewrite Hentry. cbn.
  split; intros Hr.
  - rewrite Hr. cbn. by destruct (clientConnected (callbacks (g_grachtServer w))).
  - apply Z.eqb_neq in Hr. rewrite Hr. cbn. eexists. split; reflexivity.
Qed.

End ControlProperties.

(** ** The response path *)

Lemma load32_Some (d : list Z) (off : Z) :
  0 <= off -> (Z.to_nat off + 3 < length d)%nat ->
  exists v, Mem.load32 d off = Some v.
Proof.
  intros H0 Hlt. unfold Mem.load32.
  destruct (load8_Some d off) as (b0 & -> & _); [lia | lia |].
  destruct (load8_Some d (off + 1)) as (b1 & -> & _); [lia | lia |].
  destruct (load8_Some d (off + 2)) as (b2 & -> & _); [lia | lia |].
  destruct (load8_Some d (off + 3)) as (b3 & -> & _); [lia | lia |].
  by eexists.
Qed.

Lemma load32_store32_ne (d d' : list Z) (off off' v : Z) :
  Mem.store32 d off v = Some d' -> off' + 3 < off \/ off + 3 < off' ->
  Mem.load32 d' off' = Mem.load32 d off'.
Proof.
  intros H Hne. unfold Mem.load32.
  rewrite !(load8_store32_ne _ _ _ _ _ H) by lia. reflexivity.
Qed.

Section ResponseProperties.

Variable GRACHT_MESSAGE_BLOCK : Z.
Variable link : server_link_ops.

(** The message [gracht_server_respond] hands to the link carries in its id
    field the 32-bit word at offset 0 of the request's payload, and in its
    length field the cursor of the response. *)
Lemma respond_header (ctx : gracht_recv_message) (msg : gracht_buffer) (w : world) :
  (4 <= length (payload ctx))%nat ->
  (8 <= length (buf_data msg))%nat ->
  exists id d status w',
    Mem.load32 (payload ctx) 0 = Some id /\
    Mem.load32 d 0 = Some (id mod 2 ^ 32) /\
    Mem.load32 d 4 = Some (buf_index msg mod 2 ^ 32) /\
    gracht_server_respond GRACHT_MESSAGE_BLOCK link (Some ctx) (Some msg) w = Ok (status, w') /\
    g_grachtServer w' = g_grachtServer w /\
    trace w' =
      trace w ++
      [match clients (g_grachtServer w) !! client ctx with
       | None => EvLinkRespond ctx (mk_buffer d (buf_index msg))
       | Some e => EvLinkSendClient (wrapper_client e) (mk_buffer d (buf_index msg))
                     GRACHT_MESSAGE_BLOCK
       end].
Proof.
  intros Hp Hm.
  destruct (load32_Some (payload ctx) 0) as [id Hid]; [lia | lia |].
  destruct (store32_Some (buf_data msg) 0 id) as (d0 & Hd0 & Hl0); [lia | lia |].
  destruct (store32_Some d0 4 (buf_index msg)) as (d1 & Hd1 & Hl1); [lia | lia |].
  exists id, d1.
  assert (Mem.load32 d1 0 = Some (id mod 2 ^ 32)) as Hid1.
  { rewrite (load32_store32_ne _ _ _ _ _ Hd1) by lia.
    apply (load32_store32_eq _ _ _ _ Hd0). }
  pose proof (load32_store32_eq _ _ _ _ Hd1) as Hlen1.
  unfold gracht_server_respond. rewrite Hid. cbn [load].
  unfold bind at 1. unfold ret at 1. rewrite Hd0. cbn [load].
  unfold bind at 1. unfold ret at 1. rewrite Hd1. cbn [load].
  unfold bind at 1. unfold ret at 1.
  unfold bind at 1. unfold hashtable_get_client, bind, get_server, ret, call.
  cbn. destruct (clients (g_grachtServer w) !! client ctx) as [e |];
    cbn; do 2 eexists; (do 3 (split; [done |]));
    (split; [reflexivity | split; reflexivity]).
Qed.

End ResponseProperties.

(** C4: a datagram request whose parse cursor stands behind the peer
    address is dispatched to an action that answers it through
    [gracht_server_respond].  [server_invoke_action] reads id 7 at the
    cursor; the response handed to the link carries in its id field the
    first four bytes of the payload, which are address bytes. *)
Theorem response_id_taken_from_payload_start :
  Mem.load32 (payload Scenario.datagram_request)
             (index Scenario.datagram_request + 0) = Some 7 /\
  server_invoke_action Scenario.GRACHT_MESSAGE_HEADER_SIZE Scenario.responding_runtime
      Scenario.datagram_request (Scenario.running ∅) =
    Ok (tt, mk_world (Scenario.running_server ∅) 0
              [EvInvoke 500 Scenario.datagram_request
                 (mk_buffer (payload Scenario.datagram_request) 16);
               EvLinkRespond Scenario.datagram_request
                 (mk_buffer [170; 187; 204; 221;  12; 0; 0; 0;  5; 1; 0; 0] 12)]) /\
  Mem.load32 [170; 187; 204; 221;  12; 0; 0; 0;  5; 1; 0; 0] 0 = Some 3721182122.
Proof.
  split; [reflexivity |]. split; [| reflexivity].
  vm_compute. reflexivity.
Qed.

(** ** The client socket link *)

Section SocketClientProperties.

Variable GRACHT_MAX_MESSAGE_SIZE : Z.
Variable GRACHT_WAIT_BLOCK : Z.
Variable sizeof_gracht_message : Z.
Variable sizeof_gracht_param : Z.
Variable k : SocketClient.kernel.

Local Abbreviation link_recv :=
  (SocketClient.socket_link_recv GRACHT_MAX_MESSAGE_SIZE GRACHT_WAIT_BLOCK
     sizeof_gracht_message k).
Local Abbreviation link_recv_stream :=
  (SocketClient.socket_link_recv_stream sizeof_gracht_message k).
Local Abbreviation link_send :=
  (SocketClient.socket_link_send GRACHT_MAX_MESSAGE_SIZE sizeof_gracht_message
     sizeof_gracht_param k).
Local Abbreviation link_send_stream :=
  (SocketClient.socket_link_send_stream sizeof_gracht_message sizeof_gracht_param k).
Local Abbreviation link_send_packet :=
  (SocketClient.socket_link_send_packet sizeof_gracht_message sizeof_gracht_param k).

Ltac run_client :=
  unfold bind, ret, crash, SocketClient.set_errno, SocketClient.sys; cbn.

(** The flags [socket_link_recv] passes down always contain MSG_WAITALL. *)
Lemma converted_flags_waitall (flags : Z) :
  let convertedFlags :=
    if Z.land flags GRACHT_WAIT_BLOCK =? 0
    then Z.lor SocketClient.MSG_WAITALL SocketClient.MSG_DONTWAIT
    else SocketClient.MSG_WAITALL in
  Z.land convertedFlags SocketClient.MSG_WAITALL = SocketClient.MSG_WAITALL.
Proof.
  cbn zeta. by destruct (Z.land flags GRACHT_WAIT_BLOCK =? 0).
Qed.

(** C5: a receive on a packet-based link issues one [recvmsg] for the whole
    datagram, and the flags of that call contain MSG_WAITALL, whatever flags
    the caller gave. *)
Theorem recv_packet_sets_waitall
    (linkManager : SocketClient.socket_link_manager) (flags : Z)
    (p : SocketClient.process)
    (Htype : SocketClient.type (SocketClient.config linkManager)
             = SocketClient.gracht_link_packet_based) :
  exists f result p',
    link_recv linkManager flags p = Ok (result, p') /\
    SocketClient.p_calls p' =
      SocketClient.p_calls p ++
      [SocketClient.SysRecvmsg (SocketClient.iod linkManager)
         (SocketClient.address_length (SocketClient.config linkManager))
         [SocketClient.IoMessage GRACHT_MAX_MESSAGE_SIZE] f] /\
    Z.land f SocketClient.MSG_WAITALL = SocketClient.MSG_WAITALL /\
    Z.testbit f 8 = true.
Proof.
  unfold SocketClient.socket_link_recv. rewrite Htype.
  unfold SocketClient.socket_link_recv_packet. run_client.
  destruct (Z.land flags GRACHT_WAIT_BLOCK =? 0);
    match goal with |- context [if ?c then _ else _] => destruct c end;
    try match goal with |- context [if ?c then _ else _] => destruct c end;
    cbn; eexists _, _, _; (split; [reflexivity |]); cbn; done.
Qed.

(** A stream read of 0 bytes is reported as ENODATA after the one [recv]. *)
Lemma recv_stream_zero_bytes
    (linkManager : SocketClient.socket_link_manager) (flags : Z)
    (p : SocketClient.process) :
  0 < sizeof_gracht_message < 2 ^ 64 ->
  r_ret (SocketClient.recv k (SocketClient.p_calls p) (SocketClient.iod linkManager)
           sizeof_gracht_message flags) = 0 ->
  link_recv_stream linkManager flags p =
    Ok ((-1, None),
        SocketClient.mk_process ENODATA
          (SocketClient.p_calls p ++
           [SocketClient.SysRecv (SocketClient.iod linkManager)
              sizeof_gracht_message flags])).
Proof.
  intros Hsz Hr. unfold SocketClient.socket_link_recv_stream. run_client.
  rewrite Hr. unfold SocketClient.size_t.
  rewrite (Z.mod_small sizeof_gracht_message) by lia.
  change (0 mod 2 ^ 64) with 0.
  destruct (Z.eqb_spec 0 sizeof_gracht_message) as [? | _]; [lia |].
  reflexivity.
Qed.

Lemma prepare_params_pure (message : SocketClient.gracht_message) (n i : nat)
    (iov : list SocketClient.iobuf) (p : SocketClient.process) :
  (exists iov', SocketClient.prepare_params message n i iov p = Ok (iov', p)) \/
  (exists f, SocketClient.prepare_params message n i iov p = Crash f).
Proof.
  revert i iov. induction n as [| n IH]; intros i iov; cbn.
  - left. by eexists.
  - destruct (SocketClient.params message !! i) as [prm |]; [| right; by eexists].
    destruct (SocketClient.p_type prm); [apply IH | apply IH | right; by eexists].
Qed.

Lemma prepare_params_stream_pure (message : SocketClient.gracht_message) (n i : nat)
    (iov : list SocketClient.iobuf) (p : SocketClient.process) :
  (exists iov', SocketClient.prepare_params_stream message n i iov p = Ok (iov', p)) \/
  (exists f, SocketClient.prepare_params_stream message n i iov p = Crash f).
Proof.
  revert i iov. induction n as [| n IH]; intros i iov; cbn.
  - left. by eexists.
  - destruct (SocketClient.params message !! i) as [prm |]; [| right; by eexists].
    destruct (SocketClient.p_type prm); [apply IH | apply IH | right; by eexists].
Qed.

Lemma send_stream_error_is_pipe
    (linkManager : SocketClient.socket_link_manager)
    (message : SocketClient.gracht_message) (p p' : SocketClient.process) :
  link_send_stream linkManager message p
    = Ok (SocketClient.GRACHT_MESSAGE_ERROR, p') ->
  SocketClient.p_errno p' = EPIPE.
Proof.
  unfold SocketClient.socket_link_send_stream. unfold bind at 1.
  destruct (prepare_params_stream_pure message
              (Z.to_nat (SocketClient.h_param_in (SocketClient.header message)))
              0 [SocketClient.IoMessage
                   (sizeof_gracht_message
                    + (SocketClient.h_param_in (SocketClient.header message)
                       + SocketClient.h_param_out (SocketClient.header message))
                      * sizeof_gracht_param)] p) as [[iov ->] | [f ->]]; [| done].
  run_client.
  match goal with |- context [if ?c then _ else _] => destruct c end;
    cbn; by intros [= <-].
Qed.

Lemma send_packet_error_is_pipe
    (linkManager : SocketClient.socket_link_manager)
    (message : SocketClient.gracht_message) (p p' : SocketClient.process) :
  link_send_packet linkManager message p
    = Ok (SocketClient.GRACHT_MESSAGE_ERROR, p') ->
  SocketClient.p_errno p' = EPIPE.
Proof.
  unfold SocketClient.socket_link_send_packet. unfold bind at 1.
  destruct (prepare_params_pure message
              (Z.to_nat (SocketClient.h_param_in (SocketClient.header message)))
              0 [SocketClient.IoMessage
                   (sizeof_gracht_message
                    + (SocketClient.h_param_in (SocketClient.header message)
                       + SocketClient.h_param_out (SocketClient.header message))
                      * sizeof_gracht_param)] p) as [[iov ->] | [f ->]]; [| done].
  run_client.
  match goal with |- context [if ?c then _ else _] => destruct c end;
    cbn; by intros [= <-].
Qed.

(** C7: a message whose length field equals GRACHT_MAX_MESSAGE_SIZE passes
    the length check: it is handed to the sender of the link type, and if
    the send reports an error, [errno] is not E2BIG.  A message whose length
    field is larger fails with E2BIG and no system call is made. *)
Theorem send_length_boundary
    (linkManager : SocketClient.socket_link_manager)
    (message : SocketClient.gracht_message) (p : SocketClient.process) :
  (SocketClient.h_length (SocketClient.header message) = GRACHT_MAX_MESSAGE_SIZE ->
     link_send linkManager message p =
       match SocketClient.type (SocketClient.config linkManager) with
       | SocketClient.gracht_link_stream_based =>
           link_send_stream linkManager message p
       | SocketClient.gracht_link_packet_based =>
           link_send_packet linkManager message p
       | SocketClient.gracht_link_other =>
           Ok (SocketClient.GRACHT_MESSAGE_ERROR,
               SocketClient.mk_process ENOTSUP (SocketClient.p_calls p))
       end /\
     forall p',
       link_send linkManager message p
         = Ok (SocketClient.GRACHT_MESSAGE_ERROR, p') ->
       SocketClient.p_errno p' <> E2BIG) /\
  (GRACHT_MAX_MESSAGE_SIZE + 1 <= SocketClient.h_length (SocketClient.header message) ->
     link_send linkManager message p =
       Ok (SocketClient.GRACHT_MESSAGE_ERROR,
           SocketClient.mk_process E2BIG (SocketClient.p_calls p))).
Proof.
  split.
  - intros Hlen. unfold SocketClient.socket_link_send. rewrite Hlen, Z.ltb_irrefl.
    split.
    + by destruct (SocketClient.type (SocketClient.config linkManager)).
    + intros p'.
      destruct (SocketClient.type (SocketClient.config linkManager)).
      * intros ->%send_stream_error_is_pipe. done.
      * intros ->%send_packet_error_is_pipe. done.
      * run_client. by intros [= <-].
  - intros Hlen. unfold SocketClient.socket_link_send.
    destruct (Z.ltb_spec GRACHT_MAX_MESSAGE_SIZE
                (SocketClient.h_length (SocketClient.header message))); [| lia].
    reflexivity.
Qed.

End SocketClientProperties.

(** ** A failed receive in the drain loop *)

Section DrainProperties.

Variable GRACHT_AIO_EVENT_IN : Z.
Variable GRACHT_AIO_EVENT_DISCONNECT : Z.
Variable GRACHT_MESSAGE_HEADER_SIZE : Z.
Variable link : server_link_ops.
Variable rt : runtime.
Variable sizeof_gracht_message : Z.
Variable k0 : SocketClient.kernel.

Local Abbreviation async_event :=
  (handle_async_event GRACHT_AIO_EVENT_IN GRACHT_AIO_EVENT_DISCONNECT
     GRACHT_MESSAGE_HEADER_SIZE link rt).

(** A turn of the drain loop whose receive fails: the buffer goes back and
    the loop is left; nothing of the server changes. *)
Lemma drain_turn_receive_failure (h : Z) (e : client_wrapper)
    (o : server_operations) (w : world) :
  let s := g_grachtServer w in
  let message := incoming_buffer rt s o (trace w) in
  let r := recv_client link (trace w ++ incoming_buffer_events s o)
             (wrapper_client e) message 0 in
  ops s = Some o ->
  clients s !! h = Some e ->
  r_ret r <> 0 ->
  exists e',
    drain_turn GRACHT_MESSAGE_HEADER_SIZE link rt h w =
      Ok (false, mk_world s e'
                   (trace w ++ incoming_buffer_events s o
                            ++ [EvLinkRecvClient (wrapper_client e) message 0]
                            ++ returned_buffer_events s o message)).
Proof.
  cbn zeta. intros Ho He Hr. apply Z.eqb_neq in Hr.
  unfold drain_turn, server_ops, hashtable_get_client, bind, get_server, ret. cbn.
  rewrite Ho.
  destruct o; cbn [incoming_buffer_events incoming_buffer returned_buffer_events] in *.
  - rewrite app_nil_r in Hr. cbn. rewrite He. unfold call. cbn. rewrite Hr. cbn.
    eexists. reflexivity.
  - unfold get_in_buffer_mt, put_message_mt, call, notify, bind, get_server, ret.
    cbn. rewrite He. cbn. rewrite Hr. cbn.
    unfold put_message_mt, notify, bind, get_server. cbn.
    eexists. by rewrite <- !app_assoc.
Qed.

(** The loop after [k] turns that all went on is the loop entered in the
    world those turns have left. *)
Lemma drain_client_after_turns (k n : nat) (h : Z) (w wk : world) :
  drain_turns GRACHT_MESSAGE_HEADER_SIZE link rt k h w = Ok (true, wk) ->
  drain_client GRACHT_MESSAGE_HEADER_SIZE link rt (k + n) h w =
    drain_client GRACHT_MESSAGE_HEADER_SIZE link rt n h wk.
Proof.
  revert w. induction k as [| k IH]; intros w; cbn [drain_turns drain_client Nat.add].
  - unfold ret. by intros [= ->].
  - unfold bind at 1 2.
    destruct (drain_turn GRACHT_MESSAGE_HEADER_SIZE link rt h w)
      as [[[] w1] | |]; [apply IH | done | done | done].
Qed.

(** C6, as the code has it: a stream read of 0 bytes makes the client link's
    receive fail with ENODATA after that one read.  In whichever turn of the
    server's drain loop the link reports a failed receive for the client,
    after any number [k] of turns that went on and left it registered, the
    loop returns the buffer and ends; the event returns 0, the registry and
    the rest of the server are as that turn found them, and the turn calls
    neither the disconnect callback nor [destroy_client]. *)
Theorem zero_byte_read_ends_drain_only
    (linkManager : SocketClient.socket_link_manager) (flags : Z)
    (p : SocketClient.process)
    (k fuel : nat) (h events : Z) (e : client_wrapper) (o : server_operations)
    (w wk : world)
    (Hsize : 0 < sizeof_gracht_message < 2 ^ 64)
    (Hzero : r_ret (SocketClient.recv k0 (SocketClient.p_calls p)
                      (SocketClient.iod linkManager) sizeof_gracht_message flags) = 0)
    (Hbit : Z.land events GRACHT_AIO_EVENT_DISCONNECT = 0)
    (Hmask : Z.land events GRACHT_AIO_EVENT_IN <> 0 \/ events = 0)
    (Hregistered : is_Some (clients (g_grachtServer w) !! h))
    (Hturns : drain_turns GRACHT_MESSAGE_HEADER_SIZE link rt k h w = Ok (true, wk))
    (Hentry : clients (g_grachtServer wk) !! h = Some e)
    (Hops : ops (g_grachtServer wk) = Some o)
    (Hfail : r_ret (recv_client link
                      (trace wk ++ incoming_buffer_events (g_grachtServer wk) o)
                      (wrapper_client e)
                      (incoming_buffer rt (g_grachtServer wk) o (trace wk)) 0) <> 0) :
  SocketClient.socket_link_recv_stream sizeof_gracht_message k0 linkManager flags p =
    Ok ((-1, None),
        SocketClient.mk_process ENODATA
          (SocketClient.p_calls p ++
           [SocketClient.SysRecv (SocketClient.iod linkManager)
              sizeof_gracht_message flags])) /\
  exists w',
    async_event (k + S fuel) h events w = Ok (0, w') /\
    g_grachtServer w' = g_grachtServer wk /\
    clients (g_grachtServer w') !! h = Some e /\
    trace w' =
      let s := g_grachtServer wk in
      let message := incoming_buffer rt s o (trace wk) in
      trace wk ++ incoming_buffer_events s o
               ++ [EvLinkRecvClient (wrapper_client e) message 0]
               ++ returned_buffer_events s o message.
Proof.
  split; [by apply recv_stream_zero_bytes |].
  unfold handle_async_event.
  apply Z.eqb_eq in Hbit. rewrite Hbit. cbn [negb].
  assert (negb (Z.land events GRACHT_AIO_EVENT_IN =? 0) || (events =? 0) = true) as ->.
  { destruct Hmask as [Hin | ->]; [| by rewrite orb_true_r].
    apply Z.eqb_neq in Hin. by rewrite Hin. }
  destruct (drain_turn_receive_failure h e o wk Hops Hentry Hfail) as [e' Hturn].
  destruct Hregistered as [e0 He0].
  unfold bind at 1. unfold bind at 1. unfold hashtable_get_client at 1.
  unfold bind at 1. unfold get_server at 1. unfold ret at 1. rewrite He0.
  rewrite (drain_client_after_turns k (S fuel) h w wk Hturns).
  cbn [drain_client]. unfold bind at 1. rewrite Hturn.
  eexists. split; [reflexivity |]. cbn. by rewrite Hentry.
Qed.

End DrainProperties.

(** C6, the claim as stated fails: a stream read of 0 bytes is reported as
    ENODATA, not EPIPE, and a drain loop that meets this failure on the
    registered client 20 leaves the client in the registry and calls
    neither the disconnect callback nor [destroy_client]. *)
Lemma zero_byte_read_keeps_client_registered :
  SocketClient.socket_link_recv_stream 12 (Scenario.kernel_at_eof 0)
      Scenario.stream_link 0 Scenario.idle_process =
    Ok ((-1, None), SocketClient.mk_process ENODATA [SocketClient.SysRecv 3 12 0]) /\
  ENODATA <> EPIPE /\
  exists w',
    handle_async_event Scenario.GRACHT_AIO_EVENT_IN Scenario.GRACHT_AIO_EVENT_DISCONNECT
        Scenario.GRACHT_MESSAGE_HEADER_SIZE (Scenario.link_failing_receive ENODATA)
        Scenario.quiet_runtime 1 20 Scenario.GRACHT_AIO_EVENT_IN
        (Scenario.running {[20 := Scenario.client_20]}) = Ok (0, w') /\
    clients (g_grachtServer w') !! 20 = Some Scenario.client_20 /\
    trace w' = [EvLinkRecvClient (wrapper_client Scenario.client_20) 20480 0].
Proof.
  split; [reflexivity |]. split; [done |].
  eexists. split; [vm_compute; reflexivity |]. split; reflexivity.
Qed.

(** ** Initialisation *)

Section InitProperties.

Variable GRACHT_CONN_INVALID : Z.
Variable GRACHT_HANDLE_INVALID : Z.
Variable LINK_LISTEN_SOCKET : Z.
Variable LINK_LISTEN_DGRAM : Z.
Variable gracht_control_server_protocol : gracht_protocol.
Variable link : server_link_ops.
Variable rt : runtime.

Local Abbreviation links :=
  (create_links GRACHT_CONN_INVALID LINK_LISTEN_SOCKET LINK_LISTEN_DGRAM link rt).
Local Abbreviation configure :=
  (configure_server GRACHT_HANDLE_INVALID rt).
Local Abbreviation initialize :=
  (gracht_server_initialize GRACHT_CONN_INVALID GRACHT_HANDLE_INVALID
     LINK_LISTEN_SOCKET LINK_LISTEN_DGRAM gracht_control_server_protocol link rt).

Ltac case_ifs :=
  repeat match goal with
         | |- context [if ?c then _ else _] => destruct c eqn:?; cbn
         end.

Lemma create_links_initialized (w w' : world) (status : Z) :
  links w = Ok (status, w') ->
  initialized (g_grachtServer w') = initialized (g_grachtServer w).
Proof.
  unfold create_links. run_monad. case_ifs; by intros [= <- <-].
Qed.

Lemma configure_server_initialized (cfg : gracht_server_configuration)
    (w w' : world) (status : Z) :
  configure cfg w = Ok (status, w') ->
  initialized (g_grachtServer w') = initialized (g_grachtServer w).
Proof.
  unfold configure_server. run_monad. case_ifs; by intros [= <- <-].
Qed.

Lemma create_links_stream_unsupported (w : world) :
  endpoint_unsupported link GRACHT_CONN_INVALID LINK_LISTEN_SOCKET ->
  endpoint_present link GRACHT_CONN_INVALID LINK_LISTEN_DGRAM ->
  exists w', links w = Ok (0, w').
Proof.
  intros Hs Hd. destruct (Hs (trace w)) as [Hr He].
  unfold create_links. run_monad.
  rewrite Hr, He, Z.eqb_refl. cbn.
  match goal with |- context [listen link ?t LINK_LISTEN_DGRAM] =>
    pose proof (Hd t) as Hp end.
  apply Z.eqb_neq in Hp. rewrite Hp. cbn. rewrite andb_false_r. by eexists.
Qed.

Lemma create_links_dgram_unsupported (w : world) :
  endpoint_present link GRACHT_CONN_INVALID LINK_LISTEN_SOCKET ->
  endpoint_unsupported link GRACHT_CONN_INVALID LINK_LISTEN_DGRAM ->
  exists w', links w = Ok (0, w').
Proof.
  intros Hs Hd. pose proof (Hs (trace w)) as Hp. apply Z.eqb_neq in Hp.
  unfold create_links. run_monad. rewrite Hp. cbn.
  match goal with |- context [listen link ?t LINK_LISTEN_DGRAM] =>
    destruct (Hd t) as [Hr He] end.
  rewrite Hr, He, Z.eqb_refl. cbn. rewrite Hp. cbn. by eexists.
Qed.

Lemma create_links_both_absent (w : world) :
  endpoint_absent link GRACHT_CONN_INVALID LINK_LISTEN_SOCKET ->
  endpoint_absent link GRACHT_CONN_INVALID LINK_LISTEN_DGRAM ->
  exists w', links w = Ok (-1, w').
Proof.
  intros Hs Hd. pose proof (Hs (trace w)) as Hr.
  unfold create_links. run_monad. rewrite Hr, Z.eqb_refl. cbn.
  match goal with |- context [if ?c then _ else _] => destruct c end; cbn.
  - by eexists.
  - match goal with |- context [listen link ?t LINK_LISTEN_DGRAM] =>
      pose proof (Hd t) as Hr' end.
    rewrite Hr', Z.eqb_refl. cbn.
    match goal with |- context [if ?c then _ else _] => destruct c end; cbn;
      by eexists.
Qed.

Lemma initialize_after_configure (cfg : gracht_server_configuration)
    (w w1 : world) (status : Z) :
  initialized (g_grachtServer w) = 0 ->
  configure cfg w = Ok (0, w1) ->
  forall w2, links w1 = Ok (status, w2) ->
  exists w',
    initialize (Some cfg) w = Ok ((if status =? 0 then 0 else -1), w') /\
    initialized (g_grachtServer w') = (if status =? 0 then 1 else 0).
Proof.
  intros Hi Hc w2 Hl.
  unfold gracht_server_initialize.
  unfold bind at 1. unfold get_server at 1. rewrite Hi. cbn [Z.eqb negb].
  unfold bind at 1. rewrite Hc. cbn [Z.eqb negb].
  unfold bind at 1. rewrite Hl.
  destruct (status =? 0); cbn [negb].
  - run_monad. by eexists.
  - unfold ret. eexists. split; [reflexivity |].
    rewrite (create_links_initialized _ _ _ Hl).
    by rewrite (configure_server_initialized _ _ _ _ Hc).
Qed.

(** C8: [gracht_server_initialize] fails with EALREADY on an initialised
    server and, on a server not yet initialised, with EINVAL on a NULL
    configuration.  Once the configuration
    is applied, a link that answers ENOTSUP for one endpoint kind and gives a
    handle for the other lets the call succeed; a link that gives no handle
    for either kind makes it fail and the server stays uninitialised.
    Whenever the call returns 0 the server is marked initialised. *)
Theorem initialize_outcomes
    (configuration : option gracht_server_configuration) (w : world) :
  (initialized (g_grachtServer w) <> 0 ->
     initialize configuration w =
       Ok (-1, mk_world (g_grachtServer w) EALREADY (trace w))) /\
  (initialized (g_grachtServer w) = 0 ->
     initialize None w =
       Ok (-1, mk_world (g_grachtServer w) EINVAL (trace w))) /\
  (forall cfg w1,
     initialized (g_grachtServer w) = 0 ->
     configure cfg w = Ok (0, w1) ->
     (endpoint_unsupported link GRACHT_CONN_INVALID LINK_LISTEN_SOCKET /\
      endpoint_present link GRACHT_CONN_INVALID LINK_LISTEN_DGRAM \/
      endpoint_present link GRACHT_CONN_INVALID LINK_LISTEN_SOCKET /\
      endpoint_unsupported link GRACHT_CONN_INVALID LINK_LISTEN_DGRAM ->
      exists w',
        initialize (Some cfg) w = Ok (0, w') /\
        initialized (g_grachtServer w') = 1) /\
     (endpoint_absent link GRACHT_CONN_INVALID LINK_LISTEN_SOCKET /\
      endpoint_absent link GRACHT_CONN_INVALID LINK_LISTEN_DGRAM ->
      exists w',
        initialize (Some cfg) w = Ok (-1, w') /\
        initialized (g_grachtServer w') = 0)) /\
  (forall w',
     initialize configuration w = Ok (0, w') ->
     initialized (g_grachtServer w') = 1).
Proof.
  split; [| split; [| split]].
  - intros Hi%Z.eqb_neq. unfold gracht_server_initialize.
    unfold bind at 1. unfold get_server at 1. by rewrite Hi.
  - intros Hi. unfold gracht_server_initialize.
    unfold bind at 1. unfold get_server at 1. by rewrite Hi.
  - intros cfg w1 Hi Hc. split.
    + intros [[Hs Hd] | [Hs Hd]].
      * destruct (create_links_stream_unsupported w1 Hs Hd) as [w2 Hl].
        apply (initialize_after_configure cfg w w1 0 Hi Hc w2 Hl).
      * destruct (create_links_dgram_unsupported w1 Hs Hd) as [w2 Hl].
        apply (initialize_after_configure cfg w w1 0 Hi Hc w2 Hl).
    + intros [Hs Hd].
      destruct (create_links_both_absent w1 Hs Hd) as [w2 Hl].
      apply (initialize_after_configure cfg w w1 (-1) Hi Hc w2 Hl).
  - intros w'. unfold gracht_server_initialize.
    unfold bind at 1. unfold get_server at 1.
    destruct (initialized (g_grachtServer w) =? 0); cbn [negb];
      [| run_monad; by intros [= <-]].
    destruct configuration as [cfg |]; [| run_monad; by intros [= <-]].
    unfold bind at 1.
    destruct (configure cfg w) as [[st w1] | |]; [| done | done].
    destruct (st =? 0); cbn [negb]; [| unfold ret; by intros [= <-]].
    unfold bind at 1.
    destruct (links w1) as [[st2 w2] | |]; [| done | done].
    destruct (st2 =? 0); cbn [negb]; [| unfold ret; by intros [= <-]].
    run_monad. by intros [= <-].
Qed.

End InitProperties.

(** ** The theorems at concrete inputs *)

(** A callback that sends a last event to the client that goes away finds
    client 20 still registered; a disconnect event for the registered handle
    20, and [client_destroy] for the unknown handle 30: the callback fires
    in both. *)
Lemma client_destroy_callback_precedes_lookup_witness :
  Z.land 8192 Scenario.GRACHT_AIO_EVENT_DISCONNECT <> 0 /\
  (exists w' sent,
     client_destroy_calling Cases.farewell_callback 20
         (Scenario.running {[20 := Scenario.client_20]}) = Ok (tt, w') /\
     trace w' = [EvLinkSendClient (wrapper_client Scenario.client_20) sent 0;
                 EvLinkDestroyClient (wrapper_client Scenario.client_20)] /\
     clients (g_grachtServer w') !! 20 = None) /\
  (exists w',
     handle_async_event Scenario.GRACHT_AIO_EVENT_IN Scenario.GRACHT_AIO_EVENT_DISCONNECT
         Scenario.GRACHT_MESSAGE_HEADER_SIZE Scenario.quiet_link Scenario.quiet_runtime
         0 20 8192 (Scenario.running {[20 := Scenario.client_20]}) = Ok (0, w') /\
     trace w' = [EvAioRemove 4 20; EvClientDisconnected 20;
                 EvLinkDestroyClient (wrapper_client Scenario.client_20)]) /\
  (exists w',
     client_destroy 30 (Scenario.running {[20 := Scenario.client_20]}) = Ok (tt, w') /\
     trace w' = [EvClientDisconnected 30]).
Proof.
  assert (Z.land 8192 Scenario.GRACHT_AIO_EVENT_DISCONNECT <> 0) as Hmask
    by (vm_compute; discriminate).
  split; [exact Hmask |]. split; [| split].
  - destruct (client_destroy_callback_precedes_lookup
                Scenario.GRACHT_AIO_EVENT_IN Scenario.GRACHT_AIO_EVENT_DISCONNECT
                Scenario.GRACHT_MESSAGE_HEADER_SIZE Scenario.quiet_link
                Scenario.quiet_runtime Cases.farewell_callback 0 20 8192
                (Scenario.running {[20 := Scenario.client_20]}) Hmask)
      as (Horder & _).
    do 2 eexists. split; [rewrite Horder; vm_compute; reflexivity |].
    split; reflexivity.
  - destruct (client_destroy_callback_precedes_lookup
                Scenario.GRACHT_AIO_EVENT_IN Scenario.GRACHT_AIO_EVENT_DISCONNECT
                Scenario.GRACHT_MESSAGE_HEADER_SIZE Scenario.quiet_link
                Scenario.quiet_runtime Cases.farewell_callback 0 20 8192
                (Scenario.running {[20 := Scenario.client_20]}) Hmask)
      as (_ & _ & _ & (w' & Hrun & Htrace & _) & _).
    exists w'. split; [exact Hrun |]. rewrite Htrace. reflexivity.
  - destruct (client_destroy_callback_precedes_lookup
                Scenario.GRACHT_AIO_EVENT_IN Scenario.GRACHT_AIO_EVENT_DISCONNECT
                Scenario.GRACHT_MESSAGE_HEADER_SIZE Scenario.quiet_link
                Scenario.quiet_runtime Cases.farewell_callback 0 30 8192
                (Scenario.running {[20 := Scenario.client_20]}) Hmask)
      as (_ & _ & (w' & Hrun & Htrace & _) & _ & _).
    exists w'. split; [exact Hrun |]. rewrite Htrace. reflexivity.
Defined.

(** A readable event for handle 30, which is no endpoint and has no client
    record. *)
Lemma handle_event_unknown_handle_is_noop_witness :
  Z.land Scenario.GRACHT_AIO_EVENT_IN Scenario.GRACHT_AIO_EVENT_DISCONNECT = 0 /\
  30 <> listen_handle (Scenario.running_server {[20 := Scenario.client_20]}) /\
  30 <> dgram_handle (Scenario.running_server {[20 := Scenario.client_20]}) /\
  clients (Scenario.running_server {[20 := Scenario.client_20]}) !! 30 = None /\
  gracht_server_handle_event Scenario.GRACHT_AIO_EVENT_IN
      Scenario.GRACHT_AIO_EVENT_DISCONNECT Scenario.GRACHT_MESSAGE_HEADER_SIZE
      Scenario.quiet_link Scenario.quiet_runtime 0 30 Scenario.GRACHT_AIO_EVENT_IN
      (Scenario.running {[20 := Scenario.client_20]})
    = Ok (0, Scenario.running {[20 := Scenario.client_20]}).
Proof.
  assert (Z.land Scenario.GRACHT_AIO_EVENT_IN Scenario.GRACHT_AIO_EVENT_DISCONNECT = 0)
    as Hbits by reflexivity.
  assert (30 <> listen_handle (Scenario.running_server {[20 := Scenario.client_20]}))
    as Hl by (vm_compute; discriminate).
  assert (30 <> dgram_handle (Scenario.running_server {[20 := Scenario.client_20]}))
    as Hd by (vm_compute; discriminate).
  assert (clients (Scenario.running_server {[20 := Scenario.client_20]}) !! 30 = None)
    as Hc by reflexivity.
  do 4 (split; [assumption |]).
  exact (handle_event_unknown_handle_is_noop
           Scenario.GRACHT_AIO_EVENT_IN Scenario.GRACHT_AIO_EVENT_DISCONNECT
           Scenario.GRACHT_MESSAGE_HEADER_SIZE Scenario.quiet_link Scenario.quiet_runtime
           0 30 Scenario.GRACHT_AIO_EVENT_IN
           (Scenario.running {[20 := Scenario.client_20]})
           Hbits (or_introl eq_refl) Hl Hd Hc).
Defined.

(** An event of protocol 3 with clients subscribed to 3, to 4 and to all, on
    a link whose sends all fail: it is sent to the first and to the third, in the order of the
    enumeration. *)
Lemma broadcast_event_reaches_exactly_subscribers_witness :
  (12 <= length (buf_data Scenario.event_message))%nat /\
  exists w',
    gracht_server_broadcast_event Scenario.link_failing_send Scenario.event_message 0
        (Scenario.running Scenario.three_clients) = Ok (0, w') /\
    trace w' =
      [EvLinkSendClient (wrapper_client Scenario.client_22)
         (mk_buffer [0; 0; 0; 0;  12; 0; 0; 0;  3; 1; 0; 0] 12) 0;
       EvLinkSendClient (wrapper_client Scenario.client_20)
         (mk_buffer [0; 0; 0; 0;  12; 0; 0; 0;  3; 1; 0; 0] 12) 0].
Proof.
  assert (12 <= length (buf_data Scenario.event_message))%nat as Hlen
    by (vm_compute; lia).
  split; [exact Hlen |].
  destruct (broadcast_event_reaches_exactly_subscribers Scenario.link_failing_send
              Scenario.event_message 0 (Scenario.running Scenario.three_clients) Hlen)
    as (d & p & w' & Hd & Hp & Hrun & _ & Htrace & _).
  exists w'. split; [exact Hrun |].
  vm_compute in Hd, Hp. injection Hd as <-. injection Hp as <-.
  rewrite Htrace. vm_compute. reflexivity.
Defined.

(** [unsubscribe(0xFF)] from the registered handle 20. *)
Lemma unsubscribe_all_destroys_client_witness :
  clients (g_grachtServer (Scenario.running Scenario.three_clients))
    !! client Scenario.message_from_20 = Some Scenario.client_20 /\
  exists w',
    gracht_control_unsubscribe_invocation Scenario.message_from_20 255
        (Scenario.running Scenario.three_clients) = Ok (tt, w') /\
    trace w' = [EvClientDisconnected 20;
                EvLinkDestroyClient (mk_client 20 Scenario.no_subscriptions)] /\
    clients (g_grachtServer w') !! 20 = None.
Proof.
  assert (clients (g_grachtServer (Scenario.running Scenario.three_clients))
            !! client Scenario.message_from_20 = Some Scenario.client_20) as Hentry
    by reflexivity.
  split; [exact Hentry |].
  destruct (unsubscribe_all_destroys_client Scenario.quiet_link
              Scenario.message_from_20 (Scenario.running Scenario.three_clients)
              Scenario.client_20 Hentry)
    as (_ & w' & Hrun & Htrace & _ & Hgone & _).
  exists w'. split; [exact Hrun |]. split; [| exact Hgone].
  rewrite Htrace. reflexivity.
Defined.

(** [subscribe(2)] from the datagram handle, which has no client record,
    on a link whose [create_client] succeeds. *)
Lemma subscribe_unregistered_follows_null_witness :
  clients (g_grachtServer (Scenario.running Scenario.three_clients))
    !! client Scenario.message_from_datagram = None /\
  r_ret (create_client Scenario.quiet_link
           (trace (Scenario.running Scenario.three_clients))
           Scenario.message_from_datagram) = 0 /\
  gracht_control_subscribe_invocation Scenario.quiet_link
      Scenario.message_from_datagram 2 (Scenario.running Scenario.three_clients)
    = Crash NullPointer.
Proof.
  assert (clients (g_grachtServer (Scenario.running Scenario.three_clients))
            !! client Scenario.message_from_datagram = None) as Hentry
    by reflexivity.
  assert (r_ret (create_client Scenario.quiet_link
                   (trace (Scenario.running Scenario.three_clients))
                   Scenario.message_from_datagram) = 0) as Hcreated
    by reflexivity.
  do 2 (split; [assumption |]).
  exact (proj1 (subscribe_unregistered_follows_null Scenario.quiet_link
                  Scenario.message_from_datagram 2
                  (Scenario.running Scenario.three_clients) Hentry) Hcreated).
Defined.

(** A receive with flags 0 on a packet link. *)
Lemma recv_packet_sets_waitall_witness :
  SocketClient.type (SocketClient.config Scenario.packet_link)
    = SocketClient.gracht_link_packet_based /\
  exists f result p',
    SocketClient.socket_link_recv 1024 1 12 (Scenario.kernel_at_eof 0)
        Scenario.packet_link 0 Scenario.idle_process = Ok (result, p') /\
    SocketClient.p_calls p' =
      [SocketClient.SysRecvmsg 3 16 [SocketClient.IoMessage 1024] f] /\
    Z.testbit f 8 = true.
Proof.
  assert (SocketClient.type (SocketClient.config Scenario.packet_link)
          = SocketClient.gracht_link_packet_based) as Htype by reflexivity.
  split; [exact Htype |].
  destruct (recv_packet_sets_waitall 1024 1 12 (Scenario.kernel_at_eof 0)
              Scenario.packet_link 0 Scenario.idle_process Htype)
    as (f & result & p' & Hrun & Hcalls & _ & Hbit).
  exists f, result, p'. split; [exact Hrun |]. split; [exact Hcalls | exact Hbit].
Defined.

(** A stream socket at end of input on the client side, and on the server
    side a readable event for client 20 whose first receive yields a message
    and whose second receive fails. *)
Lemma zero_byte_read_ends_drain_only_witness :
  SocketClient.socket_link_recv_stream 12 (Scenario.kernel_at_eof 0)
      Scenario.stream_link 0 Scenario.idle_process =
    Ok ((-1, None), SocketClient.mk_process ENODATA [SocketClient.SysRecv 3 12 0]) /\
  exists w',
    handle_async_event Scenario.GRACHT_AIO_EVENT_IN Scenario.GRACHT_AIO_EVENT_DISCONNECT
        Scenario.GRACHT_MESSAGE_HEADER_SIZE Cases.link_with_one_message
        Scenario.quiet_runtime 2 20 Scenario.GRACHT_AIO_EVENT_IN
        (Scenario.running {[20 := Scenario.client_20]}) = Ok (0, w') /\
    clients (g_grachtServer w') !! 20 = Some Scenario.client_20 /\
    trace w' =
      [EvLinkRecvClient (wrapper_client Scenario.client_20) 20480 0;
       EvInvoke 101 Scenario.message_from_20
         (mk_buffer (payload Scenario.message_from_20) 12);
       EvLinkRecvClient (wrapper_client Scenario.client_20) 20480 0].
Proof.
  assert (0 < 12 < 2 ^ 64) as Hsize by (vm_compute; split; reflexivity).
  assert (r_ret (SocketClient.recv (Scenario.kernel_at_eof 0)
                   (SocketClient.p_calls Scenario.idle_process)
                   (SocketClient.iod Scenario.stream_link) 12 0) = 0) as Hzero
    by reflexivity.
  assert (Z.land Scenario.GRACHT_AIO_EVENT_IN Scenario.GRACHT_AIO_EVENT_DISCONNECT = 0)
    as Hbit by reflexivity.
  assert (Z.land Scenario.GRACHT_AIO_EVENT_IN Scenario.GRACHT_AIO_EVENT_IN <> 0
          \/ Scenario.GRACHT_AIO_EVENT_IN = 0)
    as Hmask by (left; vm_compute; discriminate).
  pose (w := Scenario.running {[20 := Scenario.client_20]}).
  pose (wk :=
          mk_world (g_grachtServer w) 0
            [EvLinkRecvClient (wrapper_client Scenario.client_20) 20480 0;
             EvInvoke 101 Scenario.message_from_20
               (mk_buffer (payload Scenario.message_from_20) 12)]).
  assert (is_Some (clients (g_grachtServer w) !! 20)) as Hregistered
    by (exists Scenario.client_20; reflexivity).
  assert (drain_turns Scenario.GRACHT_MESSAGE_HEADER_SIZE Cases.link_with_one_message
            Scenario.quiet_runtime 1 20 w = Ok (true, wk)) as Hturns
    by (vm_compute; reflexivity).
  assert (clients (g_grachtServer wk) !! 20 = Some Scenario.client_20)
    as Hentry by reflexivity.
  assert (ops (g_grachtServer wk) = Some g_stOperations) as Hops by reflexivity.
  assert (r_ret (recv_client Cases.link_with_one_message
                   (trace wk ++ incoming_buffer_events (g_grachtServer wk) g_stOperations)
                   (wrapper_client Scenario.client_20)
                   (incoming_buffer Scenario.quiet_runtime (g_grachtServer wk)
                      g_stOperations (trace wk)) 0) <> 0)
    as Hfail by (vm_compute; discriminate).
  destruct (zero_byte_read_ends_drain_only
              Scenario.GRACHT_AIO_EVENT_IN Scenario.GRACHT_AIO_EVENT_DISCONNECT
              Scenario.GRACHT_MESSAGE_HEADER_SIZE Cases.link_with_one_message
              Scenario.quiet_runtime 12 (Scenario.kernel_at_eof 0)
              Scenario.stream_link 0 Scenario.idle_process
              1 0 20 Scenario.GRACHT_AIO_EVENT_IN Scenario.client_20 g_stOperations
              w wk Hsize Hzero Hbit Hmask Hregistered Hturns Hentry Hops Hfail)
    as (Hlink & w' & Hrun & _ & Hkept & Htrace).
  split; [exact Hlink |].
  exists w'. split; [exact Hrun |]. split; [exact Hkept | exact Htrace].
Defined.

(** With a bound of 1024: a message of length 1024 is sent in full, one of
    length 1025 is refused. *)
Lemma send_length_boundary_witness :
  SocketClient.h_length (SocketClient.header (Scenario.message_of_length 1024)) = 1024 /\
  1024 + 1 <= SocketClient.h_length (SocketClient.header (Scenario.message_of_length 1025)) /\
  SocketClient.socket_link_send 1024 12 16 (Scenario.kernel_at_eof 1024)
      Scenario.stream_link (Scenario.message_of_length 1024) Scenario.idle_process =
    SocketClient.socket_link_send_stream 12 16 (Scenario.kernel_at_eof 1024)
      Scenario.stream_link (Scenario.message_of_length 1024) Scenario.idle_process /\
  SocketClient.socket_link_send_stream 12 16 (Scenario.kernel_at_eof 1024)
      Scenario.stream_link (Scenario.message_of_length 1024) Scenario.idle_process =
    Ok (SocketClient.GRACHT_MESSAGE_INPROGRESS,
        SocketClient.mk_process 0
          [SocketClient.SysSendmsg 3 [SocketClient.IoMessage 12] 0]) /\
  SocketClient.socket_link_send 1024 12 16 (Scenario.kernel_at_eof 1024)
      Scenario.stream_link (Scenario.message_of_length 1025) Scenario.idle_process =
    Ok (SocketClient.GRACHT_MESSAGE_ERROR, SocketClient.mk_process E2BIG []).
Proof.
  assert (SocketClient.h_length (SocketClient.header (Scenario.message_of_length 1024))
          = 1024) as Hmax by reflexivity.
  assert (1024 + 1 <=
          SocketClient.h_length (SocketClient.header (Scenario.message_of_length 1025)))
    as Hover by (vm_compute; discriminate).
  do 2 (split; [assumption |]).
  split; [| split].
  - exact (proj1 (proj1 (send_length_boundary 1024 12 16 (Scenario.kernel_at_eof 1024)
                           Scenario.stream_link (Scenario.message_of_length 1024)
                           Scenario.idle_process) Hmax)).
  - reflexivity.
  - exact (proj2 (send_length_boundary 1024 12 16 (Scenario.kernel_at_eof 1024)
                    Scenario.stream_link (Scenario.message_of_length 1025)
                    Scenario.idle_process) Hover).
Defined.

(** Initialisation of a running server, with a NULL configuration, on a
    link with a datagram endpoint only, and on a link without endpoints. *)
Lemma initialize_outcomes_witness :
  initialized (g_grachtServer (Scenario.running ∅)) <> 0 /\
  initialized (g_grachtServer Scenario.fresh) = 0 /\
  (exists w1,
     configure_server Scenario.GRACHT_HANDLE_INVALID Scenario.quiet_runtime
       Scenario.configuration Scenario.fresh = Ok (0, w1)) /\
  endpoint_unsupported Scenario.link_datagram_only
    Scenario.GRACHT_CONN_INVALID Scenario.LINK_LISTEN_SOCKET /\
  endpoint_present Scenario.link_datagram_only
    Scenario.GRACHT_CONN_INVALID Scenario.LINK_LISTEN_DGRAM /\
  endpoint_absent Scenario.link_without_endpoints
    Scenario.GRACHT_CONN_INVALID Scenario.LINK_LISTEN_SOCKET /\
  endpoint_absent Scenario.link_without_endpoints
    Scenario.GRACHT_CONN_INVALID Scenario.LINK_LISTEN_DGRAM /\
  gracht_server_initialize Scenario.GRACHT_CONN_INVALID Scenario.GRACHT_HANDLE_INVALID
      Scenario.LINK_LISTEN_SOCKET Scenario.LINK_LISTEN_DGRAM Scenario.control_protocol
      Scenario.quiet_link Scenario.quiet_runtime (Some Scenario.configuration)
      (Scenario.running ∅) =
    Ok (-1, mk_world (Scenario.running_server ∅) EALREADY []) /\
  gracht_server_initialize Scenario.GRACHT_CONN_INVALID Scenario.GRACHT_HANDLE_INVALID
      Scenario.LINK_LISTEN_SOCKET Scenario.LINK_LISTEN_DGRAM Scenario.control_protocol
      Scenario.quiet_link Scenario.quiet_runtime None Scenario.fresh =
    Ok (-1, mk_world (g_grachtServer Scenario.fresh) EINVAL []) /\
  (exists w',
     gracht_server_initialize Scenario.GRACHT_CONN_INVALID Scenario.GRACHT_HANDLE_INVALID
         Scenario.LINK_LISTEN_SOCKET Scenario.LINK_LISTEN_DGRAM Scenario.control_protocol
         Scenario.link_datagram_only Scenario.quiet_runtime (Some Scenario.configuration)
         Scenario.fresh = Ok (0, w') /\
     initialized (g_grachtServer w') = 1) /\
  (exists w',
     gracht_server_initialize Scenario.GRACHT_CONN_INVALID Scenario.GRACHT_HANDLE_INVALID
         Scenario.LINK_LISTEN_SOCKET Scenario.LINK_LISTEN_DGRAM Scenario.control_protocol
         Scenario.link_without_endpoints Scenario.quiet_runtime (Some Scenario.configuration)
         Scenario.fresh = Ok (-1, w') /\
     initialized (g_grachtServer w') = 0).
Proof.
  assert (initialized (g_grachtServer (Scenario.running ∅)) <> 0) as Hrunning
    by (vm_compute; discriminate).
  assert (initialized (g_grachtServer Scenario.fresh) = 0) as Hfresh by reflexivity.
  assert (exists w1,
            configure_server Scenario.GRACHT_HANDLE_INVALID Scenario.quiet_runtime
              Scenario.configuration Scenario.fresh = Ok (0, w1)) as Hconf
    by (eexists; vm_compute; reflexivity).
  assert (endpoint_unsupported Scenario.link_datagram_only
            Scenario.GRACHT_CONN_INVALID Scenario.LINK_LISTEN_SOCKET) as Hu
    by (intros t; split; reflexivity).
  assert (endpoint_present Scenario.link_datagram_only
            Scenario.GRACHT_CONN_INVALID Scenario.LINK_LISTEN_DGRAM) as Hp
    by (intros t; vm_compute; discriminate).
  assert (endpoint_absent Scenario.link_without_endpoints
            Scenario.GRACHT_CONN_INVALID Scenario.LINK_LISTEN_SOCKET) as Ha1
    by (intros t; reflexivity).
  assert (endpoint_absent Scenario.link_without_endpoints
            Scenario.GRACHT_CONN_INVALID Scenario.LINK_LISTEN_DGRAM) as Ha2
    by (intros t; reflexivity).
  do 7 (split; [assumption |]).
  destruct Hconf as [w1 Hw1].
  split; [| split; [| split]].
  - exact (proj1 (initialize_outcomes Scenario.GRACHT_CONN_INVALID
                    Scenario.GRACHT_HANDLE_INVALID Scenario.LINK_LISTEN_SOCKET
                    Scenario.LINK_LISTEN_DGRAM Scenario.control_protocol
                    Scenario.quiet_link Scenario.quiet_runtime
                    (Some Scenario.configuration) (Scenario.running ∅)) Hrunning).
  - exact (proj1 (proj2 (initialize_outcomes Scenario.GRACHT_CONN_INVALID
                    Scenario.GRACHT_HANDLE_INVALID Scenario.LINK_LISTEN_SOCKET
                    Scenario.LINK_LISTEN_DGRAM Scenario.control_protocol
                    Scenario.quiet_link Scenario.quiet_runtime
                    None Scenario.fresh)) Hfresh).
  - exact (proj1 (proj1 (proj2 (proj2 (initialize_outcomes Scenario.GRACHT_CONN_INVALID
                    Scenario.GRACHT_HANDLE_INVALID Scenario.LINK_LISTEN_SOCKET
                    Scenario.LINK_LISTEN_DGRAM Scenario.control_protocol
                    Scenario.link_datagram_only Scenario.quiet_runtime
                    None Scenario.fresh))) Scenario.configuration w1 Hfresh Hw1)
                 (or_introl (conj Hu Hp))).
  - exact (proj2 (proj1 (proj2 (proj2 (initialize_outcomes Scenario.GRACHT_CONN_INVALID
                    Scenario.GRACHT_HANDLE_INVALID Scenario.LINK_LISTEN_SOCKET
                    Scenario.LINK_LISTEN_DGRAM Scenario.control_protocol
                    Scenario.link_without_endpoints Scenario.quiet_runtime
                    None Scenario.fresh))) Scenario.configuration w1 Hfresh Hw1)
                 (conj Ha1 Ha2)).
Defined.

(** * Further properties *)

(** ** The subscription bitmap *)

Lemma land_bit (w n : Z) :
  0 <= n ->
  Z.land w (Z.shiftl 1 n) = if Z.testbit w n then 2 ^ n else 0.
Proof.
  intros Hn. rewrite Z.shiftl_1_l. apply Z.bits_inj'. intros k Hk.
  rewrite Z.land_spec, Z.pow2_bits_eqb by done.
  destruct (Z.eqb_spec n k) as [<- | Hne].
  - rewrite andb_true_r. destruct (Z.testbit w n) eqn:E.
    + by rewrite Z.pow2_bits_true.
    + by rewrite Z.bits_0.
  - rewrite andb_false_r. destruct (Z.testbit w n).
    + by rewrite Z.pow2_bits_false.
    + by rewrite Z.bits_0.
Qed.

Lemma client_is_subscribed_testbit (c : gracht_server_client) (id : Z) :
  client_is_subscribed c id =
    Z.testbit (word_at (subscriptions c) (id / 32)) (id mod 32).
Proof.
  unfold client_is_subscribed.
  assert (0 <= id mod 32 < 32) as Hoff by (apply Z.mod_pos_bound; lia).
  rewrite land_bit by lia.
  destruct (Z.testbit _ _); [| done].
  destruct (Z.eqb_spec (2 ^ (id mod 32)) 0) as [H0 | _]; [| done].
  pose proof (Z.pow_pos_nonneg 2 (id mod 32)). lia.
Qed.

Lemma word_at_insert (words : list Z) (b b' v : Z) :
  0 <= b -> 0 <= b' -> (Z.to_nat b < length words)%nat ->
  word_at (<[Z.to_nat b := v]> words) b' = if b' =? b then v else word_at words b'.
Proof.
  intros Hb Hb' Hlt. unfold word_at.
  destruct (Z.eqb_spec b' b) as [-> | Hne].
  - by rewrite list_lookup_insert_eq.
  - rewrite list_lookup_insert_ne; [done | lia].
Qed.

Lemma block_offset_eq (id id' : Z) :
  id' / 32 = id / 32 -> id' mod 32 = id mod 32 -> id' = id.
Proof.
  intros Hb Ho. rewrite (Z.div_mod id 32), (Z.div_mod id' 32) by lia. lia.
Qed.

Lemma same_bit (id id' : Z) :
  ((id' / 32 =? id / 32) && (id mod 32 =? id' mod 32)) = (id' =? id).
Proof.
  destruct (Z.eqb_spec id' id) as [-> | Hne].
  - by rewrite !Z.eqb_refl.
  - destruct (Z.eqb_spec (id' / 32) (id / 32)) as [Hb | _]; [| done].
    destruct (Z.eqb_spec (id mod 32) (id' mod 32)) as [Ho | _]; [| done].
    exfalso. apply Hne. by apply block_offset_eq.
Qed.

(** X1: on a client with the 8-word bitmap, subscribing to an ordinary
    protocol id sets the bit of that id and changes no other of the 256
    bits. *)
Theorem subscribe_sets_exactly_one_bit (c : gracht_server_client) (id id' : Z)
    (Hwords : length (subscriptions c) = 8%nat)
    (Hid : 0 <= id < 255)
    (Hid' : 0 <= id' < 256) :
  client_is_subscribed (client_subscribe c id) id' =
    (id' =? id) || client_is_subscribed c id'.
Proof.
  rewrite !client_is_subscribed_testbit. unfold client_subscribe.
  destruct (Z.eqb_spec id 255) as [? | _]; [lia |]. cbn [subscriptions].
  assert (0 <= id / 32 < 8) as Hb by (split; [apply Z.div_pos | apply Z.div_lt_upper_bound]; lia).
  assert (0 <= id' / 32) as Hb' by (apply Z.div_pos; lia).
  assert (0 <= id mod 32 < 32) as Ho by (apply Z.mod_pos_bound; lia).
  assert (0 <= id' mod 32 < 32) as Ho' by (apply Z.mod_pos_bound; lia).
  rewrite word_at_insert by lia. rewrite <- (same_bit id id').
  destruct (Z.eqb_spec (id' / 32) (id / 32)) as [-> | _]; cbn [andb orb]; [| done].
  rewrite Z.lor_spec, Z.shiftl_1_l, Z.pow2_bits_eqb by lia.
  cbn [andb]. apply orb_comm.
Qed.

(** X2: unsubscribing from an ordinary protocol id clears the bit of that id
    and changes no other of the 256 bits. *)
Theorem unsubscribe_clears_exactly_one_bit (c : gracht_server_client) (id id' : Z)
    (Hwords : length (subscriptions c) = 8%nat)
    (Hid : 0 <= id < 255)
    (Hid' : 0 <= id' < 256) :
  client_is_subscribed (client_unsubscribe c id) id' =
    negb (id' =? id) && client_is_subscribed c id'.
Proof.
  rewrite !client_is_subscribed_testbit. unfold client_unsubscribe.
  destruct (Z.eqb_spec id 255) as [? | _]; [lia |]. cbn [subscriptions].
  assert (0 <= id / 32 < 8) as Hb by (split; [apply Z.div_pos | apply Z.div_lt_upper_bound]; lia).
  assert (0 <= id' / 32) as Hb' by (apply Z.div_pos; lia).
  assert (0 <= id mod 32 < 32) as Ho by (apply Z.mod_pos_bound; lia).
  assert (0 <= id' mod 32 < 32) as Ho' by (apply Z.mod_pos_bound; lia).
  rewrite word_at_insert by lia. rewrite <- (same_bit id id').
  destruct (Z.eqb_spec (id' / 32) (id / 32)) as [-> | _]; cbn [andb orb negb]; [| done].
  rewrite Z.land_spec, Z.lnot_spec, Z.shiftl_1_l, Z.pow2_bits_eqb by lia.
  cbn [andb negb]. apply andb_comm.
Qed.

(** X3: subscribing with the id 0xFF sets all 256 bits of the 8-word bitmap,
    the bit of id 0xFF among them. *)
Theorem subscribe_all_sets_every_bit (c : gracht_server_client) (id : Z)
    (Hwords : length (subscriptions c) = 8%nat)
    (Hid : 0 <= id < 256) :
  client_is_subscribed (client_subscribe c 255) id = true.
Proof.
  rewrite client_is_subscribed_testbit. unfold client_subscribe. cbn [Z.eqb Pos.eqb subscriptions].
  assert (0 <= id / 32 < 8) as Hb by (split; [apply Z.div_pos | apply Z.div_lt_upper_bound]; lia).
  assert (0 <= id mod 32 < 32) as Ho by (apply Z.mod_pos_bound; lia).
  unfold word_at, memset32. rewrite list_lookup_fmap.
  destruct (lookup_lt_is_Some_2 (subscriptions c) (Z.to_nat (id / 32))) as [w ->]; [lia |].
  cbn [fmap option_fmap option_map default].
  change (255 mod 256 * 16843009) with (Z.ones 32).
  apply Z.ones_spec_low. lia.
Qed.

(** Subscribing twice to the same id leaves the client as subscribing
    once does, and so does unsubscribing twice, for every client record and
    every id. *)
Lemma subscribe_unsubscribe_idempotent (c : gracht_server_client) (id : Z) :
  client_subscribe (client_subscribe c id) id = client_subscribe c id /\
  client_unsubscribe (client_unsubscribe c id) id = client_unsubscribe c id.
Proof.
  unfold client_subscribe, client_unsubscribe.
  destruct (id =? 255); cbn [handle subscriptions].
  - unfold memset32. by rewrite <- !list_fmap_compose.
  - destruct (decide (Z.to_nat (id / 32) < length (subscriptions c))%nat) as [Hlt | Hge].
    + unfold word_at. rewrite !list_lookup_insert_eq by done.
      cbn [default from_option]. unfold Datatypes.id.
      rewrite !list_insert_insert_eq.
      rewrite <- Z.lor_assoc, Z.lor_diag, <- Z.land_assoc, Z.land_diag. done.
    + rewrite !list_insert_ge by (rewrite ?length_insert; lia). done.
Qed.

Lemma in_range_land_ones (x : Z) :
  0 <= x < 2 ^ 32 <-> Z.land x (Z.ones 32) = x.
Proof.
  rewrite Z.land_ones by lia. split.
  - intros H. by apply Z.mod_small.
  - intros <-. apply Z.mod_pos_bound. lia.
Qed.

Lemma word_at_in_range (words : list Z) (block : Z) :
  Forall (fun w => 0 <= w < 2 ^ 32) words -> 0 <= word_at words block < 2 ^ 32.
Proof.
  intros Hall. unfold word_at.
  destruct (words !! Z.to_nat block) as [w |] eqn:E; cbn; [| lia].
  by apply (Forall_lookup_1 _ _ _ _ Hall E).
Qed.

(** X4: subscribing and unsubscribing keep the bitmap well formed: it stays
    8 words long and every word stays a 32-bit value, for every id. *)
Theorem subscriptions_stay_well_formed (c : gracht_server_client) (id : Z)
    (Hwf : wf_client c) :
  wf_client (client_subscribe c id) /\ wf_client (client_unsubscribe c id).
Proof.
  destruct Hwf as [Hlen Hall].
  assert (0 <= id mod 32 < 32) as Ho by (apply Z.mod_pos_bound; lia).
  pose proof (word_at_in_range (subscriptions c) (id / 32) Hall) as Hw.
  apply in_range_land_ones in Hw.
  assert (0 <= Z.shiftl 1 (id mod 32) < 2 ^ 32) as Hm.
  { rewrite Z.shiftl_1_l. split; [apply Z.pow_nonneg; lia |].
    apply Z.pow_lt_mono_r; lia. }
  apply in_range_land_ones in Hm.
  unfold wf_client, client_subscribe, client_unsubscribe.
  destruct (id =? 255); cbn [subscriptions].
  - unfold memset32. rewrite !length_map.
    split; (split; [done |]); apply Forall_fmap, Forall_true; intros w;
      split; by vm_compute.
  - rewrite !length_insert.
    split; (split; [done |]); apply Forall_insert; try done;
      apply in_range_land_ones.
    + by rewrite Z.land_lor_distr_l, Hw, Hm.
    + by rewrite <- Z.land_assoc, (Z.land_comm (Z.lnot _)), Z.land_assoc, Hw.
Qed.

Lemma subscribe_sets_exactly_one_bit_witness :
  let c := wrapper_client Scenario.client_20 in
  length (subscriptions c) = 8%nat /\ 0 <= 200 < 255 /\ 0 <= 4 < 256 /\
  client_is_subscribed (client_subscribe c 200) 200 = true /\
  client_is_subscribed (client_subscribe c 200) 3 = true /\
  client_is_subscribed (client_subscribe c 200) 4 = false.
Proof.
  cbn zeta.
  assert (length (subscriptions (wrapper_client Scenario.client_20)) = 8%nat)
    as Hlen by reflexivity.
  assert (0 <= 200 < 255) as H200 by lia.
  assert (0 <= 200 < 256) as H200' by lia.
  assert (0 <= 3 < 256) as H3 by lia.
  assert (0 <= 4 < 256) as H4 by lia.
  do 3 (split; [assumption |]).
  split; [| split].
  - rewrite (subscribe_sets_exactly_one_bit _ 200 200 Hlen H200 H200'). reflexivity.
  - rewrite (subscribe_sets_exactly_one_bit _ 200 3 Hlen H200 H3). reflexivity.
  - rewrite (subscribe_sets_exactly_one_bit _ 200 4 Hlen H200 H4). reflexivity.
Defined.

Lemma unsubscribe_clears_exactly_one_bit_witness :
  let c := wrapper_client Scenario.client_22 in
  length (subscriptions c) = 8%nat /\ 0 <= 3 < 255 /\ 0 <= 4 < 256 /\
  client_is_subscribed (client_unsubscribe c 3) 3 = false /\
  client_is_subscribed (client_unsubscribe c 3) 4 = true.
Proof.
  cbn zeta.
  assert (length (subscriptions (wrapper_client Scenario.client_22)) = 8%nat)
    as Hlen by reflexivity.
  assert (0 <= 3 < 255) as H3 by lia.
  assert (0 <= 3 < 256) as H3' by lia.
  assert (0 <= 4 < 256) as H4 by lia.
  do 3 (split; [assumption |]).
  split.
  - rewrite (unsubscribe_clears_exactly_one_bit _ 3 3 Hlen H3 H3'). reflexivity.
  - rewrite (unsubscribe_clears_exactly_one_bit _ 3 4 Hlen H3 H4). reflexivity.
Defined.

Lemma subscribe_all_sets_every_bit_witness :
  let c := wrapper_client Scenario.client_20 in
  length (subscriptions c) = 8%nat /\ 0 <= 255 < 256 /\
  client_is_subscribed (client_subscribe c 255) 255 = true.
Proof.
  cbn zeta.
  assert (length (subscriptions (wrapper_client Scenario.client_20)) = 8%nat)
    as Hlen by reflexivity.
  assert (0 <= 255 < 256) as H255 by lia.
  do 2 (split; [assumption |]).
  exact (subscribe_all_sets_every_bit _ 255 Hlen H255).
Defined.

Lemma subscriptions_stay_well_formed_witness :
  let c := wrapper_client Scenario.client_20 in
  wf_client c /\
  wf_client (client_subscribe c 200) /\ wf_client (client_unsubscribe c 3).
Proof.
  cbn zeta.
  assert (wf_client (wrapper_client Scenario.client_20)) as Hwf.
  { split; [reflexivity |]. repeat constructor; vm_compute; discriminate. }
  split; [assumption |]. split.
  - exact (proj1 (subscriptions_stay_well_formed _ 200 Hwf)).
  - exact (proj2 (subscriptions_stay_well_formed _ 3 Hwf)).
Defined.

(** ** The control protocol on registered handles *)

Section ControlOnRegistered.

Variable link : server_link_ops.

Lemma subscribe_registered_eq (message : gracht_recv_message) (protocol : Z)
    (w : world) (e : client_wrapper) :
  clients (g_grachtServer w) !! client message = Some e ->
  gracht_control_subscribe_invocation link message protocol w =
    Ok (tt, mk_world
              (with_clients (g_grachtServer w)
                 (<[client message :=
                      mk_wrapper (wrapper_handle e)
                        (client_subscribe (wrapper_client e) protocol)]>
                    (clients (g_grachtServer w))))
              (errno w) (trace w)).
Proof.
  intros He. unfold gracht_control_subscribe_invocation.
  unfold bind, hashtable_get_client, store_client, get_server, put_server, ret.
  cbn -[client_subscribe]. rewrite He. reflexivity.
Qed.

(** X5: a subscribe from a handle that has a client record makes no call to
    the link or to a callback, sets the bit in that record and leaves every
    other record alone; a second subscribe to the same id leaves the process
    exactly as the first one left it. *)
Theorem subscribe_registered_in_place (message : gracht_recv_message)
    (protocol : Z) (w : world) (e : client_wrapper)
    (Hentry : clients (g_grachtServer w) !! client message = Some e) :
  exists w1,
    gracht_control_subscribe_invocation link message protocol w = Ok (tt, w1) /\
    trace w1 = trace w /\
    clients (g_grachtServer w1) !! client message =
      Some (mk_wrapper (wrapper_handle e)
              (client_subscribe (wrapper_client e) protocol)) /\
    (forall h, h <> client message ->
       clients (g_grachtServer w1) !! h = clients (g_grachtServer w) !! h) /\
    gracht_control_subscribe_invocation link message protocol w1 = Ok (tt, w1).
Proof.
  eexists. split; [by apply subscribe_registered_eq |].
  split; [reflexivity |].
  split; [cbn [g_grachtServer clients with_clients]; apply lookup_insert_eq |].
  split.
  { intros h Hh. cbn [g_grachtServer clients with_clients].
    by apply lookup_insert_ne. }
  rewrite (subscribe_registered_eq message protocol _
             (mk_wrapper (wrapper_handle e)
                (client_subscribe (wrapper_client e) protocol)))
    by (cbn [g_grachtServer clients with_clients]; apply lookup_insert_eq).
  cbn [g_grachtServer clients with_clients errno trace wrapper_handle wrapper_client
       ops callbacks arena worker_pool allocationSize sendBuffer recvBuffer
       initialized set_handle set_handle_provided listen_handle dgram_handle protocols].
  rewrite insert_insert_eq.
  by rewrite (proj1 (subscribe_unsubscribe_idempotent _ _)).
Qed.

End ControlOnRegistered.

(** X6: an unsubscribe destroys nothing unless it carries the id 0xFF and
    comes from a registered handle.  From an unregistered handle it changes
    nothing at all; with an ordinary id it clears the bit in the sender's
    record, keeps the record in the registry and calls neither the
    disconnect callback nor the link. *)
Theorem unsubscribe_partial_keeps_client (message : gracht_recv_message)
    (protocol : Z) (w : world)
    (Hpartial : protocol <> 255 \/ clients (g_grachtServer w) !! client message = None) :
  exists w1,
    gracht_control_unsubscribe_invocation message protocol w = Ok (tt, w1) /\
    trace w1 = trace w /\
    errno w1 = errno w /\
    (clients (g_grachtServer w) !! client message = None -> w1 = w) /\
    forall h,
      clients (g_grachtServer w1) !! h =
        if decide (h = client message) then
          (fun e => mk_wrapper (wrapper_handle e)
                      (client_unsubscribe (wrapper_client e) protocol))
            <$> clients (g_grachtServer w) !! h
        else clients (g_grachtServer w) !! h.
Proof.
  unfold gracht_control_unsubscribe_invocation.
  unfold bind, hashtable_get_client, store_client, get_server, put_server, ret.
  cbn -[client_unsubscribe client_destroy].
  destruct (clients (g_grachtServer w) !! client message) as [e |] eqn:He.
  - destruct Hpartial as [Hp | ?]; [| done].
    apply Z.eqb_neq in Hp. rewrite Hp.
    eexists. split; [reflexivity |]. cbn -[client_unsubscribe].
    do 2 (split; [done |]). split; [done |].
    intros h. case_decide as Hh.
    + subst h. by rewrite lookup_insert_eq, He.
    + by rewrite lookup_insert_ne.
  - exists w. split; [by destruct w |]. do 3 (split; [done |]).
    intros h. case_decide as Hh; [| done]. subst h. by rewrite He.
Qed.

Lemma subscribe_registered_in_place_witness :
  clients (g_grachtServer (Scenario.running Scenario.three_clients))
    !! client Scenario.message_from_20 = Some Scenario.client_20 /\
  exists w1,
    gracht_control_subscribe_invocation Scenario.quiet_link
        Scenario.message_from_20 4 (Scenario.running Scenario.three_clients)
      = Ok (tt, w1) /\
    trace w1 = [] /\
    clients (g_grachtServer w1) !! 20 =
      Some (mk_wrapper 20 (mk_client 20 [24; 0; 0; 0; 0; 0; 0; 0])).
Proof.
  assert (clients (g_grachtServer (Scenario.running Scenario.three_clients))
            !! client Scenario.message_from_20 = Some Scenario.client_20) as Hentry
    by reflexivity.
  split; [exact Hentry |].
  destruct (subscribe_registered_in_place Scenario.quiet_link
              Scenario.message_from_20 4 (Scenario.running Scenario.three_clients)
              Scenario.client_20 Hentry) as (w1 & Hrun & Htrace & Hbit & _).
  exists w1. split; [exact Hrun |]. split; [exact Htrace | exact Hbit].
Defined.

Lemma unsubscribe_partial_keeps_client_witness :
  3 <> 255 /\
  exists w1,
    gracht_control_unsubscribe_invocation Scenario.message_from_20 3
        (Scenario.running Scenario.three_clients) = Ok (tt, w1) /\
    trace w1 = [] /\
    clients (g_grachtServer w1) !! 20 =
      Some (mk_wrapper 20 (mk_client 20 Scenario.no_subscriptions)).
Proof.
  assert (3 <> 255) as Hid by discriminate.
  split; [exact Hid |].
  destruct (unsubscribe_partial_keeps_client Scenario.message_from_20 3
              (Scenario.running Scenario.three_clients) (or_introl Hid))
    as (w1 & Hrun & Htrace & _ & _ & Hreg).
  exists w1. split; [exact Hrun |]. split; [exact Htrace |].
  rewrite (Hreg 20). reflexivity.
Defined.

(** ** Targeted events and responses *)

Section EventAndResponse.

Variable GRACHT_MESSAGE_BLOCK : Z.
Variable link : server_link_ops.

(** X7: [gracht_server_send_event] writes the cursor into the length field
    of the message and then looks the handle up.  Without a client record it
    returns -1 with ENOENT and calls nothing.  With one it hands the message
    to [send_client] for that client with the caller's flags, whatever the
    client's subscriptions are, and returns the link's status. *)
Theorem send_event_ignores_subscriptions (h : Z) (message : gracht_buffer)
    (flags : Z) (w : world)
    (Hheader : (8 <= length (buf_data message))%nat) :
  exists d,
    Mem.store32 (buf_data message) 4 (buf_index message) = Some d /\
    Mem.load32 d 4 = Some (buf_index message mod 2 ^ 32) /\
    Mem.load32 d 0 = Mem.load32 (buf_data message) 0 /\
    gracht_server_send_event link h message flags w =
      match clients (g_grachtServer w) !! h with
      | None => Ok (-1, mk_world (g_grachtServer w) ENOENT (trace w))
      | Some e =>
          let sent := mk_buffer d (buf_index message) in
          let r := send_client link (trace w) (wrapper_client e) sent flags in
          Ok (r_ret r,
              mk_world (g_grachtServer w) (default (errno w) (r_errno r))
                (trace w ++ [EvLinkSendClient (wrapper_client e) sent flags]))
      end.
Proof.
  destruct (store32_Some (buf_data message) 4 (buf_index message)) as (d & Hd & _);
    [lia | lia |].
  exists d. split; [done |].
  split; [apply (load32_store32_eq _ _ _ _ Hd) |].
  split; [apply (load32_store32_ne _ _ _ _ _ Hd); lia |].
  unfold gracht_server_send_event. rewrite Hd.
  unfold load, bind, ret, hashtable_get_client, get_server, call, set_errno. cbn.
  by destruct (clients (g_grachtServer w) !! h).
Qed.

(** X8: [gracht_server_respond] with a NULL context or a NULL message fails
    with EINVAL and calls nothing.  Otherwise the response, with the cursor
    in its length field, goes to [send_client] with GRACHT_MESSAGE_BLOCK when
    the originating handle has a client record and to the link's [respond]
    when it has none; the link's status is returned. *)
Theorem respond_routes_by_registry
    (messageContext : option gracht_recv_message) (message : option gracht_buffer)
    (w : world) :
  (messageContext = None \/ message = None ->
     gracht_server_respond GRACHT_MESSAGE_BLOCK link messageContext message w =
       Ok (-1, mk_world (g_grachtServer w) EINVAL (trace w))) /\
  (forall ctx msg,
     messageContext = Some ctx -> message = Some msg ->
     (4 <= length (payload ctx))%nat -> (8 <= length (buf_data msg))%nat ->
     exists d,
       Mem.load32 d 4 = Some (buf_index msg mod 2 ^ 32) /\
       let sent := mk_buffer d (buf_index msg) in
       gracht_server_respond GRACHT_MESSAGE_BLOCK link messageContext message w =
         match clients (g_grachtServer w) !! client ctx with
         | None =>
             let r := respond link (trace w) ctx sent in
             Ok (r_ret r,
                 mk_world (g_grachtServer w) (default (errno w) (r_errno r))
                   (trace w ++ [EvLinkRespond ctx sent]))
         | Some e =>
             let r := send_client link (trace w) (wrapper_client e) sent
                        GRACHT_MESSAGE_BLOCK in
             Ok (r_ret r,
                 mk_world (g_grachtServer w) (default (errno w) (r_errno r))
                   (trace w ++ [EvLinkSendClient (wrapper_client e) sent
                                  GRACHT_MESSAGE_BLOCK]))
         end).
Proof.
  split.
  - intros [-> | ->]; unfold gracht_server_respond.
    + reflexivity.
    + by destruct messageContext.
  - intros ctx msg -> -> Hp Hm.
    destruct (load32_Some (payload ctx) 0) as [id Hid]; [lia | lia |].
    destruct (store32_Some (buf_data msg) 0 id) as (d0 & Hd0 & Hl0); [lia | lia |].
    destruct (store32_Some d0 4 (buf_index msg)) as (d1 & Hd1 & _); [lia | lia |].
    exists d1. split; [apply (load32_store32_eq _ _ _ _ Hd1) |].
    unfold gracht_server_respond. rewrite Hid. cbn [load].
    unfold bind at 1. unfold ret at 1. rewrite Hd0. cbn [load].
    unfold bind at 1. unfold ret at 1. rewrite Hd1. cbn [load].
    unfold bind at 1. unfold ret at 1.
    unfold bind at 1. unfold hashtable_get_client, bind, get_server, ret, call.
    cbn. by destruct (clients (g_grachtServer w) !! client ctx).
Qed.

End EventAndResponse.

Lemma send_event_ignores_subscriptions_witness :
  (8 <= length (buf_data Scenario.event_message))%nat /\
  client_is_subscribed (wrapper_client Scenario.client_21) 3 = false /\
  gracht_server_send_event Scenario.quiet_link 21 Scenario.event_message 0
      (Scenario.running Scenario.three_clients) =
    Ok (0, mk_world (Scenario.running_server Scenario.three_clients) 0
             [EvLinkSendClient (wrapper_client Scenario.client_21)
                (mk_buffer [0; 0; 0; 0;  12; 0; 0; 0;  3; 1; 0; 0] 12) 0]) /\
  gracht_server_send_event Scenario.quiet_link 30 Scenario.event_message 0
      (Scenario.running Scenario.three_clients) =
    Ok (-1, mk_world (Scenario.running_server Scenario.three_clients) ENOENT []).
Proof.
  assert (8 <= length (buf_data Scenario.event_message))%nat as Hlen
    by (vm_compute; lia).
  split; [exact Hlen |]. split; [reflexivity |]. split.
  - destruct (send_event_ignores_subscriptions Scenario.quiet_link 21
                Scenario.event_message 0 (Scenario.running Scenario.three_clients) Hlen)
      as (d & Hd & _ & _ & ->).
    vm_compute in Hd. injection Hd as <-. reflexivity.
  - destruct (send_event_ignores_subscriptions Scenario.quiet_link 30
                Scenario.event_message 0 (Scenario.running Scenario.three_clients) Hlen)
      as (d & _ & _ & _ & ->).
    reflexivity.
Defined.

Lemma respond_routes_by_registry_witness :
  (4 <= length (payload Scenario.message_from_20))%nat /\
  (8 <= length (buf_data Scenario.response))%nat /\
  gracht_server_respond Scenario.GRACHT_MESSAGE_BLOCK Scenario.quiet_link
      None (Some Scenario.response) (Scenario.running Scenario.three_clients) =
    Ok (-1, mk_world (Scenario.running_server Scenario.three_clients) EINVAL []) /\
  exists d,
    gracht_server_respond Scenario.GRACHT_MESSAGE_BLOCK Scenario.quiet_link
        (Some Scenario.message_from_20) (Some Scenario.response)
        (Scenario.running Scenario.three_clients) =
      Ok (0, mk_world (Scenario.running_server Scenario.three_clients) 0
               [EvLinkSendClient (wrapper_client Scenario.client_20)
                  (mk_buffer d 12) Scenario.GRACHT_MESSAGE_BLOCK]).
Proof.
  assert (4 <= length (payload Scenario.message_from_20))%nat as Hp
    by (vm_compute; lia).
  assert (8 <= length (buf_data Scenario.response))%nat as Hm
    by (vm_compute; lia).
  do 2 (split; [assumption |]). split.
  - exact (proj1 (respond_routes_by_registry Scenario.GRACHT_MESSAGE_BLOCK
                    Scenario.quiet_link None (Some Scenario.response)
                    (Scenario.running Scenario.three_clients))
                 (or_introl eq_refl)).
  - destruct (proj2 (respond_routes_by_registry Scenario.GRACHT_MESSAGE_BLOCK
                       Scenario.quiet_link (Some Scenario.message_from_20)
                       (Some Scenario.response)
                       (Scenario.running Scenario.three_clients))
                    Scenario.message_from_20 Scenario.response eq_refl eq_refl Hp Hm)
      as (d & _ & Hrun).
    exists d. exact Hrun.
Defined.

(** ** Protocol registry and dispatch *)

Section RegistryAndDispatch.

Variable GRACHT_MESSAGE_HEADER_SIZE : Z.
Variable rt : runtime.

Lemma invoke_action_eq (recvMessage : gracht_recv_message) (w : world)
    (id protocol action_id : Z) :
  Mem.load32 (payload recvMessage) (index recvMessage + 0) = Some id ->
  Mem.load8 (payload recvMessage) (index recvMessage + 8) = Some protocol ->
  Mem.load8 (payload recvMessage) (index recvMessage + 9) = Some action_id ->
  server_invoke_action GRACHT_MESSAGE_HEADER_SIZE rt recvMessage w =
    match get_protocol_action (protocols (g_grachtServer w)) protocol action_id with
    | None =>
        Ok (tt, mk_world (g_grachtServer w) (errno w)
                  (trace w ++ [EvControlError (client recvMessage) id ENOENT]))
    | Some f =>
        let buffer := mk_buffer (payload recvMessage)
                        (index recvMessage + GRACHT_MESSAGE_HEADER_SIZE) in
        run (action rt (address f) recvMessage buffer)
          (mk_world (g_grachtServer w) (errno w)
             (trace w ++ [EvInvoke (address f) recvMessage buffer]))
    end.
Proof.
  intros Hid Hp Ha. unfold server_invoke_action. cbn [buf_data buf_index].
  rewrite Hid, Hp, Ha. unfold load, bind, ret, get_server, notify. cbn.
  by destruct (get_protocol_action _ _ _).
Qed.

(** X9: registering a NULL protocol fails with EINVAL and changes nothing.
    After a protocol is registered, a message whose header names its id and
    one of its actions is dispatched to the first descriptor with that
    action id, with the cursor moved past the header; a message naming an
    action the protocol does not have is answered with the control error
    ENOENT carrying the id read at the cursor, and no action runs. *)
Theorem registered_protocol_is_dispatched (p : gracht_protocol)
    (recvMessage : gracht_recv_message) (w : world) (id action_id : Z)
    (Hid : Mem.load32 (payload recvMessage) (index recvMessage + 0) = Some id)
    (Hprotocol : Mem.load8 (payload recvMessage) (index recvMessage + 8)
                 = Some (protocol_id p))
    (Haction : Mem.load8 (payload recvMessage) (index recvMessage + 9)
               = Some action_id) :
  gracht_server_register_protocol None w =
    Ok (-1, mk_world (g_grachtServer w) EINVAL (trace w)) /\
  exists w1,
    gracht_server_register_protocol (Some p) w = Ok (0, w1) /\
    trace w1 = trace w /\
    clients (g_grachtServer w1) = clients (g_grachtServer w) /\
    server_invoke_action GRACHT_MESSAGE_HEADER_SIZE rt recvMessage w1 =
      match List.find (fun f => function_id f =? action_id) (functions p) with
      | None =>
          Ok (tt, mk_world (g_grachtServer w1) (errno w1)
                    (trace w1 ++ [EvControlError (client recvMessage) id ENOENT]))
      | Some f =>
          let buffer := mk_buffer (payload recvMessage)
                          (index recvMessage + GRACHT_MESSAGE_HEADER_SIZE) in
          run (action rt (address f) recvMessage buffer)
            (mk_world (g_grachtServer w1) (errno w1)
               (trace w1 ++ [EvInvoke (address f) recvMessage buffer]))
      end.
Proof.
  split; [reflexivity |].
  eexists. split; [reflexivity |]. split; [reflexivity |]. split; [reflexivity |].
  rewrite (invoke_action_eq recvMessage _ id (protocol_id p) action_id Hid Hprotocol Haction).
  unfold get_protocol_action.
  cbn [g_grachtServer protocols with_protocols].
  by rewrite lookup_insert_eq.
Qed.

(** After a protocol is unregistered, every message whose header names
    its id is answered with the control error ENOENT carrying the id read at
    the cursor, and no action runs; the actions of the other protocols
    resolve as before. *)
Lemma unregistered_protocol_reports_not_found (p : gracht_protocol)
    (recvMessage : gracht_recv_message) (w : world) (id action_id : Z)
    (Hid : Mem.load32 (payload recvMessage) (index recvMessage + 0) = Some id)
    (Hprotocol : Mem.load8 (payload recvMessage) (index recvMessage + 8)
                 = Some (protocol_id p))
    (Haction : Mem.load8 (payload recvMessage) (index recvMessage + 9)
               = Some action_id) :
  exists w1,
    gracht_server_unregister_protocol (Some p) w = Ok (tt, w1) /\
    trace w1 = trace w /\
    server_invoke_action GRACHT_MESSAGE_HEADER_SIZE rt recvMessage w1 =
      Ok (tt, mk_world (g_grachtServer w1) (errno w1)
                (trace w1 ++ [EvControlError (client recvMessage) id ENOENT])) /\
    forall q a, q <> protocol_id p ->
      get_protocol_action (protocols (g_grachtServer w1)) q a =
      get_protocol_action (protocols (g_grachtServer w)) q a.
Proof.
  eexists. split; [reflexivity |]. split; [reflexivity |]. split.
  - rewrite (invoke_action_eq recvMessage _ id (protocol_id p) action_id
               Hid Hprotocol Haction).
    unfold get_protocol_action.
    cbn [g_grachtServer protocols with_protocols].
    by rewrite lookup_delete_eq.
  - intros q a Hq. unfold get_protocol_action.
    cbn [g_grachtServer protocols with_protocols].
    by rewrite lookup_delete_ne.
Qed.

End RegistryAndDispatch.

Lemma registered_protocol_is_dispatched_witness :
  let p := mk_protocol 9 [mk_function 0 900; mk_function 1 901; mk_function 1 902] in
  let m := mk_recv_message 20 0 [7; 0; 0; 0;  12; 0; 0; 0;  9; 1; 0; 0] in
  Mem.load32 (payload m) (index m + 0) = Some 7 /\
  Mem.load8 (payload m) (index m + 8) = Some (protocol_id p) /\
  Mem.load8 (payload m) (index m + 9) = Some 1 /\
  exists w1,
    gracht_server_register_protocol (Some p) (Scenario.running ∅) = Ok (0, w1) /\
    server_invoke_action Scenario.GRACHT_MESSAGE_HEADER_SIZE Scenario.quiet_runtime m w1 =
      Ok (tt, mk_world (g_grachtServer w1) 0
                [EvInvoke 901 m (mk_buffer (payload m) 12)]).
Proof.
  cbn zeta.
  set (p := mk_protocol 9 [mk_function 0 900; mk_function 1 901; mk_function 1 902]).
  set (m := mk_recv_message 20 0 [7; 0; 0; 0;  12; 0; 0; 0;  9; 1; 0; 0]).
  assert (Mem.load32 (payload m) (index m + 0) = Some 7) as Hid by reflexivity.
  assert (Mem.load8 (payload m) (index m + 8) = Some (protocol_id p)) as Hp
    by reflexivity.
  assert (Mem.load8 (payload m) (index m + 9) = Some 1) as Ha by reflexivity.
  do 3 (split; [assumption |]).
  destruct (registered_protocol_is_dispatched Scenario.GRACHT_MESSAGE_HEADER_SIZE
              Scenario.quiet_runtime p m (Scenario.running ∅) 7 1 Hid Hp Ha)
    as (_ & w1 & Hreg & Htrace & _ & Hrun).
  exists w1. split; [exact Hreg |]. rewrite Hrun.
  injection Hreg as <-. reflexivity.
Defined.

Lemma unregistered_protocol_reports_not_found_witness :
  let p := mk_protocol 5 [] in
  let m := Scenario.datagram_request in
  Mem.load32 (payload m) (index m + 0) = Some 7 /\
  Mem.load8 (payload m) (index m + 8) = Some (protocol_id p) /\
  Mem.load8 (payload m) (index m + 9) = Some 1 /\
  exists w1,
    gracht_server_unregister_protocol (Some p) (Scenario.running ∅) = Ok (tt, w1) /\
    server_invoke_action Scenario.GRACHT_MESSAGE_HEADER_SIZE Scenario.quiet_runtime m w1 =
      Ok (tt, mk_world (g_grachtServer w1) 0 [EvControlError 11 7 ENOENT]).
Proof.
  cbn zeta.
  assert (Mem.load32 (payload Scenario.datagram_request)
            (index Scenario.datagram_request + 0) = Some 7) as Hid by reflexivity.
  assert (Mem.load8 (payload Scenario.datagram_request)
            (index Scenario.datagram_request + 8)
          = Some (protocol_id (mk_protocol 5 []))) as Hp by reflexivity.
  assert (Mem.load8 (payload Scenario.datagram_request)
            (index Scenario.datagram_request + 9) = Some 1) as Ha by reflexivity.
  do 3 (split; [assumption |]).
  destruct (unregistered_protocol_reports_not_found
              Scenario.GRACHT_MESSAGE_HEADER_SIZE Scenario.quiet_runtime
              (mk_protocol 5 []) Scenario.datagram_request (Scenario.running ∅)
              7 1 Hid Hp Ha)
    as (w1 & Hunreg & _ & Hrun & _).
  exists w1. split; [exact Hunreg |]. rewrite Hrun.
  injection Hunreg as <-. reflexivity.
Defined.

(** ** Accepting and disconnecting stream clients *)

Section AcceptProperties.

Variable GRACHT_AIO_EVENT_IN : Z.
Variable GRACHT_AIO_EVENT_DISCONNECT : Z.
Variable GRACHT_MESSAGE_HEADER_SIZE : Z.
Variable link : server_link_ops.
Variable rt : runtime.

Local Abbreviation handle_event :=
  (gracht_server_handle_event GRACHT_AIO_EVENT_IN GRACHT_AIO_EVENT_DISCONNECT
     GRACHT_MESSAGE_HEADER_SIZE link rt).

Lemma handle_client_socket_eq (w : world) :
  handle_client_socket link rt w =
    let s := g_grachtServer w in
    let r := accept link (trace w) in
    let c := r_out r in
    if r_ret r =? 0 then
      let a := gracht_aio_add rt (trace w ++ [EvLinkAccept]) (set_handle s) (handle c) in
      Ok (0, mk_world
               (with_clients s (<[handle c := mk_wrapper (handle c) c]> (clients s)))
               (default (default (errno w) (r_errno r)) (r_errno a))
               (trace w ++ [EvLinkAccept; EvAioAdd (set_handle s) (handle c)]
                        ++ (if clientConnected (callbacks s)
                            then [EvClientConnected (handle c)] else [])))
    else
      Ok (r_ret r, mk_world s (default (errno w) (r_errno r)) (trace w ++ [EvLinkAccept])).
Proof.
  unfold handle_client_socket. run_monad.
  destruct (r_ret (accept link (trace w)) =? 0); cbn; [| done].
  destruct (clientConnected (callbacks (g_grachtServer w))); cbn;
    by rewrite <- ?app_assoc, ?app_nil_r.
Qed.

(** X10: an event on the listening handle is answered by one [accept],
    whatever the event mask.  If the link fails to accept, its status is
    returned, the registry is unchanged and no callback fires.  If it
    accepts, the client is stored under its own handle, the handle is added
    to the readiness set, and only then [clientConnected] fires, if
    installed; the event returns 0. *)
Theorem listen_event_accepts_one_client (fuel : nat) (events : Z) (w : world) :
  let s := g_grachtServer w in
  let r := accept link (trace w) in
  let c := r_out r in
  exists w1,
    handle_event fuel (listen_handle s) events w
      = Ok ((if r_ret r =? 0 then 0 else r_ret r), w1) /\
    (r_ret r <> 0 ->
       g_grachtServer w1 = s /\ trace w1 = trace w ++ [EvLinkAccept]) /\
    (r_ret r = 0 ->
       clients (g_grachtServer w1) !! handle c = Some (mk_wrapper (handle c) c) /\
       (forall h, h <> handle c ->
          clients (g_grachtServer w1) !! h = clients s !! h) /\
       trace w1 =
         trace w ++ [EvLinkAccept; EvAioAdd (set_handle s) (handle c)]
                 ++ (if clientConnected (callbacks s)
                     then [EvClientConnected (handle c)] else [])).
Proof.
  cbn zeta. unfold gracht_server_handle_event.
  unfold bind at 1. unfold get_server at 1. rewrite Z.eqb_refl.
  rewrite handle_client_socket_eq. cbn zeta.
  destruct (Z.eqb_spec (r_ret (accept link (trace w))) 0) as [Hr | Hr];
    eexists; (split; [reflexivity |]); (split; [intros Hne | intros Heq]);
    try done.
  cbn [g_grachtServer clients with_clients trace].
  split; [apply lookup_insert_eq |]. split; [| done].
  intros h Hh. by apply lookup_insert_ne.
Qed.

(** X11: a stream client that is accepted under a fresh handle and then
    reported as disconnected leaves the registry as it was before the
    accept.  In between the link and the callbacks see, in this order:
    accept, the handle added to the readiness set, [clientConnected], the
    handle removed from the readiness set, [clientDisconnected], and
    [destroy_client] for the accepted client. *)
Theorem accept_then_disconnect_restores_registry (fuel : nat) (events1 events2 : Z)
    (w : world)
    (Haccepted : r_ret (accept link (trace w)) = 0)
    (Hfresh : clients (g_grachtServer w) !! handle (r_out (accept link (trace w))) = None)
    (Hlisten : handle (r_out (accept link (trace w))) <> listen_handle (g_grachtServer w))
    (Hdgram : handle (r_out (accept link (trace w))) <> dgram_handle (g_grachtServer w))
    (Hmask : Z.land events2 GRACHT_AIO_EVENT_DISCONNECT <> 0) :
  let s := g_grachtServer w in
  let c := r_out (accept link (trace w)) in
  exists w1 w2,
    handle_event fuel (listen_handle s) events1 w = Ok (0, w1) /\
    handle_event fuel (handle c) events2 w1 = Ok (0, w2) /\
    g_grachtServer w2 = s /\
    trace w2 =
      trace w ++ [EvLinkAccept; EvAioAdd (set_handle s) (handle c)]
              ++ (if clientConnected (callbacks s)
                  then [EvClientConnected (handle c)] else [])
              ++ [EvAioRemove (set_handle s) (handle c)]
              ++ (if clientDisconnected (callbacks s)
                  then [EvClientDisconnected (handle c)] else [])
              ++ [EvLinkDestroyClient c].
Proof.
  cbn zeta. unfold gracht_server_handle_event.
  unfold bind at 1. unfold get_server at 1. rewrite Z.eqb_refl.
  rewrite handle_client_socket_eq. cbn zeta. rewrite Haccepted. cbn [Z.eqb].
  eexists. eexists. split; [reflexivity |].
  unfold bind at 1. unfold get_server at 1.
  cbn [g_grachtServer listen_handle dgram_handle with_clients].
  apply Z.eqb_neq in Hlisten, Hdgram. rewrite Hlisten, Hdgram.
  rewrite handle_async_event_disconnect by done.
  cbn [g_grachtServer trace errno clients with_clients set_handle callbacks].
  split; [reflexivity |].
  unfold disconnected_events, destroyed_events.
  cbn [g_grachtServer trace errno clients with_clients set_handle callbacks].
  rewrite lookup_insert_eq, delete_insert_eq, delete_id by done.
  cbn [wrapper_client]. split; [by destruct (g_grachtServer w) |].
  by rewrite <- !app_assoc.
Qed.

End AcceptProperties.

Lemma listen_event_accepts_one_client_witness :
  r_ret (accept Cases.link_refusing_accept (trace (Scenario.running ∅))) <> 0 /\
  r_ret (accept Scenario.quiet_link (trace (Scenario.running ∅))) = 0 /\
  (exists w1,
     gracht_server_handle_event Scenario.GRACHT_AIO_EVENT_IN
         Scenario.GRACHT_AIO_EVENT_DISCONNECT Scenario.GRACHT_MESSAGE_HEADER_SIZE
         Cases.link_refusing_accept Scenario.quiet_runtime 0 10 1 (Scenario.running ∅)
       = Ok (-1, w1) /\
     g_grachtServer w1 = Scenario.running_server ∅ /\
     trace w1 = [EvLinkAccept]) /\
  (exists w1,
     gracht_server_handle_event Scenario.GRACHT_AIO_EVENT_IN
         Scenario.GRACHT_AIO_EVENT_DISCONNECT Scenario.GRACHT_MESSAGE_HEADER_SIZE
         Scenario.quiet_link Scenario.quiet_runtime 0 10 1 (Scenario.running ∅)
       = Ok (0, w1) /\
     clients (g_grachtServer w1) !! 20 =
       Some (mk_wrapper 20 (mk_client 20 Scenario.no_subscriptions)) /\
     trace w1 = [EvLinkAccept; EvAioAdd 4 20; EvClientConnected 20]).
Proof.
  assert (r_ret (accept Cases.link_refusing_accept (trace (Scenario.running ∅))) <> 0)
    as Hrefused by (vm_compute; discriminate).
  assert (r_ret (accept Scenario.quiet_link (trace (Scenario.running ∅))) = 0)
    as Haccepted by reflexivity.
  do 2 (split; [assumption |]). split.
  - destruct (listen_event_accepts_one_client Scenario.GRACHT_AIO_EVENT_IN
                Scenario.GRACHT_AIO_EVENT_DISCONNECT Scenario.GRACHT_MESSAGE_HEADER_SIZE
                Cases.link_refusing_accept Scenario.quiet_runtime 0 1
                (Scenario.running ∅)) as (w1 & Hrun & Hfail & _).
    exists w1. split; [exact Hrun |]. exact (Hfail Hrefused).
  - destruct (listen_event_accepts_one_client Scenario.GRACHT_AIO_EVENT_IN
                Scenario.GRACHT_AIO_EVENT_DISCONNECT Scenario.GRACHT_MESSAGE_HEADER_SIZE
                Scenario.quiet_link Scenario.quiet_runtime 0 1
                (Scenario.running ∅)) as (w1 & Hrun & _ & Hok).
    exists w1. split; [exact Hrun |].
    destruct (Hok Haccepted) as (Hentry & _ & Htrace).
    split; [exact Hentry | exact Htrace].
Defined.

Lemma accept_then_disconnect_restores_registry_witness :
  r_ret (accept Scenario.quiet_link (trace (Scenario.running ∅))) = 0 /\
  Z.land 8192 Scenario.GRACHT_AIO_EVENT_DISCONNECT <> 0 /\
  exists w1 w2,
    gracht_server_handle_event Scenario.GRACHT_AIO_EVENT_IN
        Scenario.GRACHT_AIO_EVENT_DISCONNECT Scenario.GRACHT_MESSAGE_HEADER_SIZE
        Scenario.quiet_link Scenario.quiet_runtime 0 10 1 (Scenario.running ∅)
      = Ok (0, w1) /\
    gracht_server_handle_event Scenario.GRACHT_AIO_EVENT_IN
        Scenario.GRACHT_AIO_EVENT_DISCONNECT Scenario.GRACHT_MESSAGE_HEADER_SIZE
        Scenario.quiet_link Scenario.quiet_runtime 0 20 8192 w1
      = Ok (0, w2) /\
    g_grachtServer w2 = Scenario.running_server ∅ /\
    trace w2 =
      [EvLinkAccept; EvAioAdd 4 20; EvClientConnected 20;
       EvAioRemove 4 20; EvClientDisconnected 20;
       EvLinkDestroyClient (mk_client 20 Scenario.no_subscriptions)].
Proof.
  assert (r_ret (accept Scenario.quiet_link (trace (Scenario.running ∅))) = 0)
    as Haccepted by reflexivity.
  assert (Z.land 8192 Scenario.GRACHT_AIO_EVENT_DISCONNECT <> 0) as Hmask
    by (vm_compute; discriminate).
  do 2 (split; [assumption |]).
  assert (clients (g_grachtServer (Scenario.running ∅))
            !! handle (r_out (accept Scenario.quiet_link (trace (Scenario.running ∅))))
          = None) as Hfresh by reflexivity.
  assert (handle (r_out (accept Scenario.quiet_link (trace (Scenario.running ∅))))
          <> listen_handle (g_grachtServer (Scenario.running ∅))) as Hl
    by (vm_compute; discriminate).
  assert (handle (r_out (accept Scenario.quiet_link (trace (Scenario.running ∅))))
          <> dgram_handle (g_grachtServer (Scenario.running ∅))) as Hd
    by (vm_compute; discriminate).
  destruct (accept_then_disconnect_restores_registry Scenario.GRACHT_AIO_EVENT_IN
              Scenario.GRACHT_AIO_EVENT_DISCONNECT Scenario.GRACHT_MESSAGE_HEADER_SIZE
              Scenario.quiet_link Scenario.quiet_runtime 0 1 8192
              (Scenario.running ∅) Haccepted Hfresh Hl Hd Hmask)
    as (w1 & w2 & Hrun1 & Hrun2 & Hserver & Htrace).
  exists w1, w2. split; [exact Hrun1 |]. split; [exact Hrun2 |].
  split; [exact Hserver | exact Htrace].
Defined.

(** ** Draining the datagram socket *)

Section DatagramDrain.

Variable GRACHT_AIO_EVENT_IN : Z.
Variable GRACHT_AIO_EVENT_DISCONNECT : Z.
Variable GRACHT_MESSAGE_HEADER_SIZE : Z.
Variable link : server_link_ops.
Variable rt : runtime.

Local Abbreviation handle_event :=
  (gracht_server_handle_event GRACHT_AIO_EVENT_IN GRACHT_AIO_EVENT_DISCONNECT
     GRACHT_MESSAGE_HEADER_SIZE link rt).
Local Abbreviation sync_event :=
  (handle_sync_event GRACHT_MESSAGE_HEADER_SIZE link rt).

Lemma handle_sync_event_failure (fuel : nat) (o : server_operations) (w : world) :
  let s := g_grachtServer w in
  let message := incoming_buffer rt s o (trace w) in
  let r := recv_packet link (trace w ++ incoming_buffer_events s o) message 0 in
  ops s = Some o ->
  r_ret r <> 0 ->
  exists e',
    sync_event (S fuel) w =
      Ok (r_ret r,
          mk_world s e'
            (trace w ++ incoming_buffer_events s o
                     ++ [EvLinkRecvPacket message 0]
                     ++ returned_buffer_events s o message)).
Proof.
  cbn zeta. intros Ho Hr. apply Z.eqb_neq in Hr.
  cbn [handle_sync_event]. unfold server_ops, bind, get_server, ret. cbn. rewrite Ho.
  destruct o; cbn [incoming_buffer_events incoming_buffer returned_buffer_events] in *.
  - rewrite app_nil_r in Hr |- *. unfold call. cbn. rewrite Hr. cbn.
    eexists. reflexivity.
  - unfold get_in_buffer_mt, put_message_mt, call, notify, bind, get_server, ret.
    cbn. rewrite Hr. cbn.
    unfold put_message_mt, notify, bind, get_server. cbn.
    eexists. by rewrite <- !app_assoc.
Qed.

(** X12: an event on the datagram handle whose first receive fails returns
    the link's status, which is not 0.  The buffer goes back to its
    provider, nothing is dispatched and the server is unchanged, whatever
    the event mask. *)
Theorem datagram_event_returns_link_status (fuel : nat) (events : Z)
    (o : server_operations) (w : world)
    (Hdgram : dgram_handle (g_grachtServer w) <> listen_handle (g_grachtServer w))
    (Hops : ops (g_grachtServer w) = Some o)
    (Hfail : r_ret (recv_packet link
                      (trace w ++ incoming_buffer_events (g_grachtServer w) o)
                      (incoming_buffer rt (g_grachtServer w) o (trace w)) 0) <> 0) :
  let s := g_grachtServer w in
  let message := incoming_buffer rt s o (trace w) in
  let r := recv_packet link (trace w ++ incoming_buffer_events s o) message 0 in
  exists w1,
    handle_event (S fuel) (dgram_handle s) events w = Ok (r_ret r, w1) /\
    g_grachtServer w1 = s /\
    trace w1 =
      trace w ++ incoming_buffer_events s o
              ++ [EvLinkRecvPacket message 0]
              ++ returned_buffer_events s o message.
Proof.
  cbn zeta. unfold gracht_server_handle_event.
  unfold bind at 1. unfold get_server at 1.
  apply Z.eqb_neq in Hdgram. rewrite Hdgram, Z.eqb_refl.
  destruct (handle_sync_event_failure fuel o w Hops Hfail) as [e' ->].
  eexists. split; [reflexivity |]. by split.
Qed.

(** X13: in multi-threaded mode a datagram that was received is handed to
    the worker pool as it is: the event loop neither invokes the action nor
    frees the buffer of that message.  The drain goes on to the next
    receive, and the buffer of the failed receive that ends it is freed. *)
Theorem datagram_drain_hands_off_to_workers (fuel : nat) (w : world) (len : Z) :
  let s := g_grachtServer w in
  let allocate := EvArenaAllocate (arena s) (allocationSize s) in
  let p1 := r_ret (gracht_arena_allocate rt (trace w) (arena s) (allocationSize s)) in
  let r1 := recv_packet link (trace w ++ [allocate]) p1 0 in
  let t1 := trace w ++ [allocate; EvLinkRecvPacket p1 0;
                        EvWorkerPoolDispatch (worker_pool s) (r_out r1)] in
  let p2 := r_ret (gracht_arena_allocate rt t1 (arena s) (allocationSize s)) in
  let r2 := recv_packet link (t1 ++ [allocate]) p2 0 in
  ops s = Some g_mtOperations ->
  p1 <> 0 ->
  r_ret r1 = 0 ->
  Mem.load32 (payload (r_out r1)) (index (r_out r1) + 4) = Some len ->
  r_ret r2 <> 0 ->
  exists w1,
    sync_event (S (S fuel)) w = Ok (r_ret r2, w1) /\
    g_grachtServer w1 = s /\
    trace w1 =
      t1 ++ [allocate; EvLinkRecvPacket p2 0;
             EvArenaFree (arena s) p2 (allocationSize s)].
Proof.
  cbn zeta. intros Ho Hp1 Hr1 Hlen Hr2.
  apply Z.eqb_neq in Hp1.
  set (w1 := mk_world (g_grachtServer w)
               (default (default (errno w)
                           (r_errno (gracht_arena_allocate rt (trace w)
                                       (arena (g_grachtServer w))
                                       (allocationSize (g_grachtServer w)))))
                        (r_errno (recv_packet link
                                    (trace w ++ [EvArenaAllocate (arena (g_grachtServer w))
                                                   (allocationSize (g_grachtServer w))])
                                    (r_ret (gracht_arena_allocate rt (trace w)
                                              (arena (g_grachtServer w))
                                              (allocationSize (g_grachtServer w)))) 0)))
               (trace w ++
                [EvArenaAllocate (arena (g_grachtServer w)) (allocationSize (g_grachtServer w));
                 EvLinkRecvPacket
                   (r_ret (gracht_arena_allocate rt (trace w) (arena (g_grachtServer w))
                             (allocationSize (g_grachtServer w)))) 0;
                 EvWorkerPoolDispatch (worker_pool (g_grachtServer w))
                   (r_out (recv_packet link
                             (trace w ++ [EvArenaAllocate (arena (g_grachtServer w))
                                            (allocationSize (g_grachtServer w))])
                             (r_ret (gracht_arena_allocate rt (trace w)
                                       (arena (g_grachtServer w))
                                       (allocationSize (g_grachtServer w)))) 0))])).
  assert (sync_event (S (S fuel)) w = sync_event (S fuel) w1) as ->.
  { cbn [handle_sync_event]. unfold server_ops at 1.
    unfold bind at 1. unfold bind at 1. unfold get_server at 1. unfold ret at 1.
    rewrite Ho. unfold bind at 1.
    unfold get_incoming_buffer at 1, get_in_buffer_mt at 1.
    unfold bind at 1. unfold get_server at 1. unfold bind at 1. unfold call at 1.
    unfold ret at 1. unfold bind at 1. unfold call at 1.
    cbn [r_ret trace g_grachtServer errno]. rewrite Hr1. cbn [Z.eqb negb].
    unfold bind at 1. unfold dispatch at 1, dispatch_mt at 1. rewrite Hp1.
    cbn [trace]. rewrite Hlen. unfold load, bind, ret, get_server, notify.
    cbn [g_grachtServer trace errno].
    subst w1. by rewrite <- !app_assoc. }
  destruct (handle_sync_event_failure fuel g_mtOperations w1) as [e' ->].
  - exact Ho.
  - subst w1. cbn [incoming_buffer incoming_buffer_events g_grachtServer trace].
    exact Hr2.
  - eexists. split; [reflexivity |]. split; [reflexivity |].
    subst w1.
    cbn [incoming_buffer incoming_buffer_events returned_buffer_events
         g_grachtServer trace].
    by rewrite <- !app_assoc.
Qed.

End DatagramDrain.

Lemma datagram_event_returns_link_status_witness :
  dgram_handle (g_grachtServer (Scenario.running ∅))
    <> listen_handle (g_grachtServer (Scenario.running ∅)) /\
  ops (g_grachtServer (Scenario.running ∅)) = Some g_stOperations /\
  exists w1,
    gracht_server_handle_event Scenario.GRACHT_AIO_EVENT_IN
        Scenario.GRACHT_AIO_EVENT_DISCONNECT Scenario.GRACHT_MESSAGE_HEADER_SIZE
        Scenario.quiet_link Scenario.quiet_runtime 1 11 1 (Scenario.running ∅)
      = Ok (-1, w1) /\
    trace w1 = [EvLinkRecvPacket 20480 0].
Proof.
  assert (dgram_handle (g_grachtServer (Scenario.running ∅))
          <> listen_handle (g_grachtServer (Scenario.running ∅))) as Hd
    by (vm_compute; discriminate).
  assert (ops (g_grachtServer (Scenario.running ∅)) = Some g_stOperations) as Ho
    by reflexivity.
  do 2 (split; [assumption |]).
  assert (r_ret (recv_packet Scenario.quiet_link
                   (trace (Scenario.running ∅)
                    ++ incoming_buffer_events (g_grachtServer (Scenario.running ∅))
                         g_stOperations)
                   (incoming_buffer Scenario.quiet_runtime
                      (g_grachtServer (Scenario.running ∅)) g_stOperations
                      (trace (Scenario.running ∅))) 0) <> 0) as Hfail
    by (vm_compute; discriminate).
  destruct (datagram_event_returns_link_status Scenario.GRACHT_AIO_EVENT_IN
              Scenario.GRACHT_AIO_EVENT_DISCONNECT Scenario.GRACHT_MESSAGE_HEADER_SIZE
              Scenario.quiet_link Scenario.quiet_runtime 0 1 g_stOperations
              (Scenario.running ∅) Hd Ho Hfail) as (w1 & Hrun & _ & Htrace).
  exists w1. split; [exact Hrun | exact Htrace].
Defined.

Lemma datagram_drain_hands_off_to_workers_witness :
  ops (g_grachtServer (Cases.running_mt ∅)) = Some g_mtOperations /\
  exists w1,
    handle_sync_event Scenario.GRACHT_MESSAGE_HEADER_SIZE Cases.link_with_one_datagram
        Scenario.quiet_runtime 2 (Cases.running_mt ∅) = Ok (-1, w1) /\
    trace w1 =
      [EvArenaAllocate 12288 1536; EvLinkRecvPacket 16384 0;
       EvWorkerPoolDispatch 4096 Cases.datagram;
       EvArenaAllocate 12288 1536; EvLinkRecvPacket 16384 0;
       EvArenaFree 12288 16384 1536].
Proof.
  assert (ops (g_grachtServer (Cases.running_mt ∅)) = Some g_mtOperations) as Ho
    by reflexivity.
  split; [exact Ho |].
  destruct (datagram_drain_hands_off_to_workers Scenario.GRACHT_MESSAGE_HEADER_SIZE
              Cases.link_with_one_datagram Scenario.quiet_runtime 0
              (Cases.running_mt ∅) 12 Ho)
    as (w1 & Hrun & _ & Htrace);
    [vm_compute; discriminate | reflexivity | reflexivity
    | vm_compute; discriminate |].
  exists w1. split; [exact Hrun | exact Htrace].
Defined.

(** ** What event handling leaves alone *)

Lemma frame_with_clients (s : gracht_server) (c : gmap Z client_wrapper) :
  frame (with_clients s c) = frame s.
Proof. reflexivity. Qed.

Lemma keeps_ret {A : Type} (a : A) : keeps_frame (ret a).
Proof. by intros w a' w' [= <- <-]. Qed.

Lemma keeps_crash {A : Type} (f : fault) : keeps_frame (@crash world A f).
Proof. by intros w a w'. Qed.

Lemma keeps_out_of_fuel {A : Type} : keeps_frame (@out_of_fuel world A).
Proof. by intros w a w'. Qed.

Lemma keeps_bind {A B : Type} (m : M A) (k : A -> M B) :
  keeps_frame m -> (forall a, keeps_frame (k a)) -> keeps_frame (bind m k).
Proof.
  intros Hm Hk w b w'. unfold bind.
  destruct (m w) as [[a w1] | |] eqn:E; [| done | done].
  intros Hrun. rewrite (Hk a _ _ _ Hrun). by apply (Hm _ _ _ E).
Qed.

Lemma keeps_load {A : Type} (o : option A) : keeps_frame (load o).
Proof. destruct o; [apply keeps_ret | apply keeps_crash]. Qed.

Lemma keeps_notify (e : event) : keeps_frame (notify e).
Proof. by intros w a w' [= <- <-]. Qed.

Lemma keeps_call {A : Type} (e : event) (f : list event -> reply A) :
  keeps_frame (call e f).
Proof. by intros w a w' [= <- <-]. Qed.

Lemma keeps_get_server : keeps_frame get_server.
Proof. by intros w a w' [= <- <-]. Qed.

Lemma keeps_get_errno : keeps_frame get_errno.
Proof. by intros w a w' [= <- <-]. Qed.

Lemma keeps_set_errno (e : Z) : keeps_frame (set_errno e).
Proof. by intros w a w' [= <- <-]. Qed.

Lemma keeps_hashtable_get_client (h : Z) : keeps_frame (hashtable_get_client h).
Proof. by intros w a w' [= <- <-]. Qed.

Lemma keeps_hashtable_set_client (e : client_wrapper) :
  keeps_frame (hashtable_set_client e).
Proof. by intros w a w' [= <- <-]. Qed.

Lemma keeps_hashtable_remove_client (h : Z) :
  keeps_frame (hashtable_remove_client h).
Proof. by intros w a w' [= <- <-]. Qed.

Lemma keeps_store_client (h : Z) (e : client_wrapper) (c : gracht_server_client) :
  keeps_frame (store_client h e c).
Proof. by intros w a w' [= <- <-]. Qed.

Lemma keeps_if {A : Type} (b : bool) (m1 m2 : M A) :
  keeps_frame m1 -> keeps_frame m2 -> keeps_frame (if b then m1 else m2).
Proof. by destruct b. Qed.


Create HintDb frame discriminated.

#[local] Hint Resolve keeps_ret keeps_crash keeps_out_of_fuel keeps_load
  keeps_notify keeps_call keeps_get_server keeps_get_errno keeps_set_errno
  keeps_hashtable_get_client keeps_hashtable_set_client
  keeps_hashtable_remove_client keeps_store_client : frame.

(** Splits a computation along its binds and branches. *)
Ltac keeps :=
  repeat first
    [ progress eauto with frame
    | apply keeps_bind; [| intros ?]
    | apply keeps_if
    | match goal with
      | |- keeps_frame (match ?x with _ => _ end) => destruct x
      end ].

Lemma keeps_client_destroy (h : Z) : keeps_frame (client_destroy h).
Proof. unfold client_destroy, client_destroy_calling. keeps. Qed.

Section FrameProperties.

Variable GRACHT_AIO_EVENT_IN : Z.
Variable GRACHT_AIO_EVENT_DISCONNECT : Z.
Variable GRACHT_MESSAGE_HEADER_SIZE : Z.
Variable GRACHT_MESSAGE_BLOCK : Z.
Variable link : server_link_ops.
Variable rt : runtime.
Hypothesis Hactions : actions_keep_frame rt.

Lemma keeps_run (fn : Z) (ctx : gracht_recv_message) (buffer : gracht_buffer) :
  keeps_frame (run (action rt fn ctx buffer)).
Proof.
  intros w a w'. unfold run.
  destruct (action rt fn ctx buffer w) as [w1 | |] eqn:E; [| done | done].
  intros [= _ <-]. by apply (Hactions _ _ _ _ _ E).
Qed.

Local Hint Resolve keeps_run : frame.

Lemma keeps_server_invoke_action (m : gracht_recv_message) :
  keeps_frame (server_invoke_action GRACHT_MESSAGE_HEADER_SIZE rt m).
Proof. unfold server_invoke_action. keeps. Qed.

Local Hint Resolve keeps_server_invoke_action : frame.

Lemma keeps_dispatch (o : server_operations) (p : Z) (m : gracht_recv_message) :
  keeps_frame (dispatch GRACHT_MESSAGE_HEADER_SIZE rt o p m).
Proof.
  destruct o; cbn [dispatch]; unfold dispatch_st, dispatch_mt; keeps.
Qed.

Lemma keeps_get_incoming_buffer (o : server_operations) :
  keeps_frame (get_incoming_buffer rt o).
Proof.
  destruct o; cbn [get_incoming_buffer];
    unfold get_in_buffer_st, get_in_buffer_mt; keeps.
Qed.

Lemma keeps_put_message (o : server_operations) (p : Z) :
  keeps_frame (put_message o p).
Proof.
  destruct o; cbn [put_message]; unfold put_message_st, put_message_mt; keeps.
Qed.

Lemma keeps_server_ops : keeps_frame server_ops.
Proof. unfold server_ops. keeps. Qed.

Lemma keeps_handle_client_socket : keeps_frame (handle_client_socket link rt).
Proof. unfold handle_client_socket. keeps. Qed.

Lemma keeps_handle_sync_event (fuel : nat) :
  keeps_frame (handle_sync_event GRACHT_MESSAGE_HEADER_SIZE link rt fuel).
Proof.
  induction fuel as [| n IH]; cbn [handle_sync_event]; [apply keeps_out_of_fuel |].
  apply keeps_bind; [apply keeps_server_ops | intros o].
  apply keeps_bind; [apply keeps_get_incoming_buffer | intros p].
  apply keeps_bind; [apply keeps_call | intros r].
  apply keeps_if.
  - apply keeps_bind; [apply keeps_put_message | intros _; apply keeps_ret].
  - apply keeps_bind; [apply keeps_dispatch | intros _; apply IH].
Qed.

Lemma keeps_drain_turn (h : Z) :
  keeps_frame (drain_turn GRACHT_MESSAGE_HEADER_SIZE link rt h).
Proof.
  unfold drain_turn.
  apply keeps_bind; [apply keeps_server_ops | intros o].
  apply keeps_bind; [apply keeps_get_incoming_buffer | intros p].
  apply keeps_bind; [apply keeps_hashtable_get_client | intros [e |]];
    [| apply keeps_crash].
  apply keeps_bind; [apply keeps_call | intros r].
  apply keeps_if.
  - apply keeps_bind; [apply keeps_put_message | intros _; apply keeps_ret].
  - apply keeps_bind; [apply keeps_dispatch | intros _; apply keeps_ret].
Qed.

Lemma keeps_drain_client (fuel : nat) (h : Z) :
  keeps_frame (drain_client GRACHT_MESSAGE_HEADER_SIZE link rt fuel h).
Proof.
  induction fuel as [| n IH]; cbn [drain_client]; [apply keeps_out_of_fuel |].
  apply keeps_bind; [apply keeps_drain_turn | intros []]; [apply IH | apply keeps_ret].
Qed.

Lemma keeps_handle_async_event (fuel : nat) (h events : Z) :
  keeps_frame (handle_async_event GRACHT_AIO_EVENT_IN GRACHT_AIO_EVENT_DISCONNECT
                 GRACHT_MESSAGE_HEADER_SIZE link rt fuel h events).
Proof.
  unfold handle_async_event.
  apply keeps_bind; [| intros _; apply keeps_ret].
  apply keeps_if; [| apply keeps_if; [| apply keeps_ret]].
  - apply keeps_bind; [apply keeps_get_server | intros s].
    apply keeps_bind; [apply keeps_call | intros _; apply keeps_client_destroy].
  - apply keeps_bind; [apply keeps_hashtable_get_client | intros [e |]].
    + apply keeps_drain_client.
    + apply keeps_ret.
Qed.

Lemma keeps_handle_event (fuel : nat) (h events : Z) :
  keeps_frame (gracht_server_handle_event GRACHT_AIO_EVENT_IN
                 GRACHT_AIO_EVENT_DISCONNECT GRACHT_MESSAGE_HEADER_SIZE
                 link rt fuel h events).
Proof.
  unfold gracht_server_handle_event.
  apply keeps_bind; [apply keeps_get_server | intros s].
  apply keeps_if; [apply keeps_handle_client_socket |].
  apply keeps_if; [apply keeps_handle_sync_event | apply keeps_handle_async_event].
Qed.

Lemma frame_fields (s s' : gracht_server) :
  frame s' = frame s ->
  initialized s' = initialized s /\ ops s' = ops s /\
  protocols s' = protocols s /\ callbacks s' = callbacks s /\
  listen_handle s' = listen_handle s /\ dgram_handle s' = dgram_handle s /\
  set_handle s' = set_handle s /\
  sendBuffer s' = sendBuffer s /\ recvBuffer s' = recvBuffer s /\
  arena s' = arena s /\ worker_pool s' = worker_pool s /\
  allocationSize s' = allocationSize s.
Proof.
  intros H.
  repeat split;
    [ apply (f_equal initialized) in H | apply (f_equal ops) in H
    | apply (f_equal protocols) in H | apply (f_equal callbacks) in H
    | apply (f_equal listen_handle) in H | apply (f_equal dgram_handle) in H
    | apply (f_equal set_handle) in H
    | apply (f_equal sendBuffer) in H | apply (f_equal recvBuffer) in H
    | apply (f_equal arena) in H | apply (f_equal worker_pool) in H
    | apply (f_equal allocationSize) in H ]; exact H.
Qed.



End FrameProperties.

(** ** Shutdown and the main loop *)

Section ShutdownProperties.

Variable GRACHT_HANDLE_INVALID : Z.
Variable GRACHT_AIO_EVENT_IN : Z.
Variable GRACHT_AIO_EVENT_DISCONNECT : Z.
Variable GRACHT_MESSAGE_HEADER_SIZE : Z.
Variable link : server_link_ops.
Variable rt : runtime.
Variable gracht_io_wait : list event -> Z -> list (Z * Z).

Local Abbreviation shutdown := (gracht_server_shutdown GRACHT_HANDLE_INVALID).
Local Abbreviation main_loop :=
  (gracht_server_main_loop GRACHT_HANDLE_INVALID GRACHT_AIO_EVENT_IN
     GRACHT_AIO_EVENT_DISCONNECT GRACHT_MESSAGE_HEADER_SIZE link rt gracht_io_wait).

Lemma enumerate_destroy (l : list client_wrapper) (w : world) :
  enumerate client_enum_destroy l w =
    Ok (tt, mk_world (g_grachtServer w) (errno w)
              (trace w ++ map (fun e => EvLinkDestroyClient (wrapper_client e)) l)).
Proof.
  revert w. induction l as [| e l IH]; intros w; cbn [enumerate map].
  - unfold ret. rewrite app_nil_r. by destruct w.
  - unfold bind, client_enum_destroy, notify. rewrite IH. cbn.
    by rewrite <- app_assoc.
Qed.

Lemma shutdown_uninitialized (w : world) :
  initialized (g_grachtServer w) = 0 ->
  shutdown w = Ok ((-1, []), mk_world (g_grachtServer w) ENOTSUP (trace w)).
Proof.
  intros Hi. unfold gracht_server_shutdown.
  unfold bind at 1. unfold get_server at 1. by rewrite Hi.
Qed.

(** X16: [gracht_server_shutdown] on a server that is not initialised fails
    with ENOTSUP and releases nothing.  On an initialised server it hands
    every registered client to the link's [destroy_client], once each and
    without calling [clientDisconnected], empties both registries, destroys
    the readiness handle exactly when it is valid and the caller did not
    provide it, destroys the link last, clears [initialized] and returns 0;
    a second shutdown then fails with ENOTSUP and releases nothing again. *)
Theorem shutdown_releases_once (w : world) :
  let s := g_grachtServer w in
  (initialized s = 0 ->
     shutdown w = Ok ((-1, []), mk_world s ENOTSUP (trace w))) /\
  (initialized s <> 0 ->
     exists calls w1,
       shutdown w = Ok ((0, calls), w1) /\
       trace w1 =
         trace w ++ map (fun e => EvLinkDestroyClient (wrapper_client e))
                        (hashtable_elements (clients s)) /\
       initialized (g_grachtServer w1) = 0 /\
       clients (g_grachtServer w1) = ∅ /\
       protocols (g_grachtServer w1) = ∅ /\
       last calls = Some TdLinkDestroy /\
       (TdAioDestroy (set_handle s) ∈ calls <->
          set_handle s <> GRACHT_HANDLE_INVALID /\ set_handle_provided s = 0) /\
       shutdown w1 =
         Ok ((-1, []), mk_world (g_grachtServer w1) ENOTSUP (trace w1))).
Proof.
  cbn zeta. split; [apply shutdown_uninitialized |].
  intros Hi. apply Z.eqb_neq in Hi.
  unfold gracht_server_shutdown at 1.
  unfold bind at 1. unfold get_server at 1. rewrite Hi.
  unfold bind at 1. unfold hashtable_enumerate_clients.
  unfold bind at 1. unfold get_server at 1.
  rewrite enumerate_destroy. unfold modify_server, bind, get_server, put_server, ret.
  cbn [g_grachtServer errno trace].
  eexists. eexists. split; [reflexivity |].
  cbn [g_grachtServer errno trace initialized clients protocols
       with_initialized with_clients with_protocols].
  do 4 (split; [reflexivity |]).
  split; [by rewrite !app_assoc, last_snoc |].
  split; [| by apply shutdown_uninitialized].
  rewrite !elem_of_app.
  destruct (Z.eqb_spec (set_handle (g_grachtServer w)) GRACHT_HANDLE_INVALID) as [Hs | Hs];
    destruct (Z.eqb_spec (set_handle_provided (g_grachtServer w)) 0) as [Hp | Hp];
    cbn [negb andb];
    destruct (worker_pool (g_grachtServer w) =? 0);
    destruct (arena (g_grachtServer w) =? 0);
    destruct (sendBuffer (g_grachtServer w) =? 0);
    destruct (recvBuffer (g_grachtServer w) =? 0);
    cbn [negb]; rewrite ?elem_of_cons, ?elem_of_nil;
    intuition (discriminate || congruence).
Qed.

Lemma keeps_handle_events (fuel : nat) (events : list (Z * Z)) :
  actions_keep_frame rt ->
  keeps_frame (handle_events GRACHT_AIO_EVENT_IN GRACHT_AIO_EVENT_DISCONNECT
                 GRACHT_MESSAGE_HEADER_SIZE link rt fuel events).
Proof.
  intros Hactions. induction events as [| [h flags] rest IH]; cbn [handle_events].
  - apply keeps_ret.
  - apply keeps_bind; [by apply keeps_handle_event | intros _; apply IH].
Qed.

(** [gracht_server_main_loop] on a server that is not initialised does
    not wait for events: it goes straight to the shutdown, which fails with
    ENOTSUP, and that result is returned with nothing released. *)
Lemma main_loop_uninitialized (rounds fuel : nat) (w : world)
    (Hidle : initialized (g_grachtServer w) = 0) :
  main_loop (S rounds) fuel w =
    Ok ((-1, []), mk_world (g_grachtServer w) ENOTSUP (trace w)).
Proof.
  cbn [gracht_server_main_loop]. unfold bind at 1. unfold get_server at 1.
  rewrite Hidle. cbn [Z.eqb negb]. by apply shutdown_uninitialized.
Qed.

(** X17: while [initialized] is set the main loop does not return: no
    number of waits and no bound on the drain loops makes it yield a result,
    as long as the protocol actions change nothing of the server but the
    client registry.  Nothing the event handling does clears the flag. *)
Theorem main_loop_runs_while_initialized (rounds fuel : nat) (w : world)
    (Hactions : actions_keep_frame rt)
    (Hrunning : initialized (g_grachtServer w) <> 0) :
  forall result w', main_loop rounds fuel w <> Ok (result, w').
Proof.
  revert w Hrunning. induction rounds as [| n IH]; intros w Hrunning result w'.
  - done.
  - cbn [gracht_server_main_loop]. unfold bind at 1. unfold get_server at 1.
    pose proof Hrunning as Hi. apply Z.eqb_neq in Hi. rewrite Hi. cbn [negb].
    unfold bind at 1. unfold bind at 1.
    destruct (handle_events _ _ _ _ _ fuel _ w) as [[[] w1] | |] eqn:E;
      [| done | done].
    apply IH.
    apply (keeps_handle_events fuel _ Hactions) in E.
    apply frame_fields in E as [-> _]. exact Hrunning.
Qed.

End ShutdownProperties.


Lemma shutdown_releases_once_witness :
  initialized (g_grachtServer (Cases.running_mt Scenario.three_clients)) <> 0 /\
  initialized (g_grachtServer Scenario.fresh) = 0 /\
  gracht_server_shutdown Scenario.GRACHT_HANDLE_INVALID Scenario.fresh =
    Ok ((-1, []), mk_world (g_grachtServer Scenario.fresh) ENOTSUP []) /\
  exists w1,
    gracht_server_shutdown Scenario.GRACHT_HANDLE_INVALID
        (Cases.running_mt Scenario.three_clients) =
      Ok ((0, [TdAioDestroy 4; TdWorkerPoolDestroy 4096; TdArenaDestroy 12288;
               TdLinkDestroy]), w1) /\
    trace w1 =
      [EvLinkDestroyClient (wrapper_client Scenario.client_21);
       EvLinkDestroyClient (wrapper_client Scenario.client_22);
       EvLinkDestroyClient (wrapper_client Scenario.client_20)] /\
    initialized (g_grachtServer w1) = 0.
Proof.
  assert (initialized (g_grachtServer (Cases.running_mt Scenario.three_clients)) <> 0)
    as Hrunning by (vm_compute; discriminate).
  assert (initialized (g_grachtServer Scenario.fresh) = 0) as Hfresh by reflexivity.
  do 2 (split; [assumption |]). split.
  - exact (proj1 (shutdown_releases_once Scenario.GRACHT_HANDLE_INVALID
                    Scenario.fresh) Hfresh).
  - destruct (proj2 (shutdown_releases_once Scenario.GRACHT_HANDLE_INVALID
                       (Cases.running_mt Scenario.three_clients)) Hrunning)
      as (calls & w1 & Hrun & Htrace & Hinit & _).
    exists w1. split; [| split; [| exact Hinit]].
    + rewrite Hrun. vm_compute in Hrun. injection Hrun as <- _. reflexivity.
    + rewrite Htrace. vm_compute. reflexivity.
Defined.

Lemma main_loop_uninitialized_witness :
  initialized (g_grachtServer Scenario.fresh) = 0 /\
  gracht_server_main_loop Scenario.GRACHT_HANDLE_INVALID Scenario.GRACHT_AIO_EVENT_IN
      Scenario.GRACHT_AIO_EVENT_DISCONNECT Scenario.GRACHT_MESSAGE_HEADER_SIZE
      Scenario.quiet_link Scenario.quiet_runtime (fun _ _ => [(10, 1)]) 1 1
      Scenario.fresh =
    Ok ((-1, []), mk_world (g_grachtServer Scenario.fresh) ENOTSUP []).
Proof.
  assert (initialized (g_grachtServer Scenario.fresh) = 0) as Hfresh by reflexivity.
  split; [exact Hfresh |].
  exact (main_loop_uninitialized Scenario.GRACHT_HANDLE_INVALID
           Scenario.GRACHT_AIO_EVENT_IN Scenario.GRACHT_AIO_EVENT_DISCONNECT
           Scenario.GRACHT_MESSAGE_HEADER_SIZE Scenario.quiet_link
           Scenario.quiet_runtime (fun _ _ => [(10, 1)]) 0 1 Scenario.fresh Hfresh).
Defined.

Lemma main_loop_runs_while_initialized_witness :
  actions_keep_frame Scenario.quiet_runtime /\
  initialized (g_grachtServer (Scenario.running ∅)) <> 0 /\
  forall result w',
    gracht_server_main_loop Scenario.GRACHT_HANDLE_INVALID Scenario.GRACHT_AIO_EVENT_IN
        Scenario.GRACHT_AIO_EVENT_DISCONNECT Scenario.GRACHT_MESSAGE_HEADER_SIZE
        Scenario.quiet_link Scenario.quiet_runtime (fun _ _ => [(30, 1)]) 3 1
        (Scenario.running ∅) <> Ok (result, w').
Proof.
  assert (actions_keep_frame Scenario.quiet_runtime) as Hactions
    by (intros fn ctx buf w w' [= <-]; reflexivity).
  assert (initialized (g_grachtServer (Scenario.running ∅)) <> 0) as Hrunning
    by (vm_compute; discriminate).
  do 2 (split; [assumption |]).
  exact (main_loop_runs_while_initialized Scenario.GRACHT_HANDLE_INVALID
           Scenario.GRACHT_AIO_EVENT_IN Scenario.GRACHT_AIO_EVENT_DISCONNECT
           Scenario.GRACHT_MESSAGE_HEADER_SIZE Scenario.quiet_link
           Scenario.quiet_runtime (fun _ _ => [(30, 1)]) 3 1 (Scenario.running ∅)
           Hactions Hrunning).
Defined.

(** ** The state after initialisation *)

Section InitState.

Variable GRACHT_CONN_INVALID : Z.
Variable GRACHT_HANDLE_INVALID : Z.
Variable LINK_LISTEN_SOCKET : Z.
Variable LINK_LISTEN_DGRAM : Z.
Variable gracht_control_server_protocol : gracht_protocol.
Variable link : server_link_ops.
Variable rt : runtime.

Local Abbreviation links :=
  (create_links GRACHT_CONN_INVALID LINK_LISTEN_SOCKET LINK_LISTEN_DGRAM link rt).
Local Abbreviation configure :=
  (configure_server GRACHT_HANDLE_INVALID rt).
Local Abbreviation initialize :=
  (gracht_server_initialize GRACHT_CONN_INVALID GRACHT_HANDLE_INVALID
     LINK_LISTEN_SOCKET LINK_LISTEN_DGRAM gracht_control_server_protocol link rt).

Ltac split_ifs :=
  repeat match goal with
         | |- context [if ?c then _ else _] => destruct c eqn:?; cbn
         end.

Ltac eqb_facts :=
  repeat match goal with
         | H : (_ =? _) = false |- _ => apply Z.eqb_neq in H
         | H : (_ =? _) = true |- _ => apply Z.eqb_eq in H
         | H : (_ <? _) = false |- _ => apply Z.ltb_ge in H
         | H : (_ <? _) = true |- _ => apply Z.ltb_lt in H
         end.

Lemma configure_server_success (cfg : gracht_server_configuration) (w w1 : world) :
  configure cfg w = Ok (0, w1) ->
  let s := g_grachtServer w in
  let s1 := g_grachtServer w1 in
  ops s1 = Some (if 1 <? server_workers cfg then g_mtOperations else g_stOperations) /\
  allocationSize s1 = max_message_size cfg + 512 /\
  callbacks s1 = cfg_callbacks cfg /\
  (server_workers cfg <= 1 -> sendBuffer s1 <> 0 /\ recvBuffer s1 <> 0) /\
  clients s1 = clients s /\ protocols s1 = protocols s /\
  initialized s1 = initialized s.
Proof.
  unfold configure_server. run_monad. split_ifs; intros [= <-]; cbn;
    eqb_facts; repeat split; try done; try lia.
Qed.

Lemma create_links_success (w1 w2 : world) :
  links w1 = Ok (0, w2) ->
  let s1 := g_grachtServer w1 in
  let s2 := g_grachtServer w2 in
  (listen_handle s2 <> GRACHT_CONN_INVALID \/ dgram_handle s2 <> GRACHT_CONN_INVALID) /\
  ops s2 = ops s1 /\ allocationSize s2 = allocationSize s1 /\
  callbacks s2 = callbacks s1 /\
  sendBuffer s2 = sendBuffer s1 /\ recvBuffer s2 = recvBuffer s1.
Proof.
  unfold create_links. run_monad. split_ifs; intros [= <-]; cbn;
    eqb_facts; repeat split; try done; try (right; done); try (left; done).
  all: repeat match goal with
              | H : (_ && _) = false |- _ => apply andb_false_iff in H as [H | H]
              end;
       eqb_facts; try done; try (by left); try (by right).
Qed.

Lemma configure_server_registries (cfg : gracht_server_configuration)
    (w w1 : world) (status : Z) :
  configure cfg w = Ok (status, w1) ->
  (status = 0 \/ status = -1) /\
  clients (g_grachtServer w1) = clients (g_grachtServer w) /\
  protocols (g_grachtServer w1) = protocols (g_grachtServer w) /\
  initialized (g_grachtServer w1) = initialized (g_grachtServer w).
Proof.
  unfold configure_server. run_monad. split_ifs; intros [= <- <-]; cbn;
    repeat split; try done; auto.
Qed.

Lemma create_links_registries (w1 w2 : world) (status : Z) :
  links w1 = Ok (status, w2) ->
  (status = 0 \/ status = -1) /\
  clients (g_grachtServer w2) = clients (g_grachtServer w1) /\
  protocols (g_grachtServer w2) = protocols (g_grachtServer w1) /\
  initialized (g_grachtServer w2) = initialized (g_grachtServer w1).
Proof.
  unfold create_links. run_monad. split_ifs; intros [= <- <-]; cbn;
    repeat split; try done; auto.
Qed.

(** X18: when [gracht_server_initialize] returns 0 the server is ready for
    the event loop: the operations table is installed (single-threaded for a
    worker count of at most 1, multi-threaded above), the allocation size is
    the maximum message size plus 512, the callbacks are the configured
    ones, at least one of the two endpoint handles is valid, the client
    registry is empty and the protocol registry holds the control protocol
    and nothing else, whatever was registered before the call; in
    single-threaded mode both static buffers are allocated. *)
Theorem initialize_success_state (cfg : gracht_server_configuration)
    (w w' : world)
    (Hrun : initialize (Some cfg) w = Ok (0, w')) :
  let s' := g_grachtServer w' in
  initialized s' = 1 /\
  clients s' = ∅ /\
  protocols s' =
    {[protocol_id gracht_control_server_protocol := gracht_control_server_protocol]} /\
  ops s' = Some (if 1 <? server_workers cfg then g_mtOperations else g_stOperations) /\
  allocationSize s' = max_message_size cfg + 512 /\
  callbacks s' = cfg_callbacks cfg /\
  (listen_handle s' <> GRACHT_CONN_INVALID \/ dgram_handle s' <> GRACHT_CONN_INVALID) /\
  (server_workers cfg <= 1 -> sendBuffer s' <> 0 /\ recvBuffer s' <> 0).
Proof.
  revert Hrun. unfold gracht_server_initialize.
  unfold bind at 1. unfold get_server at 1.
  destruct (initialized (g_grachtServer w) =? 0); cbn [negb];
    [| run_monad; by intros [=]].
  unfold bind at 1.
  destruct (configure cfg w) as [[st w1] | |] eqn:Hc; [| done | done].
  destruct (Z.eqb_spec st 0) as [-> | _]; cbn [negb]; [| unfold ret; by intros [=]].
  unfold bind at 1.
  destruct (links w1) as [[st2 w2] | |] eqn:Hl; [| done | done].
  destruct (Z.eqb_spec st2 0) as [-> | _]; cbn [negb]; [| unfold ret; by intros [=]].
  run_monad. intros [= <-]. cbn.
  destruct (configure_server_success cfg w w1 Hc) as (Ho & Ha & Hcb & Hb & _).
  destruct (create_links_success w1 w2 Hl) as (Hh & Ho2 & Ha2 & Hcb2 & Hs2 & Hr2).
  rewrite Ho2, Ha2, Hcb2, Hs2, Hr2.
  do 2 (split; [done |]). split; [by rewrite insert_empty |].
  do 3 (split; [done |]). split; done.
Qed.

(** X19: every failure of [gracht_server_initialize] on a server that is not
    initialised returns -1 and leaves it not initialised, with both
    registries as they were, so that the call can be repeated. *)
Theorem initialize_failure_keeps_uninitialised
    (configuration : option gracht_server_configuration) (w w' : world) (status : Z)
    (Hidle : initialized (g_grachtServer w) = 0)
    (Hrun : initialize configuration w = Ok (status, w'))
    (Hfailed : status <> 0) :
  status = -1 /\
  initialized (g_grachtServer w') = 0 /\
  clients (g_grachtServer w') = clients (g_grachtServer w) /\
  protocols (g_grachtServer w') = protocols (g_grachtServer w).
Proof.
  revert Hrun. unfold gracht_server_initialize.
  unfold bind at 1. unfold get_server at 1. rewrite Hidle. cbn [Z.eqb negb].
  destruct configuration as [cfg |]; [| run_monad; by intros [= <- <-]].
  unfold bind at 1.
  destruct (configure cfg w) as [[st w1] | |] eqn:Hc; [| done | done].
  destruct (configure_server_registries cfg w w1 st Hc) as (_ & Hc1 & Hp1 & Hi1).
  destruct (Z.eqb_spec st 0) as [-> | _]; cbn [negb].
  2: { unfold ret. intros [= <- <-]. rewrite Hc1, Hp1, Hi1. by repeat split. }
  unfold bind at 1.
  destruct (links w1) as [[st2 w2] | |] eqn:Hl; [| done | done].
  destruct (create_links_registries w1 w2 st2 Hl) as (_ & Hc2 & Hp2 & Hi2).
  destruct (Z.eqb_spec st2 0) as [-> | _]; cbn [negb].
  2: { unfold ret. intros [= <- <-]. rewrite Hc2, Hp2, Hi2, Hc1, Hp1, Hi1.
       by repeat split. }
  run_monad. intros [= <- <-]. done.
Qed.

End InitState.

Lemma initialize_success_state_witness :
  exists w',
    gracht_server_initialize Scenario.GRACHT_CONN_INVALID Scenario.GRACHT_HANDLE_INVALID
        Scenario.LINK_LISTEN_SOCKET Scenario.LINK_LISTEN_DGRAM Scenario.control_protocol
        Scenario.link_datagram_only Scenario.quiet_runtime (Some Scenario.configuration)
        Scenario.fresh = Ok (0, w') /\
    ops (g_grachtServer w') = Some g_stOperations /\
    allocationSize (g_grachtServer w') = 1536 /\
    clients (g_grachtServer w') = ∅ /\
    protocols (g_grachtServer w') = {[0 := Scenario.control_protocol]}.
Proof.
  assert ({w' | gracht_server_initialize Scenario.GRACHT_CONN_INVALID
                  Scenario.GRACHT_HANDLE_INVALID Scenario.LINK_LISTEN_SOCKET
                  Scenario.LINK_LISTEN_DGRAM Scenario.control_protocol
                  Scenario.link_datagram_only Scenario.quiet_runtime
                  (Some Scenario.configuration) Scenario.fresh = Ok (0, w')})
    as [w' Hrun] by (eexists; vm_compute; reflexivity).
  exists w'. split; [exact Hrun |].
  destruct (initialize_success_state Scenario.GRACHT_CONN_INVALID
              Scenario.GRACHT_HANDLE_INVALID Scenario.LINK_LISTEN_SOCKET
              Scenario.LINK_LISTEN_DGRAM Scenario.control_protocol
              Scenario.link_datagram_only Scenario.quiet_runtime
              Scenario.configuration Scenario.fresh w' Hrun)
    as (_ & Hclients & Hprotocols & Hops & Hsize & _).
  split; [exact Hops |]. split; [exact Hsize |].
  split; [exact Hclients | exact Hprotocols].
Defined.

Lemma initialize_failure_keeps_uninitialised_witness :
  initialized (g_grachtServer Scenario.fresh) = 0 /\
  exists w',
    gracht_server_initialize Scenario.GRACHT_CONN_INVALID Scenario.GRACHT_HANDLE_INVALID
        Scenario.LINK_LISTEN_SOCKET Scenario.LINK_LISTEN_DGRAM Scenario.control_protocol
        Scenario.link_without_endpoints Scenario.quiet_runtime
        (Some Scenario.configuration) Scenario.fresh = Ok (-1, w') /\
    initialized (g_grachtServer w') = 0 /\
    protocols (g_grachtServer w') = ∅.
Proof.
  assert (initialized (g_grachtServer Scenario.fresh) = 0) as Hidle by reflexivity.
  split; [exact Hidle |].
  assert ({w' | gracht_server_initialize Scenario.GRACHT_CONN_INVALID
                  Scenario.GRACHT_HANDLE_INVALID Scenario.LINK_LISTEN_SOCKET
                  Scenario.LINK_LISTEN_DGRAM Scenario.control_protocol
                  Scenario.link_without_endpoints Scenario.quiet_runtime
                  (Some Scenario.configuration) Scenario.fresh = Ok (-1, w')})
    as [w' Hrun] by (eexists; vm_compute; reflexivity).
  exists w'. split; [exact Hrun |].
  assert (-1 <> 0) as Hfailed by discriminate.
  destruct (initialize_failure_keeps_uninitialised Scenario.GRACHT_CONN_INVALID
              Scenario.GRACHT_HANDLE_INVALID Scenario.LINK_LISTEN_SOCKET
              Scenario.LINK_LISTEN_DGRAM Scenario.control_protocol
              Scenario.link_without_endpoints Scenario.quiet_runtime
              (Some Scenario.configuration) Scenario.fresh w' (-1)
              Hidle Hrun Hfailed)
    as (_ & Hinit & _ & Hprotocols).
  split; [exact Hinit | exact Hprotocols].
Defined.

(** ** The client socket link: receive and send *)

Section ClientLinkProperties.

Variable GRACHT_MAX_MESSAGE_SIZE : Z.
Variable GRACHT_WAIT_BLOCK : Z.
Variable sizeof_gracht_message : Z.
Variable sizeof_gracht_param : Z.
Variable k : SocketClient.kernel.

Local Abbreviation client_recv :=
  (SocketClient.socket_link_recv GRACHT_MAX_MESSAGE_SIZE GRACHT_WAIT_BLOCK
     sizeof_gracht_message k).
Local Abbreviation client_send :=
  (SocketClient.socket_link_send GRACHT_MAX_MESSAGE_SIZE sizeof_gracht_message
     sizeof_gracht_param k).
Local Abbreviation header_entry message :=
  (SocketClient.IoMessage
     (sizeof_gracht_message
      + (SocketClient.h_param_in (SocketClient.header message)
         + SocketClient.h_param_out (SocketClient.header message))
        * sizeof_gracht_param)).

Ltac run_proc :=
  unfold bind, ret, crash, SocketClient.set_errno, SocketClient.sys; cbn.

(** X20: [socket_link_recv] always returns, with 0 and a message or with -1
    and none.  After a failure [errno] is ENODATA, EPIPE or ENOTSUP: what
    the kernel left there, such as EAGAIN of a receive that would block, is
    overwritten. *)
Theorem receive_failure_hides_kernel_errno
    (linkManager : SocketClient.socket_link_manager) (flags : Z)
    (p : SocketClient.process) :
  exists status out p',
    client_recv linkManager flags p = Ok ((status, out), p') /\
    ((status = 0 /\ is_Some out) \/
     (status = -1 /\ out = None /\
      (SocketClient.p_errno p' = ENODATA \/ SocketClient.p_errno p' = EPIPE \/
       SocketClient.p_errno p' = ENOTSUP))).
Proof.
  unfold SocketClient.socket_link_recv.
  destruct (SocketClient.type (SocketClient.config linkManager)).
  - unfold SocketClient.socket_link_recv_stream. run_proc.
    repeat match goal with
           | |- context [if ?c then _ else _] => destruct c; cbn
           end;
      do 3 eexists; (split; [reflexivity |]); cbn; eauto 6.
  - unfold SocketClient.socket_link_recv_packet. run_proc.
    repeat match goal with
           | |- context [if ?c then _ else _] => destruct c; cbn
           end;
      do 3 eexists; (split; [reflexivity |]); cbn; eauto 6.
  - run_proc. do 3 eexists. split; [reflexivity |]. cbn. eauto 6.
Qed.

(** X21: on a stream link, once a complete header has been read, a message
    without in-parameters is delivered at once.  One with in-parameters
    needs a second [recv] for the length field minus the header size, whose
    flags are MSG_WAITALL alone, also when the caller asked for a receive
    that does not block; the message is delivered exactly when that read
    returns the count asked for, and EPIPE is reported otherwise.  A length
    field below the header size wraps around to a request of more than
    2^63 bytes. *)
Theorem stream_payload_read_blocks
    (linkManager : SocketClient.socket_link_manager) (flags : Z)
    (p : SocketClient.process)
    (Hstream : SocketClient.type (SocketClient.config linkManager)
               = SocketClient.gracht_link_stream_based)
    (Hsize : 0 <= sizeof_gracht_message < 2 ^ 63)
    (Hheader : r_ret (SocketClient.recv k (SocketClient.p_calls p)
                        (SocketClient.iod linkManager) sizeof_gracht_message
                        (converted_flags GRACHT_WAIT_BLOCK flags))
               = sizeof_gracht_message) :
  let fd := SocketClient.iod linkManager in
  let cf := converted_flags GRACHT_WAIT_BLOCK flags in
  let first := SocketClient.SysRecv fd sizeof_gracht_message cf in
  let r1 := SocketClient.recv k (SocketClient.p_calls p) fd sizeof_gracht_message cf in
  let message := r_out r1 in
  let rest :=
    SocketClient.size_t
      (SocketClient.h_length (SocketClient.header message) - sizeof_gracht_message) in
  let second := SocketClient.SysRecv fd rest SocketClient.MSG_WAITALL in
  let r2 := SocketClient.recv k (SocketClient.p_calls p ++ [first]) fd rest
              SocketClient.MSG_WAITALL in
  let e1 := default (SocketClient.p_errno p) (r_errno r1) in
  client_recv linkManager flags p =
    (if SocketClient.h_param_in (SocketClient.header message) =? 0 then
       Ok ((0, Some message),
           SocketClient.mk_process e1 (SocketClient.p_calls p ++ [first]))
     else if SocketClient.size_t (r_ret r2) =? rest then
       Ok ((0, Some message),
           SocketClient.mk_process (default e1 (r_errno r2))
             (SocketClient.p_calls p ++ [first; second]))
     else
       Ok ((-1, None),
           SocketClient.mk_process EPIPE
             (SocketClient.p_calls p ++ [first; second]))) /\
  Z.land SocketClient.MSG_WAITALL SocketClient.MSG_DONTWAIT = 0 /\
  (0 <= SocketClient.h_length (SocketClient.header message) < sizeof_gracht_message ->
   2 ^ 63 < rest).
Proof.
  cbn zeta. split; [| split; [reflexivity |]].
  - unfold SocketClient.socket_link_recv. rewrite Hstream.
    fold (converted_flags GRACHT_WAIT_BLOCK flags).
    unfold SocketClient.socket_link_recv_stream. run_proc.
    rewrite Hheader, Z.eqb_refl. cbn.
    destruct (SocketClient.h_param_in _ =? 0); cbn; [reflexivity |].
    rewrite <- !app_assoc. cbn.
    match goal with
    | |- context [if negb ?c then _ else _] => destruct c
    end; reflexivity.
  - intros Hlen. unfold SocketClient.size_t.
    rewrite <- (Z_mod_plus_full _ 1 (2 ^ 64)).
    rewrite Z.mod_small; lia.
Qed.

(** X22: on a packet link the count [recvmsg] returns is compared with the
    header size as an unsigned number.  A count of 0 fails with ENODATA and
    a count below the header size with EPIPE, but a [recvmsg] that failed,
    returning a negative count, is taken for a datagram: the receive returns
    0, hands out the buffer and leaves [errno] as the kernel set it. *)
Theorem packet_receive_classification
    (linkManager : SocketClient.socket_link_manager) (flags : Z)
    (p : SocketClient.process)
    (Hpacket : SocketClient.type (SocketClient.config linkManager)
               = SocketClient.gracht_link_packet_based)
    (Hsize : 0 < sizeof_gracht_message < 2 ^ 63)
    (Hret : - 2 ^ 63 <=
            r_ret (SocketClient.recvmsg k (SocketClient.p_calls p)
                     (SocketClient.iod linkManager)
                     [SocketClient.IoMessage GRACHT_MAX_MESSAGE_SIZE]
                     (converted_flags GRACHT_WAIT_BLOCK flags)) < 2 ^ 63) :
  let fd := SocketClient.iod linkManager in
  let cf := converted_flags GRACHT_WAIT_BLOCK flags in
  let iov := [SocketClient.IoMessage GRACHT_MAX_MESSAGE_SIZE] in
  let r := SocketClient.recvmsg k (SocketClient.p_calls p) fd iov cf in
  let calls :=
    SocketClient.p_calls p ++
    [SocketClient.SysRecvmsg fd
       (SocketClient.address_length (SocketClient.config linkManager)) iov cf] in
  client_recv linkManager flags p =
    if r_ret r =? 0 then
      Ok ((-1, None), SocketClient.mk_process ENODATA calls)
    else if (0 <? r_ret r) && (r_ret r <? sizeof_gracht_message) then
      Ok ((-1, None), SocketClient.mk_process EPIPE calls)
    else
      Ok ((0, Some (r_out r)),
          SocketClient.mk_process (default (SocketClient.p_errno p) (r_errno r)) calls).
Proof.
  cbn zeta. unfold SocketClient.socket_link_recv. rewrite Hpacket.
  fold (converted_flags GRACHT_WAIT_BLOCK flags).
  unfold SocketClient.socket_link_recv_packet. run_proc.
  set (r := SocketClient.recvmsg k _ _ _ _) in *.
  unfold SocketClient.size_t.
  rewrite (Z.mod_small sizeof_gracht_message) by lia.
  destruct (Z.eqb_spec (r_ret r) 0) as [-> | Hnz].
  { change (0 mod 2 ^ 64) with 0.
    destruct (Z.ltb_spec 0 sizeof_gracht_message); [reflexivity | lia]. }
  destruct (Z.ltb_spec 0 (r_ret r)) as [Hpos | Hneg]; cbn [andb].
  - rewrite (Z.mod_small (r_ret r)) by lia.
    destruct (Z.ltb_spec (r_ret r) sizeof_gracht_message); reflexivity.
  - assert (r_ret r mod 2 ^ 64 = r_ret r + 2 ^ 64) as ->.
    { rewrite <- (Z_mod_plus_full _ 1 (2 ^ 64)). rewrite Z.mod_small; lia. }
    destruct (Z.ltb_spec (r_ret r + 2 ^ 64) sizeof_gracht_message); [lia |].
    reflexivity.
Qed.

Lemma prepare_params_entries (message : SocketClient.gracht_message) (n i : nat)
    (iov : list SocketClient.iobuf) (p : SocketClient.process) :
  (i + n <= length (SocketClient.params message))%nat ->
  Forall (fun prm => is_shm_param prm = false)
    (take n (drop i (SocketClient.params message))) ->
  SocketClient.prepare_params message n i iov p =
    Ok (iov ++ buffer_entries (take n (drop i (SocketClient.params message))), p).
Proof.
  revert i iov. induction n as [| n IH]; intros i iov Hlen Hshm.
  - cbn. rewrite take_0. unfold buffer_entries. cbn. by rewrite app_nil_r.
  - cbn [SocketClient.prepare_params].
    destruct (SocketClient.params message !! i) as [prm |] eqn:Hprm.
    2: { apply lookup_ge_None in Hprm. lia. }
    rewrite (drop_S _ _ _ Hprm) in Hshm |- *. rewrite firstn_cons in Hshm |- *.
    apply Forall_cons in Hshm as [Hhead Htail].
    unfold is_shm_param in Hhead.
    destruct (SocketClient.p_type prm) eqn:Htype; try discriminate;
      rewrite IH by (done || lia); unfold buffer_entries.
    + rewrite filter_cons_False by (unfold is_buffer_param; rewrite Htype; done).
      reflexivity.
    + rewrite filter_cons_True by (unfold is_buffer_param; by rewrite Htype).
      cbn. by rewrite <- app_assoc.
Qed.

(** X23: on a packet link, a message within the size limit whose
    in-parameters are all there and none of them in shared memory is sent by
    one [sendmsg] with flags 0.  Its vector is the header entry followed by
    one entry for each buffer parameter among the in-parameters, in their
    order, with the address and the length of that parameter; a value
    parameter gets no entry.  The send is in progress exactly when the
    kernel took as many bytes as the length field says; a partial send is
    an error with EPIPE. *)
Theorem send_is_one_sendmsg
    (linkManager : SocketClient.socket_link_manager)
    (message : SocketClient.gracht_message) (p : SocketClient.process)
    (Hlength : SocketClient.h_length (SocketClient.header message)
               <= GRACHT_MAX_MESSAGE_SIZE)
    (Hpacket : SocketClient.type (SocketClient.config linkManager)
               = SocketClient.gracht_link_packet_based)
    (Hparams : (Z.to_nat (SocketClient.h_param_in (SocketClient.header message))
                <= length (SocketClient.params message))%nat)
    (Hshm : Forall (fun prm => is_shm_param prm = false)
              (take (Z.to_nat (SocketClient.h_param_in (SocketClient.header message)))
                 (SocketClient.params message))) :
  let fd := SocketClient.iod linkManager in
  let sent_params :=
    take (Z.to_nat (SocketClient.h_param_in (SocketClient.header message)))
      (SocketClient.params message) in
  let iov := header_entry message :: buffer_entries sent_params in
  let r := SocketClient.sendmsg k (SocketClient.p_calls p) fd iov 0 in
  let calls := SocketClient.p_calls p ++ [SocketClient.SysSendmsg fd iov 0] in
  client_send linkManager message p =
    if r_ret r =? SocketClient.h_length (SocketClient.header message) then
      Ok (SocketClient.GRACHT_MESSAGE_INPROGRESS,
          SocketClient.mk_process
            (default (SocketClient.p_errno p) (r_errno r)) calls)
    else
      Ok (SocketClient.GRACHT_MESSAGE_ERROR, SocketClient.mk_process EPIPE calls).
Proof.
  cbn zeta. unfold SocketClient.socket_link_send.
  destruct (Z.ltb_spec GRACHT_MAX_MESSAGE_SIZE
              (SocketClient.h_length (SocketClient.header message))); [lia |].
  rewrite Hpacket.
  unfold SocketClient.socket_link_send_packet. unfold bind at 1.
  rewrite prepare_params_entries by (rewrite ?drop_0; done || lia).
  rewrite drop_0. run_proc.
  match goal with
  | |- context [if negb ?c then _ else _] => destruct c
  end; reflexivity.
Qed.

(** Whenever [socket_link_send] reports an error, [errno] tells which
    of its three checks failed.  E2BIG: the length field exceeds the size
    limit; ENOTSUP: the link is neither stream nor packet based; in both
    cases no system call was made.  EPIPE: one [sendmsg] was made with
    flags 0 and took another number of bytes than the length field says. *)
Lemma send_error_names_the_failed_check
    (linkManager : SocketClient.socket_link_manager)
    (message : SocketClient.gracht_message) (p p' : SocketClient.process)
    (Herror : client_send linkManager message p
              = Ok (SocketClient.GRACHT_MESSAGE_ERROR, p')) :
  let length := SocketClient.h_length (SocketClient.header message) in
  let type := SocketClient.type (SocketClient.config linkManager) in
  let fd := SocketClient.iod linkManager in
  (GRACHT_MAX_MESSAGE_SIZE < length /\
   p' = SocketClient.mk_process E2BIG (SocketClient.p_calls p)) \/
  (length <= GRACHT_MAX_MESSAGE_SIZE /\ type = SocketClient.gracht_link_other /\
   p' = SocketClient.mk_process ENOTSUP (SocketClient.p_calls p)) \/
  (length <= GRACHT_MAX_MESSAGE_SIZE /\ type <> SocketClient.gracht_link_other /\
   exists iov,
     r_ret (SocketClient.sendmsg k (SocketClient.p_calls p) fd iov 0) <> length /\
     p' = SocketClient.mk_process EPIPE
            (SocketClient.p_calls p ++ [SocketClient.SysSendmsg fd iov 0])).
Proof.
  cbn zeta. revert Herror. unfold SocketClient.socket_link_send.
  destruct (Z.ltb_spec GRACHT_MAX_MESSAGE_SIZE
              (SocketClient.h_length (SocketClient.header message))) as [Hbig | Hfits].
  { run_proc. intros [= <-]. by left. }
  destruct (SocketClient.type (SocketClient.config linkManager)); intros Herror; right.
  - right. do 2 (split; [done |]). revert Herror.
    unfold SocketClient.socket_link_send_stream. unfold bind at 1.
    destruct (prepare_params_stream_pure message
                (Z.to_nat (SocketClient.h_param_in (SocketClient.header message)))
                0 [header_entry message] p) as [[iov ->] | [f ->]]; [| done].
    run_proc. intros Herror. exists iov.
    destruct (Z.eqb_spec (r_ret (SocketClient.sendmsg k (SocketClient.p_calls p)
                                   (SocketClient.iod linkManager) iov 0))
                (SocketClient.h_length (SocketClient.header message)));
      cbn in Herror; [discriminate |].
    injection Herror as <-. done.
  - right. do 2 (split; [done |]). revert Herror.
    unfold SocketClient.socket_link_send_packet. unfold bind at 1.
    destruct (prepare_params_pure message
                (Z.to_nat (SocketClient.h_param_in (SocketClient.header message)))
                0 [header_entry message] p) as [[iov ->] | [f ->]]; [| done].
    run_proc. intros Herror. exists iov.
    destruct (Z.eqb_spec (r_ret (SocketClient.sendmsg k (SocketClient.p_calls p)
                                   (SocketClient.iod linkManager) iov 0))
                (SocketClient.h_length (SocketClient.header message)));
      cbn in Herror; [discriminate |].
    injection Herror as <-. done.
  - left. revert Herror. run_proc. intros [= <-]. done.
Qed.

End ClientLinkProperties.

Lemma stream_payload_read_blocks_witness :
  SocketClient.socket_link_recv 512 1 12
      (Cases.kernel_holding Cases.message_with_buffer 20 0)
      Scenario.stream_link 0 Scenario.idle_process =
    Ok ((-1, None),
        SocketClient.mk_process EPIPE
          [SocketClient.SysRecv 3 12 320; SocketClient.SysRecv 3 32 256]).
Proof.
  assert (SocketClient.type (SocketClient.config Scenario.stream_link)
          = SocketClient.gracht_link_stream_based) as Hstream by reflexivity.
  assert (0 <= 12 < 2 ^ 63) as Hsize by lia.
  assert (r_ret (SocketClient.recv (Cases.kernel_holding Cases.message_with_buffer 20 0)
                   (SocketClient.p_calls Scenario.idle_process)
                   (SocketClient.iod Scenario.stream_link) 12
                   (converted_flags 1 0)) = 12) as Hheader by reflexivity.
  destruct (stream_payload_read_blocks 512 1 12
              (Cases.kernel_holding Cases.message_with_buffer 20 0)
              Scenario.stream_link 0 Scenario.idle_process Hstream Hsize Hheader)
    as [Hrun _].
  exact Hrun.
Defined.

Lemma packet_receive_classification_witness :
  SocketClient.socket_link_recv 512 1 12
      (Cases.kernel_holding Cases.message_with_buffer 20 0)
      Scenario.packet_link 0 Scenario.idle_process =
    Ok ((0, Some Cases.message_with_buffer),
        SocketClient.mk_process 11
          [SocketClient.SysRecvmsg 3 16 [SocketClient.IoMessage 512] 320]).
Proof.
  assert (SocketClient.type (SocketClient.config Scenario.packet_link)
          = SocketClient.gracht_link_packet_based) as Hpacket by reflexivity.
  assert (0 < 12 < 2 ^ 63) as Hsize by lia.
  assert (- 2 ^ 63 <=
          r_ret (SocketClient.recvmsg
                   (Cases.kernel_holding Cases.message_with_buffer 20 0)
                   (SocketClient.p_calls Scenario.idle_process)
                   (SocketClient.iod Scenario.packet_link)
                   [SocketClient.IoMessage 512] (converted_flags 1 0)) < 2 ^ 63)
    as Hret by (cbn; lia).
  exact (packet_receive_classification 512 1 12
           (Cases.kernel_holding Cases.message_with_buffer 20 0)
           Scenario.packet_link 0 Scenario.idle_process Hpacket Hsize Hret).
Defined.

Lemma send_is_one_sendmsg_witness :
  SocketClient.socket_link_send 512 12 16
      (Cases.kernel_holding Cases.message_with_buffer 20 44)
      Scenario.packet_link Cases.message_with_buffer Scenario.idle_process =
    Ok (SocketClient.GRACHT_MESSAGE_INPROGRESS,
        SocketClient.mk_process 0
          [SocketClient.SysSendmsg 3
             [SocketClient.IoMessage 44; SocketClient.IoBuffer 4096 8] 0]).
Proof.
  assert (SocketClient.h_length (SocketClient.header Cases.message_with_buffer) <= 512)
    as Hlength by (cbn; lia).
  assert (SocketClient.type (SocketClient.config Scenario.packet_link)
          = SocketClient.gracht_link_packet_based) as Hpacket by reflexivity.
  assert ((Z.to_nat (SocketClient.h_param_in
                       (SocketClient.header Cases.message_with_buffer))
           <= length (SocketClient.params Cases.message_with_buffer))%nat)
    as Hparams by (cbn; lia).
  assert (Forall (fun prm => is_shm_param prm = false)
            (take (Z.to_nat (SocketClient.h_param_in
                               (SocketClient.header Cases.message_with_buffer)))
               (SocketClient.params Cases.message_with_buffer)))
    as Hshm by (repeat constructor).
  exact (send_is_one_sendmsg 512 12 16
           (Cases.kernel_holding Cases.message_with_buffer 20 44)
           Scenario.packet_link Cases.message_with_buffer Scenario.idle_process
           Hlength Hpacket Hparams Hshm).
Defined.

Lemma send_error_names_the_failed_check_witness :
  SocketClient.socket_link_send 512 12 16
      (Cases.kernel_holding Cases.message_with_buffer 20 10)
      Scenario.packet_link Cases.message_with_buffer Scenario.idle_process =
    Ok (SocketClient.GRACHT_MESSAGE_ERROR,
        SocketClient.mk_process EPIPE
          [SocketClient.SysSendmsg 3
             [SocketClient.IoMessage 44; SocketClient.IoBuffer 4096 8] 0]) /\
  exists iov,
    r_ret (SocketClient.sendmsg (Cases.kernel_holding Cases.message_with_buffer 20 10)
             [] 3 iov 0) <> 44.
Proof.
  assert (SocketClient.socket_link_send 512 12 16
            (Cases.kernel_holding Cases.message_with_buffer 20 10)
            Scenario.packet_link Cases.message_with_buffer Scenario.idle_process =
          Ok (SocketClient.GRACHT_MESSAGE_ERROR,
              SocketClient.mk_process EPIPE
                [SocketClient.SysSendmsg 3
                   [SocketClient.IoMessage 44; SocketClient.IoBuffer 4096 8] 0]))
    as Herror by reflexivity.
  split; [exact Herror |].
  destruct (send_error_names_the_failed_check 512 12 16
              (Cases.kernel_holding Cases.message_with_buffer 20 10)
              Scenario.packet_link Cases.message_with_buffer Scenario.idle_process
              _ Herror)
    as [[Hbig _] | [(_ & Hother & _) | (_ & _ & iov & Hshort & _)]].
  - vm_compute in Hbig. discriminate.
  - discriminate.
  - exists iov. exact Hshort.
Defined.

(** ** The lifetime of the client socket link *)

Section LifetimeProperties.

Variable sizeof_socket_link_manager : Z.
Variable o : SocketClientLifetime.os.

Local Abbreviation create :=
  (SocketClientLifetime.gracht_link_socket_client_create sizeof_socket_link_manager o).
Local Abbreviation connect := (SocketClientLifetime.socket_link_connect o).
Local Abbreviation destroy := (SocketClientLifetime.socket_link_destroy o).

Ltac run_host :=
  unfold bind, ret, crash, SocketClientLifetime.set_errno, SocketClientLifetime.os_call,
    SocketClientLifetime.load_manager, SocketClientLifetime.store_manager,
    SocketClientLifetime.free; cbn.

(** X24: when [malloc] fails, [gracht_link_socket_client_create] returns -1
    with ENOMEM and stores no link.  Otherwise it returns 0 and the new
    manager holds the configuration and the descriptor 0; destroying that
    link before it was connected frees the manager without closing any
    descriptor, and the heap is as before the creation. *)
Theorem create_then_destroy_closes_nothing
    (configuration : SocketClient.socket_client_configuration)
    (h : SocketClientLifetime.host)
    (Hfresh : SocketClientLifetime.h_managers h
                !! r_ret (SocketClientLifetime.os_malloc o
                            (SocketClientLifetime.h_calls h)
                            sizeof_socket_link_manager) = None) :
  let r := SocketClientLifetime.os_malloc o (SocketClientLifetime.h_calls h)
             sizeof_socket_link_manager in
  let linkManager := r_ret r in
  let allocate := SocketClientLifetime.OsMalloc sizeof_socket_link_manager in
  (linkManager = 0 ->
     create configuration h =
       Ok ((-1, None),
           SocketClientLifetime.mk_host SocketClientLifetime.ENOMEM
             (SocketClientLifetime.h_managers h)
             (SocketClientLifetime.h_calls h ++ [allocate]))) /\
  (linkManager <> 0 ->
     exists h1,
       create configuration h = Ok ((0, Some linkManager), h1) /\
       SocketClientLifetime.h_managers h1 !! linkManager =
         Some (SocketClient.mk_manager configuration 0) /\
       destroy linkManager h1 =
         Ok (tt,
             SocketClientLifetime.mk_host
               (default (SocketClientLifetime.h_errno h) (r_errno r))
               (SocketClientLifetime.h_managers h)
               (SocketClientLifetime.h_calls h
                ++ [allocate; SocketClientLifetime.OsFree linkManager]))).
Proof.
  cbn zeta. split; intros Hp.
  - unfold SocketClientLifetime.gracht_link_socket_client_create. run_host.
    rewrite Hp. reflexivity.
  - unfold SocketClientLifetime.gracht_link_socket_client_create. run_host.
    apply Z.eqb_neq in Hp. rewrite Hp. cbn.
    eexists. split; [reflexivity |]. cbn.
    split; [by rewrite lookup_insert_eq |].
    unfold SocketClientLifetime.socket_link_destroy. rewrite Hp. run_host.
    rewrite lookup_insert_eq. cbn.
    rewrite delete_insert_eq, delete_id by done.
    by rewrite <- app_assoc.
Qed.

(** X25: [socket_link_connect] stores the descriptor that [socket] returns
    in the manager before it connects.  When [connect] then fails on a
    positive descriptor, the descriptor is closed and the status of
    [connect] is returned, but the manager keeps the closed descriptor: a
    [socket_link_destroy] that follows closes the same descriptor a second
    time before it frees the manager. *)
Theorem failed_connect_then_destroy_closes_twice
    (linkManager : Z) (m : SocketClient.socket_link_manager)
    (h : SocketClientLifetime.host) :
  let type :=
    match SocketClient.type (SocketClient.config m) with
    | SocketClient.gracht_link_stream_based => SocketClientLifetime.SOCK_STREAM
    | _ => SocketClientLifetime.SOCK_DGRAM
    end in
  let namelen := SocketClient.address_length (SocketClient.config m) in
  let t0 := SocketClientLifetime.h_calls h in
  let create_socket :=
    SocketClientLifetime.OsSocket SocketClientLifetime.AF_LOCAL type 0 in
  let iod := r_ret (SocketClientLifetime.os_socket o t0
                      SocketClientLifetime.AF_LOCAL type 0) in
  let status := r_ret (SocketClientLifetime.os_connect o (t0 ++ [create_socket])
                         iod namelen) in
  linkManager <> 0 ->
  SocketClientLifetime.h_managers h !! linkManager = Some m ->
  0 < iod ->
  status <> 0 ->
  exists h1 h2,
    connect linkManager h = Ok (status, h1) /\
    SocketClientLifetime.h_managers h1 !! linkManager =
      Some (SocketClient.mk_manager (SocketClient.config m) iod) /\
    destroy linkManager h1 = Ok (tt, h2) /\
    SocketClientLifetime.h_managers h2 =
      delete linkManager (SocketClientLifetime.h_managers h) /\
    SocketClientLifetime.h_calls h2 =
      t0 ++ [create_socket;
             SocketClientLifetime.OsConnect iod namelen;
             SocketClientLifetime.OsClose iod;
             SocketClientLifetime.OsClose iod;
             SocketClientLifetime.OsFree linkManager].
Proof.
  cbn zeta. intros Hp Hm Hiod Hstatus.
  unfold SocketClientLifetime.socket_link_connect. run_host. rewrite Hm. cbn.
  destruct (Z.ltb_spec
              (r_ret (SocketClientLifetime.os_socket o (SocketClientLifetime.h_calls h)
                        SocketClientLifetime.AF_LOCAL
                        match SocketClient.type (SocketClient.config m) with
                        | SocketClient.gracht_link_stream_based =>
                            SocketClientLifetime.SOCK_STREAM
                        | _ => SocketClientLifetime.SOCK_DGRAM
                        end 0)) 0) as [Hneg | _]; [lia |].
  cbn. apply Z.eqb_neq in Hstatus. rewrite Hstatus. cbn.
  do 2 eexists. split; [reflexivity |]. cbn.
  split; [by rewrite lookup_insert_eq |].
  unfold SocketClientLifetime.socket_link_destroy.
  apply Z.eqb_neq in Hp. rewrite Hp. run_host.
  rewrite lookup_insert_eq. cbn.
  apply Z.ltb_lt in Hiod. rewrite Hiod. cbn.
  split; [reflexivity |]. cbn.
  split; [by rewrite delete_insert_eq |].
  by rewrite <- !app_assoc.
Qed.

(** X26: when [socket] fails, [socket_link_connect] returns -1 without
    calling [connect], and a later [socket_link_destroy] closes nothing.
    When [socket] and [connect] succeed it returns the descriptor, and
    [socket_link_destroy] closes that descriptor once, unless it is the
    descriptor 0, which is never closed.  In each case the manager is freed
    last. *)
Theorem connect_then_destroy_closes_positive_descriptor
    (linkManager : Z) (m : SocketClient.socket_link_manager)
    (h : SocketClientLifetime.host) :
  let type :=
    match SocketClient.type (SocketClient.config m) with
    | SocketClient.gracht_link_stream_based => SocketClientLifetime.SOCK_STREAM
    | _ => SocketClientLifetime.SOCK_DGRAM
    end in
  let namelen := SocketClient.address_length (SocketClient.config m) in
  let t0 := SocketClientLifetime.h_calls h in
  let create_socket :=
    SocketClientLifetime.OsSocket SocketClientLifetime.AF_LOCAL type 0 in
  let iod := r_ret (SocketClientLifetime.os_socket o t0
                      SocketClientLifetime.AF_LOCAL type 0) in
  let status := r_ret (SocketClientLifetime.os_connect o (t0 ++ [create_socket])
                         iod namelen) in
  linkManager <> 0 ->
  SocketClientLifetime.h_managers h !! linkManager = Some m ->
  iod < 0 \/ status = 0 ->
  exists h1 h2,
    connect linkManager h = Ok ((if iod <? 0 then -1 else iod), h1) /\
    destroy linkManager h1 = Ok (tt, h2) /\
    SocketClientLifetime.h_managers h2 =
      delete linkManager (SocketClientLifetime.h_managers h) /\
    SocketClientLifetime.h_calls h2 =
      t0 ++ [create_socket]
         ++ (if iod <? 0 then [] else [SocketClientLifetime.OsConnect iod namelen])
         ++ (if 0 <? iod then [SocketClientLifetime.OsClose iod] else [])
         ++ [SocketClientLifetime.OsFree linkManager].
Proof.
  cbn zeta. intros Hp Hm Hcase.
  unfold SocketClientLifetime.socket_link_connect. run_host. rewrite Hm. cbn.
  set (iod := r_ret (SocketClientLifetime.os_socket o _ _ _ _)) in *.
  apply Z.eqb_neq in Hp.
  destruct (Z.ltb_spec iod 0) as [Hneg | Hpos]; cbn.
  - do 2 eexists. split; [reflexivity |].
    unfold SocketClientLifetime.socket_link_destroy. rewrite Hp. run_host.
    rewrite lookup_insert_eq. cbn.
    destruct (Z.ltb_spec 0 iod) as [? | _]; [lia |]. cbn.
    split; [reflexivity |]. cbn.
    split; [by rewrite delete_insert_eq |].
    by rewrite <- !app_assoc.
  - destruct Hcase as [? | Hstatus]; [lia |].
    rewrite Hstatus. cbn.
    unfold SocketClientLifetime.socket_link_destroy. rewrite Hp. run_host.
    destruct (Z.ltb_spec 0 iod);
      do 2 eexists; (split; [reflexivity |]); cbn;
      rewrite lookup_insert_eq; cbn;
      match goal with
      | |- context [0 <? iod] =>
          (destruct (Z.ltb_spec 0 iod); [| lia]) || (destruct (Z.ltb_spec 0 iod); [lia |])
      end; cbn;
      (split; [reflexivity |]); cbn;
      (split; [by rewrite delete_insert_eq |]);
      by rewrite <- !app_assoc.
Qed.

End LifetimeProperties.

Lemma create_then_destroy_closes_nothing_witness :
  exists h1,
    SocketClientLifetime.gracht_link_socket_client_create 64 (Cases.os_giving 4096 5 0)
        (SocketClient.config Cases.unconnected_manager) Cases.idle_host
      = Ok ((0, Some 4096), h1) /\
    SocketClientLifetime.socket_link_destroy (Cases.os_giving 4096 5 0) 4096 h1 =
      Ok (tt,
          SocketClientLifetime.mk_host 0 ∅
            [SocketClientLifetime.OsMalloc 64; SocketClientLifetime.OsFree 4096]).
Proof.
  assert (SocketClientLifetime.h_managers Cases.idle_host
            !! r_ret (SocketClientLifetime.os_malloc (Cases.os_giving 4096 5 0)
                        (SocketClientLifetime.h_calls Cases.idle_host) 64) = None)
    as Hfresh by reflexivity.
  assert (r_ret (SocketClientLifetime.os_malloc (Cases.os_giving 4096 5 0)
                   (SocketClientLifetime.h_calls Cases.idle_host) 64) <> 0)
    as Hpointer by discriminate.
  destruct (create_then_destroy_closes_nothing 64 (Cases.os_giving 4096 5 0)
              (SocketClient.config Cases.unconnected_manager) Cases.idle_host Hfresh)
    as [_ Hcreated].
  destruct (Hcreated Hpointer) as (h1 & Hcreate & _ & Hdestroy).
  exists h1. split; [exact Hcreate | exact Hdestroy].
Defined.

Lemma failed_connect_then_destroy_closes_twice_witness :
  exists h1 h2,
    SocketClientLifetime.socket_link_connect (Cases.os_giving 4096 5 (-1)) 4096
        Cases.host_with_link = Ok (-1, h1) /\
    SocketClientLifetime.socket_link_destroy (Cases.os_giving 4096 5 (-1)) 4096 h1
      = Ok (tt, h2) /\
    SocketClientLifetime.h_calls h2 =
      [SocketClientLifetime.OsSocket 1 1 0; SocketClientLifetime.OsConnect 5 16;
       SocketClientLifetime.OsClose 5; SocketClientLifetime.OsClose 5;
       SocketClientLifetime.OsFree 4096].
Proof.
  assert (4096 <> 0) as Hpointer by discriminate.
  assert (SocketClientLifetime.h_managers Cases.host_with_link !! 4096
          = Some Cases.unconnected_manager) as Hmanager by reflexivity.
  assert (0 < 5) as Hdescriptor by lia.
  assert (-1 <> 0) as Hrefused by discriminate.
  destruct (failed_connect_then_destroy_closes_twice (Cases.os_giving 4096 5 (-1))
              4096 Cases.unconnected_manager Cases.host_with_link
              Hpointer Hmanager Hdescriptor Hrefused)
    as (h1 & h2 & Hconnect & _ & Hdestroy & _ & Hcalls).
  exists h1, h2. split; [exact Hconnect |]. split; [exact Hdestroy | exact Hcalls].
Defined.

Lemma connect_then_destroy_closes_positive_descriptor_witness :
  exists h1 h2,
    SocketClientLifetime.socket_link_connect (Cases.os_giving 4096 5 0) 4096
        Cases.host_with_link = Ok (5, h1) /\
    SocketClientLifetime.socket_link_destroy (Cases.os_giving 4096 5 0) 4096 h1
      = Ok (tt, h2) /\
    SocketClientLifetime.h_calls h2 =
      [SocketClientLifetime.OsSocket 1 1 0; SocketClientLifetime.OsConnect 5 16;
       SocketClientLifetime.OsClose 5; SocketClientLifetime.OsFree 4096].
Proof.
  assert (4096 <> 0) as Hpointer by discriminate.
  assert (SocketClientLifetime.h_managers Cases.host_with_link !! 4096
          = Some Cases.unconnected_manager) as Hmanager by reflexivity.
  assert (5 < 0 \/ 0 = 0) as Hconnected by (right; reflexivity).
  destruct (connect_then_destroy_closes_positive_descriptor (Cases.os_giving 4096 5 0)
              4096 Cases.unconnected_manager Cases.host_with_link
              Hpointer Hmanager Hconnected)
    as (h1 & h2 & Hconnect & Hdestroy & _ & Hcalls).
  exists h1, h2. split; [exact Hconnect |]. split; [exact Hdestroy | exact Hcalls].
Defined.

(** ** The readiness set of the socket link on Windows *)

Section IocpProperties.

Variable WSA_INVALID_EVENT : Z.
Variable SOCKET_ERROR : Z.
Variable FD_ACCEPT : Z.
Variable FD_READ : Z.
Variable FD_CLOSE : Z.
Variable sizeof_iocp_socket : Z.
Variable api : SocketOsWin32.winapi.

Local Abbreviation aio_add :=
  (SocketOsWin32.socket_aio_add WSA_INVALID_EVENT SOCKET_ERROR FD_ACCEPT FD_READ
     FD_CLOSE sizeof_iocp_socket api).
Local Abbreviation allocated :=
  (SocketOsWin32.add_allocated sizeof_iocp_socket api).
Local Abbreviation created_event :=
  (SocketOsWin32.add_event sizeof_iocp_socket api).
Local Abbreviation selected :=
  (SocketOsWin32.add_selected FD_ACCEPT FD_READ FD_CLOSE sizeof_iocp_socket api).
Local Abbreviation completion_port :=
  (SocketOsWin32.add_port FD_ACCEPT FD_READ FD_CLOSE sizeof_iocp_socket api).
Local Abbreviation calls_of_add :=
  (SocketOsWin32.add_calls FD_ACCEPT FD_READ FD_CLOSE sizeof_iocp_socket api).
Local Abbreviation chain := SocketOsWin32.iocp_chain.
Local Abbreviation entry := SocketOsWin32.mk_iocp_socket.
Local Abbreviation address := SocketOsWin32.reg_entry.

Ltac run_win :=
  unfold bind, ret, crash, SocketOsWin32.win_call, SocketOsWin32.win_do,
    SocketOsWin32.load_handle, SocketOsWin32.store_handle, SocketOsWin32.load_entry,
    SocketOsWin32.store_entry, SocketOsWin32.free; cbn.

Lemma iocp_chain_nil (entries : gmap Z SocketOsWin32.iocp_socket) (p : Z) :
  chain entries p [] = true <-> p = 0.
Proof. cbn. apply Z.eqb_eq. Qed.

Lemma iocp_chain_cons (entries : gmap Z SocketOsWin32.iocp_socket) (p : Z)
    (x : SocketOsWin32.registration) (l : list SocketOsWin32.registration) :
  chain entries p (x :: l) = true <->
  p = address x /\ p <> 0 /\
  exists n,
    entries !! p = Some (entry (SocketOsWin32.reg_socket x)
                           (SocketOsWin32.reg_events x) n) /\
    chain entries n l = true.
Proof.
  cbn [SocketOsWin32.iocp_chain].
  rewrite !andb_true_iff, negb_true_iff, Z.eqb_eq, Z.eqb_neq.
  destruct (entries !! p) as [[s e n] |]; cbn.
  - rewrite !andb_true_iff, !Z.eqb_eq. split.
    + intros [[-> Hp] [[-> ->] Hn]]. do 2 (split; [done |]). by exists n.
    + intros (-> & Hp & n' & [= -> -> ->] & Hn). done.
  - split; [intros [_ [=]] | intros (_ & _ & n & [=] & _)].
Qed.

Lemma iocp_chain_first (entries : gmap Z SocketOsWin32.iocp_socket) (p : Z)
    (l : list SocketOsWin32.registration) :
  chain entries p l = true -> p = SocketOsWin32.first_entry l.
Proof.
  destruct l as [| x l].
  - by intros ?%iocp_chain_nil.
  - by intros (-> & _)%iocp_chain_cons.
Qed.

Lemma iocp_chain_deterministic (entries : gmap Z SocketOsWin32.iocp_socket)
    (l1 l2 : list SocketOsWin32.registration) (p : Z) :
  chain entries p l1 = true -> chain entries p l2 = true -> l1 = l2.
Proof.
  revert l2 p. induction l1 as [| x l1 IH]; intros [| y l2] p.
  - done.
  - intros ->%iocp_chain_nil (_ & ? & _)%iocp_chain_cons. done.
  - intros (_ & ? & _)%iocp_chain_cons ->%iocp_chain_nil. done.
  - intros (Hx & _ & n & Hn & Hl1)%iocp_chain_cons
           (Hy & _ & n' & Hn' & Hl2)%iocp_chain_cons.
    rewrite Hn in Hn'. injection Hn' as Hs He <-.
    f_equal; [| by eapply IH].
    destruct x, y; cbn in *; congruence.
Qed.

Lemma iocp_chain_frame (entries entries' : gmap Z SocketOsWin32.iocp_socket)
    (l : list SocketOsWin32.registration) (p : Z) :
  (forall x, x ∈ l -> entries' !! address x = entries !! address x) ->
  chain entries p l = true -> chain entries' p l = true.
Proof.
  revert p. induction l as [| x l IH]; intros p Hsame; [done |].
  intros (-> & Hp & n & Hn & Hl)%iocp_chain_cons.
  apply iocp_chain_cons. do 2 (split; [done |]). exists n. split.
  - rewrite Hsame; [done | by left].
  - apply IH; [| done]. intros y Hy. apply Hsame. by right.
Qed.

Lemma iocp_chain_suffix (entries : gmap Z SocketOsWin32.iocp_socket)
    (l1 l2 : list SocketOsWin32.registration) (p : Z) :
  chain entries p (l1 ++ l2) = true ->
  chain entries (if l1 is [] then p else SocketOsWin32.first_entry l2) l2 = true.
Proof.
  revert p. induction l1 as [| x l1 IH]; intros p; [done |].
  cbn [app]. intros (_ & _ & n & _ & Hl)%iocp_chain_cons.
  specialize (IH n Hl). destruct l1; [| done].
  cbn in Hl. by rewrite <- (iocp_chain_first _ _ _ Hl).
Qed.

Lemma iocp_chain_lookup (entries : gmap Z SocketOsWin32.iocp_socket)
    (l : list SocketOsWin32.registration) (p : Z) (x : SocketOsWin32.registration) :
  chain entries p l = true -> x ∈ l ->
  address x <> 0 /\
  exists n, entries !! address x
            = Some (entry (SocketOsWin32.reg_socket x) (SocketOsWin32.reg_events x) n).
Proof.
  revert p. induction l as [| y l IH]; intros p Hl Hx; [by apply elem_of_nil in Hx |].
  apply iocp_chain_cons in Hl as (-> & Hp & n & Hn & Hl).
  apply elem_of_cons in Hx as [-> | Hx]; [| by eapply IH].
  split; [done | by exists n].
Qed.

Lemma iocp_chain_NoDup (entries : gmap Z SocketOsWin32.iocp_socket)
    (l : list SocketOsWin32.registration) (p : Z) :
  chain entries p l = true -> NoDup (address <$> l).
Proof.
  revert p. induction l as [| x l IH]; intros p Hl; [constructor |].
  pose proof Hl as (-> & Hp & n & Hn & Htail)%iocp_chain_cons.
  cbn. constructor; [| by eapply IH].
  intros (y & Hxy & Hy)%list_elem_of_fmap.
  apply list_elem_of_split in Hy as (la & lb & ->).
  pose proof (iocp_chain_suffix _ la (y :: lb) n Htail) as Hsuffix.
  assert (chain entries (address x) (y :: lb) = true) as Hagain.
  { rewrite Hxy. destruct la; [| done].
    cbn [app] in Htail. pose proof (iocp_chain_first _ _ _ Htail) as Hfirst.
    cbn in Hfirst. by rewrite <- Hfirst. }
  pose proof (iocp_chain_deterministic _ _ _ _ Hl Hagain) as Heq.
  apply (f_equal length) in Heq. cbn in Heq. rewrite length_app in Heq.
  cbn in Heq. lia.
Qed.

Lemma iocp_chain_nonnull (entries : gmap Z SocketOsWin32.iocp_socket)
    (l : list SocketOsWin32.registration) (x : SocketOsWin32.registration) (p : Z) :
  chain entries p (l ++ [x]) = true -> p <> 0.
Proof. destruct l; by intros (_ & ? & _)%iocp_chain_cons. Qed.

Lemma last_entry_spec (fuel : nat) (l : list SocketOsWin32.registration)
    (x : SocketOsWin32.registration) (p : Z) (w : SocketOsWin32.windows) :
  chain (SocketOsWin32.w_entries w) p (l ++ [x]) = true ->
  (length l < fuel)%nat ->
  SocketOsWin32.last_entry fuel p w = Ok (address x, w).
Proof.
  revert p fuel. induction l as [| y l IH]; intros p [| fuel] Hl Hfuel;
    cbn in Hfuel; try lia; cbn [app] in Hl;
    apply iocp_chain_cons in Hl as (-> & Hp & n & Hn & Hl);
    cbn [SocketOsWin32.last_entry]; run_win; rewrite Hn; cbn.
  - apply iocp_chain_nil in Hl as ->. done.
  - pose proof (iocp_chain_nonnull _ _ _ _ Hl) as ->%Z.eqb_neq. cbn.
    apply IH; [done | lia].
Qed.

Lemma iocp_chain_append (entries : gmap Z SocketOsWin32.iocp_socket)
    (l : list SocketOsWin32.registration) (x : SocketOsWin32.registration)
    (p q s ev : Z) :
  chain entries p (l ++ [x]) = true ->
  entries !! q = None -> q <> 0 ->
  chain (<[address x := entry (SocketOsWin32.reg_socket x)
                          (SocketOsWin32.reg_events x) q]>
           (<[q := entry s ev 0]> entries))
        p (l ++ [x; SocketOsWin32.mk_registration q s ev]) = true.
Proof.
  intros Hl Hq Hq0. revert p Hl. induction l as [| y l IH]; intros p Hl.
  - cbn [app] in *. apply iocp_chain_cons in Hl as (-> & Hp & n & Hn & Hl).
    apply iocp_chain_cons. do 2 (split; [done |]). exists q.
    split; [by rewrite lookup_insert_eq |].
    apply iocp_chain_cons. cbn. do 2 (split; [done |]). exists 0.
    split; [| done].
    rewrite lookup_insert_ne by congruence. by rewrite lookup_insert_eq.
  - cbn [app] in *. pose proof (iocp_chain_NoDup _ _ _ Hl) as Hnodup.
    apply iocp_chain_cons in Hl as (-> & Hp & n & Hn & Hl).
    apply iocp_chain_cons. do 2 (split; [done |]). exists n.
    split; [| by apply IH].
    cbn in Hnodup. apply NoDup_cons in Hnodup as [Hfirst _].
    rewrite !lookup_insert_ne; [done | congruence |].
    intros Heq. apply Hfirst. rewrite fmap_app. apply elem_of_app. right.
    cbn. rewrite Heq. by left.
Qed.

(** A [socket_aio_add] whose calls all succeed: the state it leaves. *)
Lemma socket_aio_add_linked (fuel : nat) (aio iod : Z) (w : SocketOsWin32.windows)
    (h : SocketOsWin32.iocp_handle) (l : list SocketOsWin32.registration) :
  SocketOsWin32.w_handles w !! aio = Some h ->
  chain (SocketOsWin32.w_entries w) (SocketOsWin32.head h) l = true ->
  (length l <= fuel)%nat ->
  allocated w <> 0 ->
  SocketOsWin32.w_entries w !! allocated w = None ->
  created_event w <> WSA_INVALID_EVENT ->
  selected w iod <> SOCKET_ERROR ->
  completion_port w iod (SocketOsWin32.iocp h) <> 0 ->
  aio_add fuel aio iod w =
    Ok (0,
        let stored := <[allocated w := entry iod (created_event w) 0]>
                        (SocketOsWin32.w_entries w) in
        let calls := SocketOsWin32.w_calls w
                     ++ calls_of_add w iod (SocketOsWin32.iocp h) in
        match last l with
        | None =>
            SocketOsWin32.mk_windows
              (<[aio := SocketOsWin32.mk_iocp_handle (SocketOsWin32.iocp h)
                          (allocated w)]> (SocketOsWin32.w_handles w))
              stored calls
        | Some x =>
            SocketOsWin32.mk_windows (SocketOsWin32.w_handles w)
              (<[address x := entry (SocketOsWin32.reg_socket x)
                                (SocketOsWin32.reg_events x) (allocated w)]> stored)
              calls
        end).
Proof.
  intros Hh Hl Hfuel Hq Hfresh Hev Hsel Hport.
  unfold SocketOsWin32.socket_aio_add.
  unfold SocketOsWin32.add_allocated, SocketOsWin32.add_event,
    SocketOsWin32.add_selected, SocketOsWin32.add_port, SocketOsWin32.add_calls,
    SocketOsWin32.add_mask in *.
  unfold SocketOsWin32.add_event in *.
  apply Z.eqb_neq in Hq, Hev, Hsel, Hport.
  run_win. rewrite Hq. cbn. rewrite Hev. cbn.
  rewrite <- !app_assoc. cbn [app]. rewrite Hsel. cbn. rewrite Hh. cbn.
  rewrite <- !app_assoc. cbn [app]. rewrite Hport. cbn.
  destruct l as [| y l' _] using rev_ind.
  - apply iocp_chain_nil in Hl as ->. reflexivity.
  - pose proof (iocp_chain_nonnull _ _ _ _ Hl) as ->%Z.eqb_neq.
    rewrite last_snoc.
    assert (forall x, x ∈ l' ++ [y] ->
              SocketOsWin32.api_malloc api (SocketOsWin32.w_calls w) sizeof_iocp_socket
              <> address x) as Hother.
    { intros x Hx Heq. destruct (iocp_chain_lookup _ _ _ x Hl Hx) as [_ [n Hn]].
      rewrite <- Heq in Hn. congruence. }
    rewrite length_app in Hfuel. cbn in Hfuel.
    rewrite (last_entry_spec fuel l' y); [| | lia].
    2: { cbn. eapply iocp_chain_frame; [| exact Hl].
         intros x Hx. rewrite lookup_insert_ne; [done | by apply Hother]. }
    cbn. rewrite lookup_insert_ne by (apply Hother, elem_of_app; right; by left).
    destruct (iocp_chain_lookup _ _ _ y Hl) as [_ [n ->]];
      [apply elem_of_app; right; by left |].
    reflexivity.
Qed.

Lemma find_entry_absent (fuel : nat) (aio iod : Z)
    (l : list SocketOsWin32.registration) (itr prev : Z) (w : SocketOsWin32.windows) :
  chain (SocketOsWin32.w_entries w) itr l = true ->
  Forall (fun y => SocketOsWin32.reg_socket y <> iod) l ->
  (length l < fuel)%nat ->
  SocketOsWin32.find_entry fuel aio iod itr prev w = Ok (0, w).
Proof.
  revert itr prev fuel. induction l as [| y l IH]; intros itr prev [| fuel] Hl Hno Hfuel;
    cbn in Hfuel; try lia; cbn [SocketOsWin32.find_entry].
  - apply iocp_chain_nil in Hl as ->. reflexivity.
  - apply iocp_chain_cons in Hl as (-> & Hp & n & Hn & Hl).
    apply Forall_cons in Hno as [Hy Hno].
    apply Z.eqb_neq in Hp, Hy. rewrite Hp. run_win. rewrite Hn. cbn. rewrite Hy.
    apply IH; [done | done | lia].
Qed.

Lemma find_entry_after (fuel : nat) (aio iod : Z)
    (l1 : list SocketOsWin32.registration) (x : SocketOsWin32.registration)
    (l2 : list SocketOsWin32.registration) (itr prev : Z)
    (pe : SocketOsWin32.iocp_socket) (w : SocketOsWin32.windows) :
  chain (SocketOsWin32.w_entries w) itr (l1 ++ x :: l2) = true ->
  Forall (fun y => SocketOsWin32.reg_socket y <> iod) l1 ->
  SocketOsWin32.reg_socket x = iod ->
  (length l1 < fuel)%nat ->
  prev <> 0 ->
  SocketOsWin32.w_entries w !! prev = Some pe ->
  SocketOsWin32.find_entry fuel aio iod itr prev w =
    Ok (address x,
        SocketOsWin32.mk_windows (SocketOsWin32.w_handles w)
          (match last l1 with
           | Some y =>
               <[address y := entry (SocketOsWin32.reg_socket y)
                                (SocketOsWin32.reg_events y)
                                (SocketOsWin32.first_entry l2)]>
                 (SocketOsWin32.w_entries w)
           | None =>
               <[prev := entry (SocketOsWin32.socket pe) (SocketOsWin32.events pe)
                           (SocketOsWin32.first_entry l2)]>
                 (SocketOsWin32.w_entries w)
           end)
          (SocketOsWin32.w_calls w)).
Proof.
  revert itr prev pe fuel.
  induction l1 as [| y l1 IH]; intros itr prev pe [| fuel] Hl Hno Hx Hfuel Hprev Hpe;
    cbn in Hfuel; try lia; cbn [SocketOsWin32.find_entry app] in *;
    apply iocp_chain_cons in Hl as (-> & Hp & n & Hn & Hl);
    apply Z.eqb_neq in Hp; rewrite Hp; run_win; rewrite Hn; cbn.
  - apply Z.eqb_eq in Hx. rewrite Hx. apply Z.eqb_neq in Hprev. rewrite Hprev. cbn.
    rewrite Hpe. cbn. by rewrite (iocp_chain_first _ _ _ Hl).
  - apply Forall_cons in Hno as [Hy Hno]. apply Z.eqb_neq in Hy. rewrite Hy.
    rewrite (IH n (address y)
               (entry (SocketOsWin32.reg_socket y) (SocketOsWin32.reg_events y) n)
               fuel Hl Hno Hx); [| lia | by apply Z.eqb_neq | exact Hn].
    rewrite last_cons. by destruct (last l1).
Qed.

Lemma iocp_chain_unlink (entries : gmap Z SocketOsWin32.iocp_socket)
    (l1 : list SocketOsWin32.registration) (x : SocketOsWin32.registration)
    (l2 : list SocketOsWin32.registration) (p : Z) :
  chain entries p (l1 ++ x :: l2) = true ->
  match last l1 with
  | None =>
      chain (delete (address x) entries) (SocketOsWin32.first_entry l2) l2 = true
  | Some y =>
      chain (delete (address x)
               (<[address y := entry (SocketOsWin32.reg_socket y)
                                 (SocketOsWin32.reg_events y)
                                 (SocketOsWin32.first_entry l2)]> entries))
            p (l1 ++ l2) = true
  end.
Proof.
  intros Hl. pose proof (iocp_chain_NoDup _ _ _ Hl) as Hnodup.
  rewrite fmap_app, fmap_cons in Hnodup.
  apply NoDup_app in Hnodup as (Hnodup1 & Hapart & [Hx Hnodup2]%NoDup_cons).
  assert (forall z, z ∈ l2 -> address z <> address x) as Hl2x.
  { intros z Hz Heq. apply Hx. rewrite <- Heq. by apply list_elem_of_fmap_2. }
  assert (forall z, z ∈ l1 -> address z <> address x) as Hl1x.
  { intros z Hz Heq. apply (Hapart (address z)); [by apply list_elem_of_fmap_2 |].
    rewrite Heq. by left. }
  assert (forall y z, y ∈ l1 -> z ∈ l2 -> address z <> address y) as Hl2l1.
  { intros y z Hy Hz Heq. apply (Hapart (address y)); [by apply list_elem_of_fmap_2 |].
    right. rewrite <- Heq. by apply list_elem_of_fmap_2. }
  destruct (last l1) as [y |] eqn:Hlast.
  - apply last_Some in Hlast as [l1' ->].
    assert (y ∈ l1' ++ [y]) as Hy by (apply elem_of_app; right; by left).
    revert p Hl. induction l1' as [| z l1' IH]; intros p Hl.
    + cbn [app] in *.
      apply iocp_chain_cons in Hl as (-> & Hp & n & Hn & Hl).
      apply iocp_chain_cons in Hl as (-> & Hp' & n' & Hn' & Hl).
      apply iocp_chain_cons. do 2 (split; [done |]).
      exists (SocketOsWin32.first_entry l2). split.
      * rewrite lookup_delete_ne by (apply not_eq_sym, Hl1x; by left).
        by rewrite lookup_insert_eq.
      * rewrite <- (iocp_chain_first _ _ _ Hl).
        eapply iocp_chain_frame; [| exact Hl].
        intros v Hv. rewrite lookup_delete_ne by (apply not_eq_sym; by apply Hl2x).
        rewrite lookup_insert_ne; [done |].
        apply not_eq_sym, Hl2l1; [by left | done].
    + cbn [app] in *.
      apply NoDup_cons in Hnodup1 as [Hz Hnodup1].
      apply iocp_chain_cons in Hl as (-> & Hp & n & Hn & Hl).
      apply iocp_chain_cons. do 2 (split; [done |]). exists n. split.
      * rewrite lookup_delete_ne by (apply not_eq_sym, Hl1x; by left).
        rewrite lookup_insert_ne; [done |].
        intros Heq. apply Hz. rewrite <- Heq. apply list_elem_of_fmap_2.
        apply elem_of_app. right. by left.
      * apply IH;
          [ intros v Hv; apply Hapart; by right
          | done
          | intros u v Hu Hv; apply Hl2l1; [by right | done]
          | intros v Hv; apply Hl1x; by right
          | apply elem_of_app; right; by left
          | done ].
  - apply last_None in Hlast as ->. cbn [app] in Hl.
    apply iocp_chain_cons in Hl as (-> & Hp & n & Hn & Hl).
    rewrite <- (iocp_chain_first _ _ _ Hl).
    eapply iocp_chain_frame; [| exact Hl].
    intros v Hv. rewrite lookup_delete_ne; [done |]. apply not_eq_sym. by apply Hl2x.
Qed.

(** A [socket_aio_remove] of a socket of the set: the state it leaves. *)
Lemma socket_aio_remove_found (fuel : nat) (aio iod : Z) (w : SocketOsWin32.windows)
    (h : SocketOsWin32.iocp_handle) (l1 : list SocketOsWin32.registration)
    (x : SocketOsWin32.registration) (l2 : list SocketOsWin32.registration) :
  SocketOsWin32.w_handles w !! aio = Some h ->
  chain (SocketOsWin32.w_entries w) (SocketOsWin32.head h) (l1 ++ x :: l2) = true ->
  Forall (fun y => SocketOsWin32.reg_socket y <> iod) l1 ->
  SocketOsWin32.reg_socket x = iod ->
  (length l1 < fuel)%nat ->
  SocketOsWin32.socket_aio_remove fuel aio iod w =
    Ok (0,
        let calls :=
          SocketOsWin32.w_calls w
          ++ [SocketOsWin32.WSACloseEvent (SocketOsWin32.reg_events x);
              SocketOsWin32.WinFree (address x)] in
        match last l1 with
        | None =>
            SocketOsWin32.mk_windows
              (<[aio := SocketOsWin32.mk_iocp_handle (SocketOsWin32.iocp h)
                          (SocketOsWin32.first_entry l2)]> (SocketOsWin32.w_handles w))
              (delete (address x) (SocketOsWin32.w_entries w)) calls
        | Some y =>
            SocketOsWin32.mk_windows (SocketOsWin32.w_handles w)
              (delete (address x)
                 (<[address y := entry (SocketOsWin32.reg_socket y)
                                   (SocketOsWin32.reg_events y)
                                   (SocketOsWin32.first_entry l2)]>
                    (SocketOsWin32.w_entries w)))
              calls
        end).
Proof.
  intros Hh Hl Hno Hx Hfuel.
  pose proof (iocp_chain_NoDup _ _ _ Hl) as Hnodup.
  unfold SocketOsWin32.socket_aio_remove. unfold bind at 1.
  unfold SocketOsWin32.load_handle at 1. rewrite Hh. unfold bind at 1.
  destruct l1 as [| y l1].
  - destruct fuel as [| fuel]; [cbn in Hfuel; lia |].
    cbn [app] in Hl. apply iocp_chain_cons in Hl as (Hhead & Hp & n & Hn & Hl).
    cbn [SocketOsWin32.find_entry]. pose proof Hp as Hp'%Z.eqb_neq. rewrite Hp'.
    run_win. rewrite Hn. cbn. apply Z.eqb_eq in Hx. rewrite Hx. cbn.
    rewrite Hh. cbn. rewrite Hp'. cbn. rewrite Hn. cbn.
    rewrite <- !app_assoc. cbn [app].
    by rewrite Hhead, (iocp_chain_first _ _ _ Hl).
  - destruct fuel as [| fuel]; [cbn in Hfuel; lia |].
    cbn [app] in Hl, Hnodup. cbn [length] in Hfuel.
    pose proof Hl as (Hhead & Hp & n & Hn & Htail)%iocp_chain_cons.
    apply Forall_cons in Hno as [Hy Hno].
    cbn [SocketOsWin32.find_entry]. pose proof Hp as Hp'%Z.eqb_neq. rewrite Hp'.
    unfold bind at 1. unfold SocketOsWin32.load_entry at 1. rewrite Hn.
    cbn [SocketOsWin32.socket SocketOsWin32.link].
    apply Z.eqb_neq in Hy. rewrite Hy.
    rewrite (find_entry_after fuel aio iod l1 x l2 n (SocketOsWin32.head h)
               (entry (SocketOsWin32.reg_socket y) (SocketOsWin32.reg_events y) n) w
               Htail Hno Hx); [| lia | done | exact Hn].
    assert (address x <> 0) as Hx0.
    { eapply iocp_chain_lookup; [exact Hl |]. right. apply elem_of_app. right. by left. }
    apply Z.eqb_neq in Hx0. rewrite Hx0. cbn [negb].
    assert (forall z, z ∈ y :: l1 -> address z <> address x) as Hbefore.
    { intros z Hz Heq.
      change (address <$> y :: l1 ++ x :: l2)
        with (address <$> (y :: l1) ++ x :: l2) in Hnodup.
      rewrite fmap_app, fmap_cons in Hnodup.
      apply NoDup_app in Hnodup as (_ & Hapart & _).
      apply (Hapart (address z)); [by apply (list_elem_of_fmap_2 address) in Hz |].
      rewrite Heq. by left. }
    destruct (iocp_chain_lookup _ _ _ x Hl) as [_ [nx Hnx]];
      [right; apply elem_of_app; right; by left |].
    rewrite last_cons. rewrite Hhead.
    destruct (last l1) as [z |] eqn:Hlast; run_win.
    + rewrite lookup_insert_ne.
      2: { apply Hbefore. right. apply last_Some in Hlast as [l' ->].
           apply elem_of_app. right. by left. }
      rewrite Hnx. cbn. by rewrite <- !app_assoc.
    + rewrite lookup_insert_ne by (apply Hbefore; by left).
      rewrite Hnx. cbn. by rewrite <- !app_assoc.
Qed.

Lemma iocp_chain_added (entries : gmap Z SocketOsWin32.iocp_socket)
    (l : list SocketOsWin32.registration) (p q s ev : Z) :
  chain entries p l = true -> entries !! q = None -> q <> 0 ->
  match last l with
  | None =>
      chain (<[q := entry s ev 0]> entries) q [SocketOsWin32.mk_registration q s ev]
      = true
  | Some x =>
      chain (<[address x := entry (SocketOsWin32.reg_socket x)
                              (SocketOsWin32.reg_events x) q]>
               (<[q := entry s ev 0]> entries))
            p (l ++ [SocketOsWin32.mk_registration q s ev]) = true
  end.
Proof.
  intros Hl Hq Hq0. destruct l as [| x l _] using rev_ind.
  - cbn [last]. apply iocp_chain_cons. cbn. do 2 (split; [done |]).
    exists 0. by rewrite lookup_insert_eq.
  - rewrite last_snoc, <- app_assoc. cbn [app]. by apply iocp_chain_append.
Qed.

(** X27: a [socket_aio_add] whose calls all succeed returns 0 and appends
    the socket at the end of the list of the completion port: the entries
    that were in the list stay in it, in their order, and the new entry,
    with the event object just created, comes last.  No other handle
    changes, and nothing is released. *)
Theorem aio_add_appends_entry (fuel : nat) (aio iod : Z) (w : SocketOsWin32.windows)
    (h : SocketOsWin32.iocp_handle) (l : list SocketOsWin32.registration)
    (Hhandle : SocketOsWin32.w_handles w !! aio = Some h)
    (Hlist : chain (SocketOsWin32.w_entries w) (SocketOsWin32.head h) l = true)
    (Hfuel : (length l <= fuel)%nat)
    (Hallocated : allocated w <> 0)
    (Hfresh : SocketOsWin32.w_entries w !! allocated w = None)
    (Hevent : created_event w <> WSA_INVALID_EVENT)
    (Hselected : selected w iod <> SOCKET_ERROR)
    (Hport : completion_port w iod (SocketOsWin32.iocp h) <> 0) :
  exists w' h',
    aio_add fuel aio iod w = Ok (0, w') /\
    SocketOsWin32.w_handles w' !! aio = Some h' /\
    SocketOsWin32.iocp h' = SocketOsWin32.iocp h /\
    chain (SocketOsWin32.w_entries w') (SocketOsWin32.head h')
      (l ++ [SocketOsWin32.mk_registration (allocated w) iod (created_event w)])
      = true /\
    (forall a, a <> aio ->
       SocketOsWin32.w_handles w' !! a = SocketOsWin32.w_handles w !! a) /\
    SocketOsWin32.w_calls w' =
      SocketOsWin32.w_calls w ++ calls_of_add w iod (SocketOsWin32.iocp h).
Proof.
  pose proof (socket_aio_add_linked fuel aio iod w h l Hhandle Hlist Hfuel
                Hallocated Hfresh Hevent Hselected Hport) as Hrun.
  pose proof (iocp_chain_added _ l _ (allocated w) iod (created_event w)
                Hlist Hfresh Hallocated) as Hchain.
  cbn zeta in Hrun. destruct (last l) as [x |] eqn:Hlast.
  - eexists _, h. split; [exact Hrun |]. cbn. by auto.
  - apply last_None in Hlast as ->.
    eexists _, _. split; [exact Hrun |]. cbn.
    split; [by rewrite lookup_insert_eq |]. cbn.
    do 2 (split; [done |]).
    split; [| done]. intros a Ha. by rewrite lookup_insert_ne.
Qed.

(** X28: a [socket_aio_add] that returns another status than 0 leaves the
    list and the heap as they were.  The status tells the call that failed
    (-1 [malloc], -2 [WSACreateEvent], -3 [WSAEventSelect], -4
    [CreateIoCompletionPort]), and what the calls before it acquired is
    released: the entry is freed, and the event object is closed first when
    it was created. *)
Theorem aio_add_failure_rolls_back (fuel : nat) (aio iod : Z)
    (w w' : SocketOsWin32.windows) (status : Z)
    (Hrun : aio_add fuel aio iod w = Ok (status, w'))
    (Hfailed : status <> 0)
    (Hfresh : SocketOsWin32.w_entries w !! allocated w = None) :
  SocketOsWin32.w_handles w' = SocketOsWin32.w_handles w /\
  SocketOsWin32.w_entries w' = SocketOsWin32.w_entries w /\
  let released :=
    [SocketOsWin32.WSACloseEvent (created_event w);
     SocketOsWin32.WinFree (allocated w)] in
  ((status = -1 /\ allocated w = 0 /\
    SocketOsWin32.w_calls w' =
      SocketOsWin32.w_calls w ++ [SocketOsWin32.WinMalloc sizeof_iocp_socket]) \/
   (status = -2 /\ created_event w = WSA_INVALID_EVENT /\
    SocketOsWin32.w_calls w' =
      SocketOsWin32.w_calls w
      ++ [SocketOsWin32.WinMalloc sizeof_iocp_socket; SocketOsWin32.WSACreateEvent;
          SocketOsWin32.WinFree (allocated w)]) \/
   (status = -3 /\ selected w iod = SOCKET_ERROR /\
    SocketOsWin32.w_calls w' =
      SocketOsWin32.w_calls w
      ++ [SocketOsWin32.WinMalloc sizeof_iocp_socket; SocketOsWin32.WSACreateEvent;
          SocketOsWin32.WSAEventSelect iod (created_event w)
            (SocketOsWin32.add_mask FD_ACCEPT FD_READ FD_CLOSE)]
      ++ released) \/
   (status = -4 /\
    exists h,
      SocketOsWin32.w_handles w !! aio = Some h /\
      completion_port w iod (SocketOsWin32.iocp h) = 0 /\
      SocketOsWin32.w_calls w' =
        SocketOsWin32.w_calls w ++ calls_of_add w iod (SocketOsWin32.iocp h)
        ++ released)).
Proof.
  revert Hrun. unfold SocketOsWin32.socket_aio_add.
  unfold SocketOsWin32.add_allocated, SocketOsWin32.add_selected,
    SocketOsWin32.add_port, SocketOsWin32.add_calls, SocketOsWin32.add_mask in *.
  unfold SocketOsWin32.add_event in *.
  run_win.
  destruct (Z.eqb_spec (SocketOsWin32.api_malloc api (SocketOsWin32.w_calls w)
                          sizeof_iocp_socket) 0) as [Hq | Hq]; cbn.
  { intros [= <- <-]. cbn. do 2 (split; [done |]). left. done. }
  destruct (Z.eqb_spec (SocketOsWin32.api_WSACreateEvent api
                          (SocketOsWin32.w_calls w
                           ++ [SocketOsWin32.WinMalloc sizeof_iocp_socket]))
              WSA_INVALID_EVENT) as [Hev | Hev]; cbn.
  { intros [= <- <-]. cbn. split; [done |].
    split; [by rewrite delete_insert_eq, delete_id |].
    right. left. rewrite <- !app_assoc. done. }
  rewrite <- !app_assoc. cbn [app].
  destruct (Z.eqb_spec
              (SocketOsWin32.api_WSAEventSelect api
                 (SocketOsWin32.w_calls w
                  ++ [SocketOsWin32.WinMalloc sizeof_iocp_socket;
                      SocketOsWin32.WSACreateEvent])
                 iod
                 (SocketOsWin32.api_WSACreateEvent api
                    (SocketOsWin32.w_calls w
                     ++ [SocketOsWin32.WinMalloc sizeof_iocp_socket]))
                 (Z.lor (Z.lor FD_ACCEPT FD_READ) FD_CLOSE))
              SOCKET_ERROR) as [Hsel | Hsel]; cbn.
  { intros [= <- <-]. cbn. split; [done |].
    split; [by rewrite delete_insert_eq, delete_id |].
    right. right. left. do 2 (split; [done |]).
    rewrite <- !app_assoc. done. }
  destruct (SocketOsWin32.w_handles w !! aio) as [h |] eqn:Hh; cbn; [| done].
  rewrite <- !app_assoc. cbn [app].
  destruct (Z.eqb_spec
              (SocketOsWin32.api_CreateIoCompletionPort api
                 (SocketOsWin32.w_calls w
                  ++ [SocketOsWin32.WinMalloc sizeof_iocp_socket;
                      SocketOsWin32.WSACreateEvent;
                      SocketOsWin32.WSAEventSelect iod
                        (SocketOsWin32.api_WSACreateEvent api
                           (SocketOsWin32.w_calls w
                            ++ [SocketOsWin32.WinMalloc sizeof_iocp_socket]))
                        (Z.lor (Z.lor FD_ACCEPT FD_READ) FD_CLOSE)])
                 iod (SocketOsWin32.iocp h) (SocketOsWin32.DWORD iod) 0) 0)
    as [Hport | Hport]; cbn.
  { intros [= <- <-]. cbn. split; [done |].
    split; [by rewrite delete_insert_eq, delete_id |].
    right. right. right. split; [done |]. exists h.
    do 2 (split; [done |]). rewrite <- !app_assoc. done. }
  destruct (SocketOsWin32.head h =? 0); cbn.
  { intros [= <- _]. done. }
  match goal with
  | |- context [SocketOsWin32.last_entry ?f ?p ?s] =>
      destruct (SocketOsWin32.last_entry f p s) as [[a w1] | |]; [| done | done]
  end.
  cbn. destruct (SocketOsWin32.w_entries w1 !! a); cbn; [| done].
  intros [= <- _]. done.
Qed.

(** X29: [socket_aio_remove] of a socket that is not in the list returns -1
    and changes nothing.  Otherwise it returns 0 and takes the first entry
    with that socket out of the list: the other entries stay, in their
    order, the event object of the entry is closed and the entry is freed,
    in this order. *)
Theorem aio_remove_unlinks_first_match (fuel : nat) (aio iod : Z)
    (w : SocketOsWin32.windows) (h : SocketOsWin32.iocp_handle)
    (l : list SocketOsWin32.registration)
    (Hhandle : SocketOsWin32.w_handles w !! aio = Some h)
    (Hlist : chain (SocketOsWin32.w_entries w) (SocketOsWin32.head h) l = true)
    (Hfuel : (length l < fuel)%nat) :
  (Forall (fun y => SocketOsWin32.reg_socket y <> iod) l ->
   SocketOsWin32.socket_aio_remove fuel aio iod w = Ok (-1, w)) /\
  (forall l1 x l2,
     l = l1 ++ x :: l2 ->
     Forall (fun y => SocketOsWin32.reg_socket y <> iod) l1 ->
     SocketOsWin32.reg_socket x = iod ->
     exists w' h',
       SocketOsWin32.socket_aio_remove fuel aio iod w = Ok (0, w') /\
       SocketOsWin32.w_handles w' !! aio = Some h' /\
       SocketOsWin32.iocp h' = SocketOsWin32.iocp h /\
       chain (SocketOsWin32.w_entries w') (SocketOsWin32.head h') (l1 ++ l2) = true /\
       SocketOsWin32.w_entries w' !! address x = None /\
       SocketOsWin32.w_calls w' =
         SocketOsWin32.w_calls w
         ++ [SocketOsWin32.WSACloseEvent (SocketOsWin32.reg_events x);
             SocketOsWin32.WinFree (address x)]).
Proof.
  split.
  - intros Habsent. unfold SocketOsWin32.socket_aio_remove.
    unfold bind at 1. unfold SocketOsWin32.load_handle at 1. rewrite Hhandle.
    unfold bind at 1.
    by rewrite (find_entry_absent fuel aio iod l _ 0 w Hlist Habsent Hfuel).
  - intros l1 x l2 -> Hbefore Hx.
    pose proof (socket_aio_remove_found fuel aio iod w h l1 x l2 Hhandle Hlist
                  Hbefore Hx) as Hrun.
    rewrite length_app in Hfuel. specialize (Hrun ltac:(lia)).
    pose proof (iocp_chain_unlink _ _ _ _ _ Hlist) as Hchain.
    cbn zeta in Hrun. destruct (last l1) as [y |] eqn:Hlast.
    + eexists _, h. split; [exact Hrun |]. cbn.
      do 3 (split; [done |]). split; [by rewrite lookup_delete_eq | done].
    + apply last_None in Hlast as ->.
      eexists _, _. split; [exact Hrun |]. cbn.
      split; [by rewrite lookup_insert_eq |]. cbn.
      do 2 (split; [done |]). split; [by rewrite lookup_delete_eq | done].
Qed.

(** X30: adding a socket that is not in the list and removing it again
    leaves every handle and the whole heap exactly as they were before: the
    list of the completion port is the old one, and the event object and
    the entry that the add acquired are released by the remove. *)
Theorem aio_add_then_remove_restores (fuel : nat) (aio iod : Z)
    (w : SocketOsWin32.windows) (h : SocketOsWin32.iocp_handle)
    (l : list SocketOsWin32.registration)
    (Hhandle : SocketOsWin32.w_handles w !! aio = Some h)
    (Hlist : chain (SocketOsWin32.w_entries w) (SocketOsWin32.head h) l = true)
    (Hfuel : (length l < fuel)%nat)
    (Habsent : Forall (fun y => SocketOsWin32.reg_socket y <> iod) l)
    (Hallocated : allocated w <> 0)
    (Hfresh : SocketOsWin32.w_entries w !! allocated w = None)
    (Hevent : created_event w <> WSA_INVALID_EVENT)
    (Hselected : selected w iod <> SOCKET_ERROR)
    (Hport : completion_port w iod (SocketOsWin32.iocp h) <> 0) :
  exists w1,
    aio_add fuel aio iod w = Ok (0, w1) /\
    SocketOsWin32.socket_aio_remove fuel aio iod w1 =
      Ok (0,
          SocketOsWin32.mk_windows (SocketOsWin32.w_handles w)
            (SocketOsWin32.w_entries w)
            (SocketOsWin32.w_calls w
             ++ calls_of_add w iod (SocketOsWin32.iocp h)
             ++ [SocketOsWin32.WSACloseEvent (created_event w);
                 SocketOsWin32.WinFree (allocated w)])).
Proof.
  pose proof (socket_aio_add_linked fuel aio iod w h l Hhandle Hlist
                ltac:(lia) Hallocated Hfresh Hevent Hselected Hport) as Hrun.
  pose proof (iocp_chain_added _ l _ (allocated w) iod (created_event w)
                Hlist Hfresh Hallocated) as Hchain.
  eexists. split; [exact Hrun |]. cbn zeta.
  destruct (last l) as [x |] eqn:Hlast.
  - rewrite (socket_aio_remove_found fuel aio iod _ h l
               (SocketOsWin32.mk_registration (allocated w) iod (created_event w)) []);
      [| exact Hhandle | exact Hchain | exact Habsent | reflexivity | exact Hfuel].
    rewrite Hlast. cbn.
    apply last_Some in Hlast as [l' ->].
    destruct (iocp_chain_lookup _ _ _ x Hlist) as [_ [n Hn]];
      [apply elem_of_app; right; by left |].
    assert (n = 0) as ->.
    { apply iocp_chain_suffix in Hlist.
      assert (exists p, chain (SocketOsWin32.w_entries w) p [x] = true)
        as [p (-> & _ & n' & Hn' & ->%iocp_chain_nil)%iocp_chain_cons]
        by (destruct l'; eauto).
      congruence. }
    assert (allocated w <> address x) as Hne by congruence.
    rewrite insert_insert_eq, delete_insert_ne, delete_insert_eq by done.
    rewrite delete_id by done. rewrite insert_id by done.
    by rewrite <- !app_assoc.
  - apply last_None in Hlast as ->. apply iocp_chain_nil in Hlist.
    rewrite (socket_aio_remove_found fuel aio iod _
               (SocketOsWin32.mk_iocp_handle (SocketOsWin32.iocp h) (allocated w)) []
               (SocketOsWin32.mk_registration (allocated w) iod (created_event w)) []);
      [| by cbn; rewrite lookup_insert_eq | exact Hchain | done | reflexivity
       | exact Hfuel].
    cbn. rewrite insert_insert_eq, delete_insert_eq, delete_id by done.
    rewrite insert_id; [by rewrite <- !app_assoc |].
    rewrite Hhandle. f_equal. destruct h; cbn in *. by rewrite Hlist.
Qed.

End IocpProperties.

Lemma aio_add_appends_entry_witness :
  exists w' h',
    SocketOsWin32.socket_aio_add 0 (-1) 8 1 32 24 (Cases.winapi_giving 4128 70 0 88)
        2 1 7 Cases.two_sockets = Ok (0, w') /\
    SocketOsWin32.w_handles w' !! 1 = Some h' /\
    SocketOsWin32.iocp_chain (SocketOsWin32.w_entries w') (SocketOsWin32.head h')
      [Cases.registered_5; Cases.registered_6;
       SocketOsWin32.mk_registration 4128 7 70] = true.
Proof.
  assert (SocketOsWin32.w_handles Cases.two_sockets !! 1
          = Some (SocketOsWin32.mk_iocp_handle 77 4096)) as Hhandle by reflexivity.
  assert (SocketOsWin32.iocp_chain (SocketOsWin32.w_entries Cases.two_sockets)
            (SocketOsWin32.head (SocketOsWin32.mk_iocp_handle 77 4096))
            [Cases.registered_5; Cases.registered_6] = true) as Hlist by reflexivity.
  assert ((length [Cases.registered_5; Cases.registered_6] <= 2)%nat)
    as Hfuel by (cbn; lia).
  assert (SocketOsWin32.add_allocated 24 (Cases.winapi_giving 4128 70 0 88)
            Cases.two_sockets <> 0) as Hallocated by discriminate.
  assert (SocketOsWin32.w_entries Cases.two_sockets
            !! SocketOsWin32.add_allocated 24 (Cases.winapi_giving 4128 70 0 88)
                 Cases.two_sockets = None) as Hfresh by reflexivity.
  assert (SocketOsWin32.add_event 24 (Cases.winapi_giving 4128 70 0 88)
            Cases.two_sockets <> 0) as Hevent by discriminate.
  assert (SocketOsWin32.add_selected 8 1 32 24 (Cases.winapi_giving 4128 70 0 88)
            Cases.two_sockets 7 <> -1) as Hselected by discriminate.
  assert (SocketOsWin32.add_port 8 1 32 24 (Cases.winapi_giving 4128 70 0 88)
            Cases.two_sockets 7
            (SocketOsWin32.iocp (SocketOsWin32.mk_iocp_handle 77 4096)) <> 0)
    as Hport by discriminate.
  destruct (aio_add_appends_entry 0 (-1) 8 1 32 24 (Cases.winapi_giving 4128 70 0 88)
              2 1 7 Cases.two_sockets (SocketOsWin32.mk_iocp_handle 77 4096)
              [Cases.registered_5; Cases.registered_6]
              Hhandle Hlist Hfuel Hallocated Hfresh Hevent Hselected Hport)
    as (w' & h' & Hrun & Hh' & _ & Hchain & _).
  exists w', h'. split; [exact Hrun |]. split; [exact Hh' | exact Hchain].
Defined.

Lemma aio_add_failure_rolls_back_witness :
  exists w',
    SocketOsWin32.socket_aio_add 0 (-1) 8 1 32 24
        (Cases.winapi_giving 4128 70 (-1) 88) 2 1 7 Cases.two_sockets = Ok (-3, w') /\
    SocketOsWin32.w_entries w' = SocketOsWin32.w_entries Cases.two_sockets /\
    SocketOsWin32.w_handles w' = SocketOsWin32.w_handles Cases.two_sockets.
Proof.
  assert ({w' | SocketOsWin32.socket_aio_add 0 (-1) 8 1 32 24
                  (Cases.winapi_giving 4128 70 (-1) 88) 2 1 7 Cases.two_sockets
                = Ok (-3, w')}) as [w' Hrun] by (eexists; vm_compute; reflexivity).
  assert (-3 <> 0) as Hfailed by discriminate.
  assert (SocketOsWin32.w_entries Cases.two_sockets
            !! SocketOsWin32.add_allocated 24 (Cases.winapi_giving 4128 70 (-1) 88)
                 Cases.two_sockets = None) as Hfresh by reflexivity.
  destruct (aio_add_failure_rolls_back 0 (-1) 8 1 32 24
              (Cases.winapi_giving 4128 70 (-1) 88) 2 1 7 Cases.two_sockets w' (-3)
              Hrun Hfailed Hfresh) as (Hhandles & Hentries & _).
  exists w'. split; [exact Hrun |]. split; [exact Hentries | exact Hhandles].
Defined.

Lemma aio_remove_unlinks_first_match_witness :
  exists w' h',
    SocketOsWin32.socket_aio_remove 3 1 6 Cases.two_sockets = Ok (0, w') /\
    SocketOsWin32.w_handles w' !! 1 = Some h' /\
    SocketOsWin32.iocp_chain (SocketOsWin32.w_entries w') (SocketOsWin32.head h')
      [Cases.registered_5] = true /\
    SocketOsWin32.w_calls w' =
      [SocketOsWin32.WSACloseEvent 60; SocketOsWin32.WinFree 4112].
Proof.
  assert (SocketOsWin32.w_handles Cases.two_sockets !! 1
          = Some (SocketOsWin32.mk_iocp_handle 77 4096)) as Hhandle by reflexivity.
  assert (SocketOsWin32.iocp_chain (SocketOsWin32.w_entries Cases.two_sockets)
            (SocketOsWin32.head (SocketOsWin32.mk_iocp_handle 77 4096))
            [Cases.registered_5; Cases.registered_6] = true) as Hlist by reflexivity.
  assert ((length [Cases.registered_5; Cases.registered_6] < 3)%nat)
    as Hfuel by (cbn; lia).
  destruct (aio_remove_unlinks_first_match 3 1 6 Cases.two_sockets
              (SocketOsWin32.mk_iocp_handle 77 4096)
              [Cases.registered_5; Cases.registered_6] Hhandle Hlist Hfuel)
    as [_ Hfound].
  assert (Forall (fun y => SocketOsWin32.reg_socket y <> 6) [Cases.registered_5])
    as Hbefore by (repeat constructor; discriminate).
  destruct (Hfound [Cases.registered_5] Cases.registered_6 [] eq_refl Hbefore eq_refl)
    as (w' & h' & Hrun & Hh' & _ & Hchain & _ & Hcalls).
  exists w', h'. split; [exact Hrun |]. split; [exact Hh' |].
  split; [exact Hchain | exact Hcalls].
Defined.

Lemma aio_add_then_remove_restores_witness :
  exists w1,
    SocketOsWin32.socket_aio_add 0 (-1) 8 1 32 24 (Cases.winapi_giving 4128 70 0 88)
        3 1 7 Cases.two_sockets = Ok (0, w1) /\
    SocketOsWin32.socket_aio_remove 3 1 7 w1 =
      Ok (0,
          SocketOsWin32.mk_windows (SocketOsWin32.w_handles Cases.two_sockets)
            (SocketOsWin32.w_entries Cases.two_sockets)
            [SocketOsWin32.WinMalloc 24; SocketOsWin32.WSACreateEvent;
             SocketOsWin32.WSAEventSelect 7 70 41;
             SocketOsWin32.CreateIoCompletionPort 7 77 7 0;
             SocketOsWin32.WSACloseEvent 70; SocketOsWin32.WinFree 4128]).
Proof.
  assert (SocketOsWin32.w_handles Cases.two_sockets !! 1
          = Some (SocketOsWin32.mk_iocp_handle 77 4096)) as Hhandle by reflexivity.
  assert (SocketOsWin32.iocp_chain (SocketOsWin32.w_entries Cases.two_sockets)
            (SocketOsWin32.head (SocketOsWin32.mk_iocp_handle 77 4096))
            [Cases.registered_5; Cases.registered_6] = true) as Hlist by reflexivity.
  assert ((length [Cases.registered_5; Cases.registered_6] < 3)%nat)
    as Hfuel by (cbn; lia).
  assert (Forall (fun y => SocketOsWin32.reg_socket y <> 7)
            [Cases.registered_5; Cases.registered_6])
    as Habsent by (repeat constructor; discriminate).
  assert (SocketOsWin32.add_allocated 24 (Cases.winapi_giving 4128 70 0 88)
            Cases.two_sockets <> 0) as Hallocated by discriminate.
  assert (SocketOsWin32.w_entries Cases.two_sockets
            !! SocketOsWin32.add_allocated 24 (Cases.winapi_giving 4128 70 0 88)
                 Cases.two_sockets = None) as Hfresh by reflexivity.
  assert (SocketOsWin32.add_event 24 (Cases.winapi_giving 4128 70 0 88)
            Cases.two_sockets <> 0) as Hevent by discriminate.
  assert (SocketOsWin32.add_selected 8 1 32 24 (Cases.winapi_giving 4128 70 0 88)
            Cases.two_sockets 7 <> -1) as Hselected by discriminate.
  assert (SocketOsWin32.add_port 8 1 32 24 (Cases.winapi_giving 4128 70 0 88)
            Cases.two_sockets 7
            (SocketOsWin32.iocp (SocketOsWin32.mk_iocp_handle 77 4096)) <> 0)
    as Hport by discriminate.
  exact (aio_add_then_remove_restores 0 (-1) 8 1 32 24
           (Cases.winapi_giving 4128 70 0 88) 3 1 7 Cases.two_sockets
           (SocketOsWin32.mk_iocp_handle 77 4096)
           [Cases.registered_5; Cases.registered_6]
           Hhandle Hlist Hfuel Habsent Hallocated Hfresh Hevent Hselected Hport).
Defined.
